(** * dev_utils/theme_builder.py: a shallow embedding and its properties

    The script builds the html documentation once per theme branch.  It
    keeps a scratch git repository, lists the remote branches that end
    with [-theme], extracts what the last commit of such a branch added
    to a file, appends that to the shared [doc/conf.py] in a scratch
    copy of the documentation, and runs Sphinx' [build_main] there.

    Python [str] values are [string]s (characters are code points below
    256), and so are the bytes of a file; Python lists are [list]s,
    exceptions are an explicit error type, and the mutable world (file
    system, calls of the build tool) is passed explicitly. *)

From Stdlib Require Import String Ascii List Bool Arith ZArith Lia.
Import ListNotations.
Open Scope list_scope.
Open Scope string_scope.

(** ** Exceptions and fallible computations *)

(** The exceptions the script can raise, by their Python class. *)
Inductive exn : Type :=
| ValueError                (* tuple unpacking of a list that has not 2 items *)
| IndexError                (* [split("/")[1]] on a name without a slash *)
| InvalidThemeException (invalid_themes valid_themes : list string)
| BuildException            (* [Exception("An Error occurred building the docs.")] *)
| FileNotFoundError (path : string)
| FileExistsError (path : string)
| AttributeError (name : string)
| OSError (path : string)     (* any other [OSError]: a directory where a file
                                is expected or the reverse, a reference that
                                is there already *)
| UnicodeDecodeError          (* bytes that are no text in the encoding used *)
| UnicodeEncodeError.         (* text the encoding used has no bytes for *)

Inductive result (A : Type) : Type :=
| Ok (a : A)
| Raise (e : exn).
Arguments Ok {A} a.
Arguments Raise {A} e.

Definition bind {A B : Type} (m : result A) (k : A -> result B) : result B :=
  match m with
  | Ok a => k a
  | Raise e => Raise e
  end.

Notation "x <- m ;; k" := (bind m (fun x => k))
  (at level 61, m at next level, right associativity).

(** Code that changes a state [S] and may raise: the state at the time
    of the exception is kept. *)
Definition M (S A : Type) : Type := S -> result A * S.

Definition ret {S A : Type} (a : A) : M S A := fun s => (Ok a, s).

Definition raise {S A : Type} (e : exn) : M S A := fun s => (Raise e, s).

Definition bindM {S A B : Type} (m : M S A) (k : A -> M S B) : M S B :=
  fun s =>
    match m s with
    | (Ok a, s') => k a s'
    | (Raise e, s') => (Raise e, s')
    end.

Notation "x <~ m ;; k" := (bindM m (fun x => k))
  (at level 61, m at next level, right associativity).

(** A computation that only reads the state. *)
Definition lift {S A : Type} (f : S -> result A) : M S A := fun s => (f s, s).

(** A computation that replaces the state when it succeeds. *)
Definition change {S : Type} (f : S -> result S) : M S unit :=
  fun s =>
    match f s with
    | Ok s' => (Ok tt, s')
    | Raise e => (Raise e, s)
    end.

(** [for x in l: body(x)] *)
Fixpoint for_each {S X : Type} (l : list X) (body : X -> M S unit) : M S unit :=
  match l with
  | [] => ret tt
  | x :: rest => _ <~ body x ;; for_each rest body
  end.

(** ** The methods of [str] the script uses *)
Module PyStr.

(** [s.startswith(p)], returning what follows the prefix. *)
Fixpoint strip_prefix (p s : string) : option string :=
  match p, s with
  | EmptyString, _ => Some s
  | String a p', String b s' =>
      if Ascii.eqb a b then strip_prefix p' s' else None
  | String _ _, EmptyString => None
  end.

Definition startswith (s p : string) : bool :=
  match strip_prefix p s with Some _ => true | None => false end.

(** [s.endswith(suffix)]. *)
Fixpoint endswith (s suffix : string) : bool :=
  String.eqb s suffix
  || match s with
     | EmptyString => false
     | String _ s' => endswith s' suffix
     end.

(** [s.split(sep)] for a separator of one character. *)
Fixpoint split (sep : ascii) (s : string) : list string :=
  match s with
  | EmptyString => [EmptyString]
  | String a s' =>
      if Ascii.eqb a sep then EmptyString :: split sep s'
      else match split sep s' with
           | [] => [String a EmptyString]
           | w :: ws => String a w :: ws
           end
  end.

(** [s.replace(old, new, 1)]: the leftmost occurrence only. *)
Fixpoint replace1 (old new s : string) : string :=
  match strip_prefix old s with
  | Some rest => new ++ rest
  | None =>
      match s with
      | EmptyString => EmptyString
      | String a s' => String a (replace1 old new s')
      end
  end.

(** [x in l] for a list of strings. *)
Definition mem (x : string) (l : list string) : bool :=
  existsb (String.eqb x) l.

(** The characters at which [str.splitlines] ends a line: LF, VT, FF,
    CR, FS, GS, RS and NEL (U+2028 and U+2029 are outside the
    alphabet of [string]). *)
Definition is_linebreak (a : ascii) : bool :=
  let n := nat_of_ascii a in
  existsb (Nat.eqb n) [10; 11; 12; 13; 28; 29; 30; 133].

Definition LF : ascii := ascii_of_nat 10.
Definition CR : ascii := ascii_of_nat 13.
Definition FF : ascii := ascii_of_nat 12.

(** [s.splitlines(keepends=True)]; CR LF is one line end. *)
Fixpoint splitlines (s : string) : list string :=
  match s with
  | EmptyString => []
  | String a s' =>
      match s' with
      | String b s'' =>
          if Ascii.eqb a CR && Ascii.eqb b LF
          then String a (String b EmptyString) :: splitlines s''
          else if is_linebreak a then String a EmptyString :: splitlines s'
          else match splitlines s' with
               | [] => [String a EmptyString]
               | l :: ls => String a l :: ls
               end
      | EmptyString => [String a EmptyString]
      end
  end.

(** ["".join(l)]. *)
Definition join (l : list string) : string :=
  fold_right String.append EmptyString l.

(** What reading in text mode with [newline=None] makes of the decoded
    text: CR LF and a CR alone become LF. *)
Fixpoint universal_newlines (s : string) : string :=
  match s with
  | EmptyString => EmptyString
  | String a s' =>
      if Ascii.eqb a CR
      then String LF
             match s' with
             | String b s'' =>
                 if Ascii.eqb b LF then universal_newlines s''
                 else universal_newlines s'
             | EmptyString => EmptyString
             end
      else String a (universal_newlines s')
  end.

End PyStr.

(** ** [os.path.join] (posixpath) for two components *)
Module OsPath.

Definition join (a b : string) : string :=
  if PyStr.startswith b "/" then b
  else if String.eqb a "" || PyStr.endswith a "/" then a ++ b
  else a ++ "/" ++ b.

End OsPath.

(** ** The module constants

    [REPO_ROOT_DIR] is [os.path.abspath] of the parent of the script's
    directory; it is the parameter [root] of everything below. *)
Definition ROOT_DOC_DIR (root : string) : string := OsPath.join root "doc".
Definition DEV_UTILS_DIR (root : string) : string := OsPath.join root "dev_utils".
Definition TEMP_DIR (root : string) : string := OsPath.join (DEV_UTILS_DIR root) "tmp".
Definition TEMP_DOC_DIR (root : string) : string := OsPath.join (TEMP_DIR root) "doc".
Definition TEMP_BUILD_ROOT_DIR (root : string) : string :=
  OsPath.join (DEV_UTILS_DIR root) "_build".

(** ** Text encodings

    A file holds bytes, a [str] holds code points.  [open] without
    [encoding] takes the encoding of the locale,
    [locale.getpreferredencoding(False)], and [errors="strict"]:
    bytes that are no text in it, and text it has no bytes for, raise.
    Both sides are [string]s here: the bytes of a file, and the code
    points (below 256) of a text; an encoding is given as far as it
    goes on such texts. *)
Module Encoding.

Record t : Type := {
  decode : string -> option string;
  encode : string -> option string
}.

(** ISO 8859-1: the byte [n] is the code point [n]. *)
Definition latin_1 : t := {| decode := Some; encode := Some |}.

Fixpoint below_128 (s : string) : bool :=
  match s with
  | EmptyString => true
  | String a s' => Nat.ltb (nat_of_ascii a) 128 && below_128 s'
  end.

(** US-ASCII, the encoding of the C locale. *)
Definition us_ascii : t :=
  {| decode := fun b => if below_128 b then Some b else None;
     encode := fun s => if below_128 s then Some s else None |}.

End Encoding.

(** ** The file system, as far as [shutil] and [open] act on it *)
Module Fs.

Inductive node : Type :=
| File (content : string)
| Dir.

(** A file system maps a path to what is there. *)
Definition t : Type := string -> option node.

(** [p] lies below the directory [d]. *)
Definition inside (d p : string) : bool := PyStr.startswith p (d ++ "/").

Definition update (path : string) (n : node) (fs : t) : t :=
  fun p => if String.eqb p path then Some n else fs p.

(** [shutil.rmtree(d, ignore_errors=True)]: removes a directory with
    all below it; anything else (nothing there, a plain file) is an
    error, which is ignored. *)
Definition rmtree (d : string) (fs : t) : t :=
  match fs d with
  | Some Dir => fun p => if String.eqb p d || inside d p then None else fs p
  | _ => fs
  end.

(** [os.makedirs(d)]: [d] and its missing parents become directories. *)
Definition makedirs (d : string) (fs : t) : t :=
  fun p =>
    if String.eqb p d || inside p d
    then match fs p with Some n => Some n | None => Some Dir end
    else fs p.

(** [shutil.copytree(src, dst)]. *)
Definition copytree (src dst : string) (fs : t) : result t :=
  match fs src with
  | Some Dir =>
      match fs dst with
      | Some _ => Raise (FileExistsError dst)
      | None =>
          Ok (fun p =>
                match PyStr.strip_prefix (dst ++ "/") p with
                | Some rel => fs (src ++ "/" ++ rel)
                | None => makedirs dst fs p
                end)
      end
  | Some (File _) => Raise (OSError src)
  | None => Raise (FileNotFoundError src)
  end.

(** [open(path, "rb").read()]: the bytes of the file. *)
Definition read (path : string) (fs : t) : result string :=
  match fs path with
  | Some (File content) => Ok content
  | Some Dir => Raise (OSError path)
  | None => Raise (FileNotFoundError path)
  end.

(** [open(os.path.join(dir, name), "wb").write(content)], bytes: the
    directory has to be there, and the path must not be a directory. *)
Definition write (dir name content : string) (fs : t) : result t :=
  let path := OsPath.join dir name in
  match fs dir, fs path with
  | Some Dir, Some Dir => Raise (OSError path)
  | Some Dir, _ => Ok (update path (File content) fs)
  | Some (File _), _ => Raise (OSError path)
  | None, _ => Raise (FileNotFoundError path)
  end.

(** [shutil.copyfile(src, os.path.join(dir, name))]. *)
Definition copyfile (src dir name : string) (fs : t) : result t :=
  content <- read src fs ;;
  write dir name content fs.

(** [open(path).read()], text mode: the bytes are decoded, and the
    line ends of the text are made LF. *)
Definition read_text (c : Encoding.t) (path : string) (fs : t) : result string :=
  content <- read path fs ;;
  match Encoding.decode c content with
  | Some text => Ok (PyStr.universal_newlines text)
  | None => Raise UnicodeDecodeError
  end.

(** [open(os.path.join(dir, name), "w")]: the file is made, or is
    emptied when it is there. *)
Definition open_w (dir name : string) (fs : t) : result t :=
  write dir name "" fs.

(** [with open(os.path.join(dir, name), "w") as f: f.write(text)]: the
    file is opened, and so emptied, before the text is encoded; when
    that raises, the file stays empty.  (On POSIX, where [os.linesep]
    is LF, writing translates no line end.) *)
Definition write_text (c : Encoding.t) (dir name text : string) : M t unit :=
  _ <~ change (open_w dir name) ;;
  match Encoding.encode c text with
  | Some content => fun fs => (Ok tt, update (OsPath.join dir name) (File content) fs)
  | None => raise UnicodeEncodeError
  end.

End Fs.

(** ** The git repository, as far as GitPython shows it to the script *)
Module Git.

(** A commit, by its hexsha. *)
Definition Commit : Type := string.

(** [Diff.change_type] *)
Inductive ChangeType : Type := A | D | R | M | T.

Definition is_M (c : ChangeType) : bool :=
  match c with M => true | _ => false end.

(** One entry of a [DiffIndex] made with [create_patch=True]: [diff]
    is the patch of one file, from its first hunk header on, already
    decoded. *)
Record Diff : Type := {
  change_type : ChangeType;
  diff : string
}.

(** The object database: the history of a revision, newest commit
    first, and the diff of two commits restricted to a path (made with
    [unified=0]). *)
Record Odb : Type := {
  rev_list : string -> list Commit;
  diff_index : Commit -> Commit -> string -> list Diff
}.

(** [repo.iter_commits(rev, max_count=n)] *)
Definition iter_commits (o : Odb) (rev : string) (max_count : nat) : list Commit :=
  firstn max_count (rev_list o rev).

(** The references of a repository: its remotes (name, url), its
    remote-tracking branches (full name [remote/branch], tip) in the
    order they are enumerated, and its local heads. *)
Record Repo : Type := {
  remotes : list (string * string);
  remote_refs : list (string * Commit);
  heads : list (string * Commit)
}.

(** [git.Repo.init(path)] *)
Definition init : Repo :=
  {| remotes := []; remote_refs := []; heads := [] |}.

Fixpoint lookup {V : Type} (k : string) (l : list (string * V)) : option V :=
  match l with
  | [] => None
  | (k', v) :: l' => if String.eqb k k' then Some v else lookup k l'
  end.

(** Sets the value of [k] where it is listed, or lists it last. *)
Fixpoint set {V : Type} (k : string) (v : V) (l : list (string * V)) : list (string * V) :=
  match l with
  | [] => [(k, v)]
  | (k', v') :: l' =>
      if String.eqb k k' then (k, v) :: l' else (k', v') :: set k v l'
  end.

(** [name in repo.remotes] *)
Definition has_remote (name : string) (r : Repo) : bool :=
  match lookup name (remotes r) with Some _ => true | None => false end.

(** [repo.create_remote(name, url)], called for a name not yet there. *)
Definition create_remote (name url : string) (r : Repo) : Repo :=
  {| remotes := (remotes r ++ [(name, url)])%list;
     remote_refs := remote_refs r;
     heads := heads r |}.

(** [remote.fetch()]: every branch of the other side, given as
    [upstream], sets the remote-tracking branch of its name. *)
Definition fetch (name : string) (upstream : list (string * Commit)) (r : Repo) : Repo :=
  {| remotes := remotes r;
     remote_refs :=
       fold_left (fun refs bc => set (name ++ "/" ++ fst bc) (snd bc) refs)
                 upstream (remote_refs r);
     heads := heads r |}.

(** [remote.refs]: the names of the remote-tracking branches of the
    remote [name]. *)
Definition refs (name : string) (r : Repo) : list string :=
  filter (fun n => PyStr.startswith n (name ++ "/")) (map fst (remote_refs r)).

(** [remote.refs.<branch>], resolved to its commit. *)
Definition remote_ref (name branch : string) (r : Repo) : result Commit :=
  match lookup (name ++ "/" ++ branch) (remote_refs r) with
  | Some c => Ok c
  | None => Raise (AttributeError branch)
  end.

(** [repo.create_head(path, commit)], with GitPython's [force=False]:
    a head of that name pointing elsewhere is an [OSError]; one that
    points to [commit] already, or none, is (re)written. *)
Definition create_head (path : string) (commit : Commit) (r : Repo) : result Repo :=
  match lookup path (heads r) with
  | Some existing =>
      if String.eqb existing commit then Ok r
      else Raise (OSError ("refs/heads/" ++ path))
  | None =>
      Ok {| remotes := remotes r;
            remote_refs := remote_refs r;
            heads := set path commit (heads r) |}
  end.

End Git.

(** ** [ThemeBuilder] *)

(** What the script's surroundings are: where the repository is, the
    encoding of the locale, what the object database of the scratch
    repository answers, and the status [sphinx.cmd.build.build_main]
    returns for an argument list (it reads the staged tree). *)
Record Env : Type := {
  REPO_ROOT_DIR : string;
  encoding : Encoding.t;
  odb : Git.Odb;
  build_main : Fs.t -> list string -> Z
}.

Definition remote_name : string := "upstream_diff_repo".
Definition remote_url : string := "git@github.com:spatialaudio/nbsphinx.git".

(** [prepare_git]: the state is the repository at [TEMP_DIR], when
    [TEMP_DIR/.git] is a directory; [upstream] is what a fetch would
    bring.  Returns [self.repo]; [self.remote] is its remote
    [remote_name]. *)
Definition prepare_git (upstream : list (string * Git.Commit)) :
    M (option Git.Repo) Git.Repo :=
  fun disk =>
    let '(repo, fetch_needed) :=
      match disk with
      | Some r => (r, false)
      | None => (Git.init, true)
      end in
    let repo :=
      if negb (Git.has_remote remote_name repo)
      then Git.create_remote remote_name remote_url repo
      else repo in
    let repo := if fetch_needed then Git.fetch remote_name upstream repo else repo in
    match (master <- Git.remote_ref remote_name "master" repo ;;
           Git.create_head "master" master repo) with
    | Ok repo' => (Ok repo', Some repo')
    | Raise e => (Raise e, Some repo)
    end.

(** [fetch_remote] *)
Definition fetch_remote (upstream : list (string * Git.Commit)) (repo : Git.Repo) : Git.Repo :=
  Git.fetch remote_name upstream repo.

(** [get_theme_branch_refs] *)
Definition get_theme_branch_refs (repo : Git.Repo) : list string :=
  fold_left
    (fun theme_branche_refs remote_brach =>
       if PyStr.endswith remote_brach "-theme"
       then (theme_branche_refs ++ [remote_brach])%list
       else theme_branche_refs)
    (Git.refs remote_name repo) [].

(** The attributes of a [ThemeBuilder] object. *)
Record ThemeBuilder : Type := {
  repo : Git.Repo;
  theme_branche_refs : list string;
  build_args : list string;
  shared_cache_args : list string
}.

(** [__init__] *)
Definition ThemeBuilder_init (root : string) (upstream : list (string * Git.Commit)) :
    M (option Git.Repo) ThemeBuilder :=
  r <~ prepare_git upstream ;;
  ret {| repo := r;
         theme_branche_refs := get_theme_branch_refs r;
         build_args := [];
         shared_cache_args := ["-d"; OsPath.join (TEMP_DIR root) "shared_build_cache"] |}.

(** [theme_builder.build_args += ["-a"]], as [cli] does for [-a]. *)
Definition force_all (tb : ThemeBuilder) : ThemeBuilder :=
  {| repo := repo tb;
     theme_branche_refs := theme_branche_refs tb;
     build_args := (build_args tb ++ ["-a"])%list;
     shared_cache_args := shared_cache_args tb |}.

(** The lines of a patch that start with [+], without that [+]:
    the last three lines of the loop body of [get_diff_string]. *)
Definition added_text (patch : string) : string :=
  let diff_lines := PyStr.splitlines patch in
  let added_lines := filter (fun line => PyStr.startswith line "+") diff_lines in
  PyStr.join (map (fun added_line => PyStr.replace1 "+" "" added_line) added_lines).

(** [get_diff_string] *)
Definition get_diff_string (E : Env) (branch_ref file_path : string) : result string :=
  match Git.iter_commits (odb E) branch_ref 2 with
  | [theme_specific_commit; base_branch_commit] =>
      let diff_index :=
        Git.diff_index (odb E) base_branch_commit theme_specific_commit file_path in
      match filter (fun d => Git.is_M (Git.change_type d)) diff_index with
      | diff_item :: _ => Ok (added_text (Git.diff diff_item))
      | [] => Ok ""
      end
  | _ => Raise ValueError
  end.

(** [ref_to_theme_name]:
    [branch_ref.split("/")[1].replace("-theme", "", 1)] *)
Definition ref_to_theme_name (branch_ref : string) : result string :=
  match nth_error (PyStr.split "/" branch_ref) 1 with
  | Some branch => Ok (PyStr.replace1 "-theme" "" branch)
  | None => Raise IndexError
  end.

(** [get_theme_names] *)
Fixpoint theme_names_of (refs : list string) : result (list string) :=
  match refs with
  | [] => Ok []
  | theme_branch_ref :: rest =>
      name <- ref_to_theme_name theme_branch_ref ;;
      names <- theme_names_of rest ;;
      Ok (name :: names)
  end.

Definition get_theme_names (tb : ThemeBuilder) : result (list string) :=
  theme_names_of (theme_branche_refs tb).

(** [validate_theme_list] *)
Definition validate_theme_list (tb : ThemeBuilder) (theme_list : list string) : result unit :=
  valid_themes <- get_theme_names tb ;;
  if PyStr.mem "all" theme_list then Ok tt
  else
    let invalid_themes :=
      fold_left
        (fun invalid_themes theme_name =>
           if negb (PyStr.mem theme_name valid_themes)
           then (invalid_themes ++ [theme_name])%list
           else invalid_themes)
        theme_list [] in
    if negb (Nat.eqb (List.length invalid_themes) 0)
    then Raise (InvalidThemeException invalid_themes valid_themes)
    else Ok tt.

(** [copy_root_docs] *)
Definition copy_root_docs (root : string) : M Fs.t unit :=
  _ <~ (fun fs => (Ok tt, Fs.rmtree (TEMP_DOC_DIR root) fs)) ;;
  _ <~ change (Fs.copytree (ROOT_DOC_DIR root) (TEMP_DOC_DIR root)) ;;
  for_each ["README.rst"; "CONTRIBUTING.rst"]
    (fun file_name =>
       change (Fs.copyfile (OsPath.join root file_name) (TEMP_DIR root) file_name)).

(** [update_theme_conf] *)
Definition update_theme_conf (E : Env) (branch_ref : string) : M Fs.t unit :=
  conf_diff <~ lift (fun _ => get_diff_string E branch_ref "doc/conf.py") ;;
  orig_conf <~
    lift (Fs.read_text (encoding E) (OsPath.join (ROOT_DOC_DIR (REPO_ROOT_DIR E)) "conf.py")) ;;
  Fs.write_text (encoding E) (TEMP_DOC_DIR (REPO_ROOT_DIR E)) "conf.py"
    (orig_conf ++ conf_diff).

(** What a run does that can be seen from outside, in the order it is
    done: staging the documentation, and calling [build_main] (for the
    theme branch [branch_ref]) with an argument list. *)
Inductive event : Type :=
| CopyRootDocs
| BuildMain (branch_ref : string) (args : list string).

Record World : Type := {
  files : Fs.t;
  log : list event
}.

Definition emit (ev : event) : M World unit :=
  fun w => (Ok tt, {| files := files w; log := (log w ++ [ev])%list |}).

(** Runs a computation on the file system in the world. *)
Definition on_files {X : Type} (m : M Fs.t X) : M World X :=
  fun w =>
    let '(r, fs') := m (files w) in
    (r, {| files := fs'; log := log w |}).

(** [branch_ref.split("/")[1]] *)
Definition branch_name_of (branch_ref : string) : result string :=
  match nth_error (PyStr.split "/" branch_ref) 1 with
  | Some branch_name => Ok branch_name
  | None => Raise IndexError
  end.

(** The argument list of [build_theme] for [build_main]. *)
Definition theme_build_args (root : string) (tb : ThemeBuilder)
    (branch_ref branch_name : string) : result (list string) :=
  let dest_dir := OsPath.join (TEMP_BUILD_ROOT_DIR root) branch_name in
  let build_args := ([TEMP_DOC_DIR root; dest_dir] ++ build_args tb)%list in
  theme_name <- ref_to_theme_name branch_ref ;;
  if negb (PyStr.mem theme_name ["guzzle"; "press"])
  then Ok (build_args ++ shared_cache_args tb)%list
  else Ok build_args.

(** [build_theme] *)
Definition build_theme (E : Env) (tb : ThemeBuilder) (branch_ref : string) : M World unit :=
  branch_name <~ lift (fun _ => branch_name_of branch_ref) ;;
  _ <~ on_files (update_theme_conf E branch_ref) ;;
  build_args <~ lift (fun _ => theme_build_args (REPO_ROOT_DIR E) tb branch_ref branch_name) ;;
  _ <~ emit (BuildMain branch_ref build_args) ;;
  status <~ lift (fun w => Ok (build_main E (files w) build_args)) ;;
  if negb (Z.eqb status 0) then raise BuildException else ret tt.

(** The body of the loop of [build_themes]. *)
Definition build_if_selected (E : Env) (tb : ThemeBuilder) (theme_list : list string)
    (branch_ref : string) : M World unit :=
  if PyStr.mem "all" theme_list then build_theme E tb branch_ref
  else
    theme_name <~ lift (fun _ => ref_to_theme_name branch_ref) ;;
    if PyStr.mem theme_name theme_list then build_theme E tb branch_ref
    else ret tt.

(** The call [self.copy_root_docs()], noted in the log. *)
Definition stage (E : Env) : M World unit :=
  _ <~ emit CopyRootDocs ;;
  on_files (copy_root_docs (REPO_ROOT_DIR E)).

(** [build_themes] *)
Definition build_themes (E : Env) (tb : ThemeBuilder) (theme_list : list string) : M World unit :=
  _ <~ lift (fun _ => validate_theme_list tb theme_list) ;;
  _ <~ stage E ;;
  for_each (theme_branche_refs tb) (build_if_selected E tb theme_list).

(** ** Vocabulary of the statements *)

(** [c in s] for a character, [p in s] for a string. *)
Fixpoint has_char (c : ascii) (s : string) : bool :=
  match s with
  | EmptyString => false
  | String a s' => Ascii.eqb a c || has_char c s'
  end.

Fixpoint occurs (p s : string) : bool :=
  PyStr.startswith s p
  || match s with
     | EmptyString => false
     | String _ s' => occurs p s'
     end.

(** The list [p] is a run of consecutive items of [l]. *)
Fixpoint list_startswith (l p : list string) : bool :=
  match p, l with
  | [], _ => true
  | x :: p', y :: l' => String.eqb x y && list_startswith l' p'
  | _ :: _, [] => false
  end.

Fixpoint has_run (p l : list string) : bool :=
  list_startswith l p
  || match l with
     | [] => false
     | _ :: l' => has_run p l'
     end.

(** The full name of the branch [NAME-theme] of a remote. *)
Definition theme_ref (remote name : string) : string :=
  remote ++ "/" ++ name ++ "-theme".

(** A branch reference is selected by a list of theme names. *)
Definition selected (theme_list : list string) (branch_ref : string) : bool :=
  PyStr.mem "all" theme_list
  || match ref_to_theme_name branch_ref with
     | Ok theme_name => PyStr.mem theme_name theme_list
     | Raise _ => false
     end.

(** The calls of [build_main] in a log, by branch reference. *)
Fixpoint built (l : list event) : list string :=
  match l with
  | [] => []
  | CopyRootDocs :: l' => built l'
  | BuildMain branch_ref _ :: l' => branch_ref :: built l'
  end.

(** How often the documentation was staged. *)
Fixpoint staged (l : list event) : nat :=
  match l with
  | [] => 0
  | CopyRootDocs :: l' => S (staged l')
  | BuildMain _ _ :: l' => staged l'
  end.

(** The added lines of a patch, read as git writes it: every line of a
    patch ends at a line feed, a line that starts with [+] is an added
    line, and its body is what follows the [+]. *)
Module Patch.

Fixpoint lines (s : string) : list string :=
  match s with
  | EmptyString => []
  | String a s' =>
      if Ascii.eqb a PyStr.LF then String a EmptyString :: lines s'
      else match lines s' with
           | [] => [String a EmptyString]
           | l :: ls => String a l :: ls
           end
  end.

Definition body (line : string) : string :=
  match line with
  | EmptyString => EmptyString
  | String _ rest => rest
  end.

Definition added_lines (patch : string) : string :=
  PyStr.join (map body (filter (fun l => PyStr.startswith l "+") (lines patch))).

(** Every line end [str.splitlines] sees in [s] is a line feed, alone
    or after a carriage return. *)
Fixpoint lf_only (s : string) : bool :=
  match s with
  | EmptyString => true
  | String a s' =>
      match s' with
      | String b _ =>
          (Ascii.eqb a PyStr.LF || negb (PyStr.is_linebreak a)
           || (Ascii.eqb a PyStr.CR && Ascii.eqb b PyStr.LF))
          && lf_only s'
      | EmptyString => Ascii.eqb a PyStr.LF || negb (PyStr.is_linebreak a)
      end
  end.

End Patch.

(** ** A small repository to run the script on *)
Module Ex.

Definition nl : string := String PyStr.LF EmptyString.
Definition ff : string := String PyStr.FF EmptyString.

Definition root : string := "/repo".

(** The other side has the base branch and two theme branches. *)
Definition upstream : list (string * Git.Commit) :=
  [("alabaster-theme", "a1"); ("classic-theme", "c1"); ("master", "m1")].

(** The same, with a theme branch that has a single commit. *)
Definition upstream_bare : list (string * Git.Commit) :=
  [("alabaster-theme", "a1"); ("bare-theme", "b1");
   ("classic-theme", "c1"); ("master", "m1")].

(** The other side after its base branch moved on. *)
Definition upstream_later : list (string * Git.Commit) :=
  [("alabaster-theme", "a2"); ("classic-theme", "c2"); ("master", "m2")].

Definition patch_alabaster : string :=
  "@@ -20,0 +21,2 @@" ++ nl ++ "+html_theme = 'alabaster'" ++ nl
  ++ "+html_logo = None" ++ nl.

Definition patch_classic : string :=
  "@@ -20 +20 @@" ++ nl ++ "-html_theme = 'default'" ++ nl
  ++ "+html_theme = 'classic'" ++ nl.

(** The tip commit added the lines [X: 1] and [Y: 2]. *)
Definition patch_xy : string :=
  "@@ -0,0 +1,2 @@" ++ nl ++ "+X: 1" ++ nl ++ "+Y: 2" ++ nl.

(** The tip commit added one line, which has a form feed in it. *)
Definition patch_ff : string :=
  "@@ -3,0 +4 @@" ++ nl ++ "+extensions = []" ++ ff ++ "# end" ++ nl.

Definition objects : Git.Odb :=
  {| Git.rev_list := fun rev =>
       if String.eqb rev "upstream_diff_repo/alabaster-theme" then ["a1"; "m1"; "m0"]
       else if String.eqb rev "upstream_diff_repo/classic-theme" then ["c1"; "m1"; "m0"]
       else if String.eqb rev "upstream_diff_repo/bare-theme" then ["b1"]
       else if String.eqb rev "upstream_diff_repo/ff-theme" then ["f1"; "m1"; "m0"]
       else if String.eqb rev "upstream_diff_repo/xy-theme" then ["x1"; "m1"; "m0"]
       else [];
     Git.diff_index := fun base tip path =>
       if String.eqb path "doc/conf.py" then
         if String.eqb tip "a1"
         then [{| Git.change_type := Git.M; Git.diff := patch_alabaster |}]
         else if String.eqb tip "c1"
         then [{| Git.change_type := Git.M; Git.diff := patch_classic |}]
         else if String.eqb tip "f1"
         then [{| Git.change_type := Git.M; Git.diff := patch_ff |}]
         else if String.eqb tip "x1"
         then [{| Git.change_type := Git.M; Git.diff := patch_xy |}]
         else []
       else [] |}.

(** The repository checkout: the documentation and the two files at
    its root, and nothing staged yet. *)
Definition fs : Fs.t :=
  fun p =>
    if String.eqb p "/repo" then Some Fs.Dir
    else if String.eqb p "/repo/README.rst" then Some (Fs.File "readme")
    else if String.eqb p "/repo/CONTRIBUTING.rst" then Some (Fs.File "contributing")
    else if String.eqb p "/repo/doc" then Some Fs.Dir
    else if String.eqb p "/repo/doc/conf.py" then Some (Fs.File ("project = 'nbsphinx'" ++ nl))
    else if String.eqb p "/repo/doc/index.rst" then Some (Fs.File "index")
    else if String.eqb p "/repo/dev_utils" then Some Fs.Dir
    else if String.eqb p "/repo/dev_utils/tmp" then Some Fs.Dir
    else if String.eqb p "/repo/dev_utils/tmp/.git" then Some Fs.Dir
    else if String.eqb p "/repo/dev_utils/tmp/.git/HEAD" then Some (Fs.File "ref: refs/heads/master")
    else None.

(** The same with a staged tree left by an earlier run. *)
Definition fs_stale : Fs.t :=
  fun p =>
    if String.eqb p "/repo/dev_utils/tmp/doc" then Some Fs.Dir
    else if String.eqb p "/repo/dev_utils/tmp/doc/conf.py" then Some (Fs.File "stale")
    else if String.eqb p "/repo/dev_utils/tmp/doc/old.rst" then Some (Fs.File "old")
    else fs p.

(** A build tool that succeeds, and one that fails for alabaster. *)
Definition env_ok : Env :=
  {| REPO_ROOT_DIR := root; encoding := Encoding.latin_1; odb := objects;
     build_main := fun _ _ => 0%Z |}.

Definition env_alabaster_fails : Env :=
  {| REPO_ROOT_DIR := root; encoding := Encoding.latin_1; odb := objects;
     build_main := fun _ args =>
       if PyStr.mem "/repo/dev_utils/_build/alabaster-theme" args then 1%Z else 0%Z |}.

Definition world (f : Fs.t) : World := {| files := f; log := [] |}.

Definition no_builder : ThemeBuilder :=
  {| repo := Git.init; theme_branche_refs := []; build_args := [];
     shared_cache_args := [] |}.

(** The builder of a first run, and of a first run against the other
    side that has the branch with a single commit. *)
Definition builder : ThemeBuilder :=
  match fst (ThemeBuilder_init root upstream None) with
  | Ok tb => tb
  | Raise _ => no_builder
  end.

Definition builder_bare : ThemeBuilder :=
  match fst (ThemeBuilder_init root upstream_bare None) with
  | Ok tb => tb
  | Raise _ => no_builder
  end.

End Ex.

(** ** The requirements of the themes *)

(** The first line of [requirements_themes.txt]. *)
Definition requirements_header : string :=
  "-r ../doc/requirements.txt" ++ String PyStr.LF EmptyString.

(** The loop of [get_theme_requirements]: appends, branch by branch, what
    the branch added to [doc/requirements.txt]. *)
Fixpoint append_requirements (E : Env) (refs : list string)
    (theme_requirement_list : list string) : result (list string) :=
  match refs with
  | [] => Ok theme_requirement_list
  | theme_branche_ref :: rest =>
      added <- get_diff_string E theme_branche_ref "doc/requirements.txt" ;;
      append_requirements E rest (theme_requirement_list ++ [added])%list
  end.

(** [get_theme_requirements] *)
Definition get_theme_requirements (E : Env) (tb : ThemeBuilder) : M Fs.t unit :=
  theme_requirement_list <~
    lift (fun _ => append_requirements E (theme_branche_refs tb) [requirements_header]) ;;
  Fs.write_text (encoding E) (DEV_UTILS_DIR (REPO_ROOT_DIR E)) "requirements_themes.txt"
    (PyStr.join theme_requirement_list).

(** ** More of the small repository *)
Module Demo.

Definition patch_requirements : string :=
  "@@ -4,0 +5,2 @@" ++ Ex.nl ++ "+alabaster" ++ Ex.nl ++ "+pillow" ++ Ex.nl.

(** A new file of the branch: all its lines are added lines. *)
Definition patch_new_file : string :=
  "@@ -0,0 +1 @@" ++ Ex.nl ++ "+sphinx-classic" ++ Ex.nl.

(** As [Ex.objects]; alabaster changed [doc/requirements.txt], classic
    has a file [doc/extra.txt] that its base has not, and there is a
    branch for the theme guzzle, which changed neither. *)
Definition objects : Git.Odb :=
  {| Git.rev_list := fun rev =>
       if String.eqb rev "upstream_diff_repo/guzzle-theme" then ["g1"; "m1"; "m0"]
       else Git.rev_list Ex.objects rev;
     Git.diff_index := fun base tip path =>
       if String.eqb path "doc/requirements.txt" then
         if String.eqb tip "a1"
         then [{| Git.change_type := Git.M; Git.diff := patch_requirements |}]
         else []
       else if String.eqb path "doc/extra.txt" then
         if String.eqb tip "c1"
         then [{| Git.change_type := Git.A; Git.diff := patch_new_file |}]
         else []
       else Git.diff_index Ex.objects base tip path |}.

Definition env : Env :=
  {| REPO_ROOT_DIR := Ex.root; encoding := Encoding.latin_1; odb := objects;
     build_main := fun _ _ => 0%Z |}.

(** A branch whose author has a letter outside ASCII in the name, a
    requirement with such a letter, and a machine in the C locale. *)
Definition e_acute : string := String (ascii_of_nat 233) EmptyString.

Definition patch_accent_conf : string :=
  "@@ -20,0 +21 @@" ++ Ex.nl ++ "+author = 'Ren" ++ e_acute ++ "'" ++ Ex.nl.

Definition patch_accent_requirements : string :=
  "@@ -4,0 +5 @@" ++ Ex.nl ++ "+sphinx-th" ++ e_acute ++ "me" ++ Ex.nl.

Definition objects_accent : Git.Odb :=
  {| Git.rev_list := fun rev =>
       if String.eqb rev "upstream_diff_repo/accent-theme" then ["e1"; "m1"; "m0"]
       else Git.rev_list Ex.objects rev;
     Git.diff_index := fun base tip path =>
       if String.eqb tip "e1" && String.eqb path "doc/conf.py"
       then [{| Git.change_type := Git.M; Git.diff := patch_accent_conf |}]
       else if String.eqb tip "a1" && String.eqb path "doc/requirements.txt"
       then [{| Git.change_type := Git.M; Git.diff := patch_accent_requirements |}]
       else Git.diff_index objects base tip path |}.

Definition env_c_locale : Env :=
  {| REPO_ROOT_DIR := Ex.root; encoding := Encoding.us_ascii; odb := objects_accent;
     build_main := fun _ _ => 0%Z |}.

Definition requirements_path : string := "/repo/dev_utils/requirements_themes.txt".

(** The checkout with a requirements file made earlier. *)
Definition fs_ready : Fs.t :=
  Fs.update requirements_path (Fs.File "old requirements") Ex.fs.

(** A checkout made with CR LF line ends, and a staged tree. *)
Definition crlf : string := String PyStr.CR (String PyStr.LF EmptyString).

Definition fs_crlf : Fs.t :=
  Fs.update "/repo/doc/conf.py" (Fs.File ("project = 'nbsphinx'" ++ crlf)) Ex.fs_stale.

(** A staged tree is there, but the repository has lost its [doc]. *)
Definition fs_no_doc : Fs.t :=
  fun p =>
    if String.eqb p "/repo/doc" || Fs.inside "/repo/doc" p then None
    else Ex.fs_stale p.

(** The other side has theme branches with [-theme] inside the name of
    the theme. *)
Definition upstream_marker : list (string * Git.Commit) :=
  [("master", "m1"); ("my-themes-theme", "t1"); ("xa-theme-theme", "t2");
   ("x-themea-theme", "t3")].

(** The other side got a new theme branch since the repository was
    made. *)
Definition upstream_new_theme : list (string * Git.Commit) :=
  (Ex.upstream ++ [("rtd-theme", "r1")])%list.

End Demo.

(** * Properties *)

(** ** Strings *)

Lemma strip_prefix_app (p s : string) :
  PyStr.strip_prefix p (p ++ s) = Some s.
Proof.
  induction p as [|a p IH]; simpl; [reflexivity|].
  now rewrite Ascii.eqb_refl.
Qed.

Lemma strip_prefix_Some (p s r : string) :
  PyStr.strip_prefix p s = Some r -> s = p ++ r.
Proof.
  revert s; induction p as [|a p IH]; intros s H; simpl in *.
  - now inversion H.
  - destruct s as [|b s]; [discriminate|].
    destruct (Ascii.eqb_spec a b) as [->|]; [|discriminate].
    now rewrite (IH _ H).
Qed.

Lemma app_assoc_s (a b c : string) : (a ++ b) ++ c = a ++ (b ++ c).
Proof. induction a as [|x a IH]; simpl; [reflexivity | now rewrite IH]. Qed.

Lemma app_nil_r_s (a : string) : a ++ "" = a.
Proof. induction a as [|x a IH]; simpl; [reflexivity | now rewrite IH]. Qed.

Lemma length_app_s (a b : string) :
  String.length (a ++ b) = String.length a + String.length b.
Proof. induction a as [|x a IH]; simpl; [reflexivity | now rewrite IH]. Qed.

Lemma app_inv_head_s (a b c : string) : a ++ b = a ++ c -> b = c.
Proof.
  induction a as [|x a IH]; simpl; intros H; [assumption|].
  inversion H; auto.
Qed.

Lemma split_nonempty (c : ascii) (s : string) : PyStr.split c s <> [].
Proof.
  induction s as [|a s IH]; simpl; [discriminate|].
  destruct (Ascii.eqb a c); [discriminate|].
  destruct (PyStr.split c s); [contradiction | discriminate].
Qed.

Lemma split_no_sep (c : ascii) (s : string) :
  has_char c s = false -> PyStr.split c s = [s].
Proof.
  induction s as [|a s IH]; simpl; intros H; [reflexivity|].
  apply orb_false_iff in H as [Ha Hs].
  rewrite Ha, (IH Hs). reflexivity.
Qed.

Lemma split_app_sep (c : ascii) (a b : string) :
  has_char c a = false ->
  PyStr.split c (a ++ String c b) = a :: PyStr.split c b.
Proof.
  induction a as [|x a IH]; simpl; intros H.
  - now rewrite Ascii.eqb_refl.
  - apply orb_false_iff in H as [Hx Ha].
    rewrite Hx, (IH Ha). reflexivity.
Qed.

(** A name that has a slash in it has a second component. *)
Lemma split_second (c : ascii) (a b : string) :
  exists x, nth_error (PyStr.split c (a ++ String c b)) 1 = Some x.
Proof.
  induction a as [|y a [x IH]]; simpl.
  - rewrite Ascii.eqb_refl.
    destruct (PyStr.split c b) as [|w ws] eqn:E.
    + now apply split_nonempty in E.
    + now exists w.
  - destruct (Ascii.eqb y c).
    + destruct (PyStr.split c (a ++ String c b)) as [|w ws] eqn:E.
      * now apply split_nonempty in E.
      * now exists w.
    + destruct (PyStr.split c (a ++ String c b)) as [|w ws] eqn:E.
      * discriminate.
      * exists x. exact IH.
Qed.

Lemma has_char_app (c : ascii) (a b : string) :
  has_char c (a ++ b) = has_char c a || has_char c b.
Proof.
  induction a as [|x a IH]; simpl; [reflexivity|].
  now rewrite IH, orb_assoc.
Qed.

(** [-theme] does not overlap itself: an occurrence that starts inside
    [name] lies inside [name]. *)
Lemma strip_theme_later (name : string) :
  name <> "" ->
  PyStr.strip_prefix "-theme" name = None ->
  PyStr.strip_prefix "-theme" (name ++ "-theme") = None.
Proof.
  intros Hne H.
  destruct name as [|c1 [|c2 [|c3 [|c4 [|c5 [|c6 r]]]]]];
    [congruence| | | | | |]; cbn [PyStr.strip_prefix append] in *;
    repeat match goal with
    | |- context [Ascii.eqb ?a ?b] =>
        destruct (Ascii.eqb_spec a b); [subst|try reflexivity]
    | H : context [Ascii.eqb ?a ?b] |- _ =>
        destruct (Ascii.eqb_spec a b); [subst|try reflexivity]
    end; try reflexivity; try discriminate; try congruence.
Qed.

Lemma replace1_theme (name : string) :
  occurs "-theme" name = false ->
  PyStr.replace1 "-theme" "" (name ++ "-theme") = name.
Proof.
  induction name as [|a name IH]; intros H.
  - reflexivity.
  - cbn [occurs] in H. apply orb_false_iff in H as [H1 H2].
    unfold PyStr.startswith in H1.
    destruct (PyStr.strip_prefix "-theme" (String a name)) eqn:E; [discriminate|].
    change (String a name ++ "-theme") with (String a (name ++ "-theme")).
    unfold PyStr.replace1; fold PyStr.replace1.
    change (String a (name ++ "-theme")) with (String a name ++ "-theme") at 1.
    rewrite (strip_theme_later (String a name)) by (congruence || assumption).
    now rewrite IH.
Qed.

Lemma ref_to_theme_name_theme_ref (remote name : string) :
  has_char "/" remote = false ->
  has_char "/" name = false ->
  occurs "-theme" name = false ->
  ref_to_theme_name (theme_ref remote name) = Ok name.
Proof.
  intros Hr Hn Ho. unfold ref_to_theme_name, theme_ref.
  change (remote ++ "/" ++ name ++ "-theme")
    with (remote ++ String "/" (name ++ "-theme")).
  rewrite split_app_sep by assumption.
  rewrite split_no_sep by (rewrite has_char_app, Hn; reflexivity).
  cbn [nth_error]. now rewrite replace1_theme.
Qed.

(** ** C4: [ref_to_theme_name] *)

(** For a remote name and a NAME without a slash, where [-theme] does
    not occur in NAME, [ref_to_theme_name] of [remote/NAME-theme] is
    NAME; on the branches of one remote that are of this form it is
    injective. *)
Lemma ref_to_theme_name_strips (remote name1 name2 : string) :
  has_char "/" remote = false ->
  has_char "/" name1 = false -> occurs "-theme" name1 = false ->
  has_char "/" name2 = false -> occurs "-theme" name2 = false ->
  ref_to_theme_name (theme_ref remote name1) = Ok name1
  /\ (ref_to_theme_name (theme_ref remote name1)
      = ref_to_theme_name (theme_ref remote name2) ->
      theme_ref remote name1 = theme_ref remote name2).
Proof.
  intros Hr H1 O1 H2 O2.
  rewrite !ref_to_theme_name_theme_ref by assumption.
  split; [reflexivity|]. intros E. now inversion E.
Qed.

(** C4: [get_theme_branch_refs] takes [-theme] at the end of a branch
    name as the mark of a theme branch, and [ref_to_theme_name] is to
    take that mark off; [replace("-theme", "", 1)] takes off the
    leftmost [-theme] instead.  The other side has the branches
    [my-themes-theme], [xa-theme-theme] and [x-themea-theme]: all three
    are theme branches of the builder; the theme of the first comes
    out as [mys-theme], not [my-themes], and the other two, that of the
    theme [xa-theme] and that of the theme [x-themea], get the same
    name. *)
Theorem ref_to_theme_name_leftmost_marker :
  get_theme_branch_refs (fetch_remote Demo.upstream_marker Git.init)
  = [theme_ref "upstream_diff_repo" "my-themes";
     theme_ref "upstream_diff_repo" "xa-theme";
     theme_ref "upstream_diff_repo" "x-themea"]
  /\ ref_to_theme_name (theme_ref "upstream_diff_repo" "my-themes") = Ok "mys-theme"
  /\ ref_to_theme_name (theme_ref "upstream_diff_repo" "xa-theme") = Ok "xa-theme"
  /\ ref_to_theme_name (theme_ref "upstream_diff_repo" "x-themea") = Ok "xa-theme".
Proof. repeat split; reflexivity. Qed.

(** Of a branch name with a slash, only what stands before the slash
    is looked at. *)
Example ref_to_theme_name_second_component :
  ref_to_theme_name "upstream_diff_repo/foo/a-theme" = Ok "foo"
  /\ ref_to_theme_name "upstream_diff_repo/foo/b-theme" = Ok "foo".
Proof. split; reflexivity. Qed.

Example ref_to_theme_name_foo :
  ref_to_theme_name "remote/foo-theme" = Ok "foo".
Proof. reflexivity. Qed.

Example ref_to_theme_name_no_slash :
  ref_to_theme_name "foo-theme" = Raise IndexError.
Proof. reflexivity. Qed.

Example theme_names_of_builder :
  get_theme_names Ex.builder = Ok ["alabaster"; "classic"].
Proof. reflexivity. Qed.

(** ** Lists *)

(** A loop that appends the items it keeps is a filter. *)
Lemma fold_left_keep {X : Type} (keep : X -> bool) (l acc : list X) :
  fold_left (fun acc x => if keep x then (acc ++ [x])%list else acc) l acc
  = (acc ++ filter keep l)%list.
Proof.
  revert acc; induction l as [|x l IH]; intros acc; simpl.
  - now rewrite app_nil_r.
  - rewrite IH. destruct (keep x); [|reflexivity].
    now rewrite <- app_assoc.
Qed.

Lemma mem_In (x : string) (l : list string) : PyStr.mem x l = true <-> In x l.
Proof.
  unfold PyStr.mem. rewrite existsb_exists. split.
  - intros [y [Hy E]]. apply String.eqb_eq in E. now subst.
  - intros H. exists x. split; [assumption | apply String.eqb_refl].
Qed.

Lemma mem_not_In (x : string) (l : list string) : PyStr.mem x l = false <-> ~ In x l.
Proof.
  rewrite <- mem_In. destruct (PyStr.mem x l); split; congruence.
Qed.

(** ** The theme branches of a builder *)

Lemma get_theme_branch_refs_filter (r : Git.Repo) :
  get_theme_branch_refs r
  = filter (fun n => PyStr.endswith n "-theme") (Git.refs remote_name r).
Proof. unfold get_theme_branch_refs. now rewrite fold_left_keep. Qed.

(** Every name in [remote.refs] has the remote's name and a slash in
    front, so [split("/")[1]] is defined on it. *)
Lemma refs_have_branch (r : Git.Repo) (n : string) :
  In n (Git.refs remote_name r) ->
  exists b, nth_error (PyStr.split "/" n) 1 = Some b.
Proof.
  unfold Git.refs. rewrite filter_In. intros [_ H].
  unfold PyStr.startswith in H.
  destruct (PyStr.strip_prefix (remote_name ++ "/") n) as [rest|] eqn:E;
    [|discriminate].
  apply strip_prefix_Some in E. subst n.
  rewrite app_assoc_s. apply split_second.
Qed.

Lemma theme_names_of_total (refs : list string) :
  (forall n, In n refs -> exists b, nth_error (PyStr.split "/" n) 1 = Some b) ->
  exists names, theme_names_of refs = Ok names.
Proof.
  induction refs as [|n refs IH]; intros H; simpl.
  - now exists [].
  - destruct (H n (or_introl eq_refl)) as [b Hb].
    destruct IH as [names Hn]; [intros; apply H; now right|].
    unfold ref_to_theme_name. rewrite Hb. simpl. rewrite Hn. simpl.
    now eexists.
Qed.

Lemma init_refs (root : string) (upstream : list (string * Git.Commit))
    (disk : option Git.Repo) (tb : ThemeBuilder) :
  fst (ThemeBuilder_init root upstream disk) = Ok tb ->
  theme_branche_refs tb = get_theme_branch_refs (repo tb)
  /\ build_args tb = []
  /\ shared_cache_args tb = ["-d"; OsPath.join (TEMP_DIR root) "shared_build_cache"].
Proof.
  unfold ThemeBuilder_init, bindM, ret.
  destruct (prepare_git upstream disk) as [[r|e] disk']; simpl; [|discriminate].
  intros H. inversion H. simpl. auto.
Qed.

Lemma init_refs_have_branch (root : string) (upstream : list (string * Git.Commit))
    (disk : option Git.Repo) (tb : ThemeBuilder) (n : string) :
  fst (ThemeBuilder_init root upstream disk) = Ok tb ->
  In n (theme_branche_refs tb) ->
  exists b, nth_error (PyStr.split "/" n) 1 = Some b.
Proof.
  intros H Hn. apply init_refs in H as [H _].
  rewrite H, get_theme_branch_refs_filter, filter_In in Hn.
  destruct Hn as [Hn _]. eapply refs_have_branch; eassumption.
Qed.

(** [get_theme_names] does not raise on a builder made by [__init__]. *)
Lemma init_theme_names (root : string) (upstream : list (string * Git.Commit))
    (disk : option Git.Repo) (tb : ThemeBuilder) :
  fst (ThemeBuilder_init root upstream disk) = Ok tb ->
  exists valid_themes, get_theme_names tb = Ok valid_themes.
Proof.
  intros H. apply theme_names_of_total.
  intros n Hn. eapply init_refs_have_branch; eassumption.
Qed.

(** ** C5: [validate_theme_list] *)

(** C5: with ["all"] in the list the validation succeeds, whatever the
    theme branches are.  Without it, the validation either succeeds and
    every name of the list is a theme name, or it raises
    [InvalidThemeException] and some name of the list is not a theme
    name; the exception is made from all names of the list that are not
    theme names, in the order of the list, and from all theme names. *)
Theorem validate_theme_list_spec (root : string)
    (upstream : list (string * Git.Commit)) (disk : option Git.Repo)
    (tb : ThemeBuilder) (theme_list : list string) :
  fst (ThemeBuilder_init root upstream disk) = Ok tb ->
  exists valid_themes,
    get_theme_names tb = Ok valid_themes
    /\ (In "all" theme_list -> validate_theme_list tb theme_list = Ok tt)
    /\ (~ In "all" theme_list ->
        let invalid_themes :=
          filter (fun n => negb (PyStr.mem n valid_themes)) theme_list in
        (forall n, In n invalid_themes <-> In n theme_list /\ ~ In n valid_themes)
        /\ ((validate_theme_list tb theme_list = Ok tt
             /\ forall n, In n theme_list -> In n valid_themes)
            \/ (validate_theme_list tb theme_list
                = Raise (InvalidThemeException invalid_themes valid_themes)
                /\ exists n, In n theme_list /\ ~ In n valid_themes))).
Proof.
  intros Hinit. destruct (init_theme_names _ _ _ _ Hinit) as [valid Hv].
  exists valid. split; [assumption|]. unfold validate_theme_list. rewrite Hv. simpl.
  split.
  - intros Hall. apply mem_In in Hall. now rewrite Hall.
  - intros Hall. apply mem_not_In in Hall. rewrite Hall.
    rewrite fold_left_keep. simpl.
    assert (Hin : forall n,
      In n (filter (fun n => negb (PyStr.mem n valid)) theme_list)
      <-> In n theme_list /\ ~ In n valid).
    { intros n. rewrite filter_In, negb_true_iff, mem_not_In. reflexivity. }
    split; [exact Hin|].
    destruct (filter (fun n => negb (PyStr.mem n valid)) theme_list)
      as [|x inv] eqn:E; simpl.
    + left. split; [reflexivity|].
      intros n Hn. destruct (PyStr.mem n valid) eqn:Em.
      * now apply mem_In.
      * exfalso. apply (proj2 (Hin n)). split; [assumption | now apply mem_not_In].
    + right. split; [reflexivity|].
      exists x. apply Hin. now left.
Qed.

Lemma validate_theme_list_spec_witness :
  exists valid_themes,
    get_theme_names Ex.builder = Ok valid_themes
    /\ (In "all" ["nonexistent"; "classic"] ->
        validate_theme_list Ex.builder ["nonexistent"; "classic"] = Ok tt)
    /\ (~ In "all" ["nonexistent"; "classic"] ->
        let invalid_themes :=
          filter (fun n => negb (PyStr.mem n valid_themes)) ["nonexistent"; "classic"] in
        (forall n, In n invalid_themes
                   <-> In n ["nonexistent"; "classic"] /\ ~ In n valid_themes)
        /\ ((validate_theme_list Ex.builder ["nonexistent"; "classic"] = Ok tt
             /\ forall n, In n ["nonexistent"; "classic"] -> In n valid_themes)
            \/ (validate_theme_list Ex.builder ["nonexistent"; "classic"]
                = Raise (InvalidThemeException invalid_themes valid_themes)
                /\ exists n, In n ["nonexistent"; "classic"] /\ ~ In n valid_themes))).
Proof.
  apply (validate_theme_list_spec Ex.root Ex.upstream None Ex.builder
           ["nonexistent"; "classic"]).
  reflexivity.
Defined.

Example validate_nonexistent :
  validate_theme_list Ex.builder ["nonexistent"]
  = Raise (InvalidThemeException ["nonexistent"] ["alabaster"; "classic"]).
Proof. reflexivity. Qed.

Example validate_all_no_themes (tb : ThemeBuilder) :
  theme_branche_refs tb = [] -> validate_theme_list tb ["all"] = Ok tt.
Proof. unfold validate_theme_list, get_theme_names. now intros ->. Qed.

(** ** Paths *)

Lemma join_rel (a b : string) :
  PyStr.startswith b "/" = false -> OsPath.join a b = OsPath.join a "" ++ b.
Proof.
  intros H. unfold OsPath.join. rewrite H. simpl.
  destruct (String.eqb a "" || PyStr.endswith a "/").
  - now rewrite app_nil_r_s.
  - now rewrite app_assoc_s.
Qed.

Lemma eqb_app_nonempty (x y : string) : y <> "" -> String.eqb (x ++ y) "" = false.
Proof. destruct x, y; simpl; congruence. Qed.

Lemma endswith_app_char (x y : string) (d : ascii) :
  y <> "" ->
  PyStr.endswith (x ++ y) (String d "") = PyStr.endswith y (String d "").
Proof.
  intros Hy. induction x as [|a x IH]; [reflexivity|].
  change (String a x ++ y) with (String a (x ++ y)).
  cbn [PyStr.endswith]. rewrite IH.
  replace (String.eqb (String a (x ++ y)) (String d "")) with false; [reflexivity|].
  symmetry. apply String.eqb_neq. intros H. inversion H.
  destruct x, y; simpl in *; congruence.
Qed.

(** Joining to a path that ends in a name puts a slash between. *)
Lemma join_app_tail (x y b : string) :
  y <> "" -> PyStr.endswith y "/" = false -> PyStr.startswith b "/" = false ->
  OsPath.join (x ++ y) b = x ++ y ++ "/" ++ b.
Proof.
  intros Hy He Hb. unfold OsPath.join.
  rewrite Hb, (eqb_app_nonempty x y Hy), (endswith_app_char x y "/" Hy), He.
  simpl. now rewrite app_assoc_s.
Qed.

Ltac join_lit :=
  rewrite join_app_tail by (discriminate || reflexivity || assumption); simpl.

Section Constants.

Variable root : string.

Lemma DEV_UTILS_DIR_eq :
  DEV_UTILS_DIR root = OsPath.join root "" ++ "dev_utils".
Proof. apply join_rel. reflexivity. Qed.

Lemma ROOT_DOC_DIR_eq :
  ROOT_DOC_DIR root = OsPath.join root "" ++ "doc".
Proof. apply join_rel. reflexivity. Qed.

Lemma TEMP_DIR_eq :
  TEMP_DIR root = OsPath.join root "" ++ "dev_utils/tmp".
Proof. unfold TEMP_DIR. rewrite DEV_UTILS_DIR_eq. now join_lit. Qed.

Lemma TEMP_DOC_DIR_eq :
  TEMP_DOC_DIR root = OsPath.join root "" ++ "dev_utils/tmp/doc".
Proof. unfold TEMP_DOC_DIR. rewrite TEMP_DIR_eq. now join_lit. Qed.

Lemma TEMP_BUILD_ROOT_DIR_eq :
  TEMP_BUILD_ROOT_DIR root = OsPath.join root "" ++ "dev_utils/_build".
Proof. unfold TEMP_BUILD_ROOT_DIR. rewrite DEV_UTILS_DIR_eq. now join_lit. Qed.

End Constants.

Lemma eqb_length (a b : string) :
  String.length a <> String.length b -> String.eqb a b = false.
Proof.
  intros H. apply String.eqb_neq. intros ->. now apply H.
Qed.

(** ** The argument list of a build *)

Lemma has_run_skip (x y : string) (p l : list string) :
  String.eqb x y = false -> has_run (x :: p) (y :: l) = has_run (x :: p) l.
Proof. intros H. cbn [has_run list_startswith]. now rewrite H. Qed.

Lemma not_dash_d_doc (root : string) : String.eqb "-d" (TEMP_DOC_DIR root) = false.
Proof.
  apply eqb_length. rewrite TEMP_DOC_DIR_eq, length_app_s. simpl. lia.
Qed.

Lemma not_dash_d_dest (root branch_name : string) :
  String.eqb "-d" (OsPath.join (TEMP_BUILD_ROOT_DIR root) branch_name) = false.
Proof.
  destruct (PyStr.startswith branch_name "/") eqn:E.
  - unfold OsPath.join. rewrite E.
    unfold PyStr.startswith in E.
    destruct (PyStr.strip_prefix "/" branch_name) eqn:E'; [|discriminate].
    apply strip_prefix_Some in E'. now subst.
  - apply eqb_length. rewrite TEMP_BUILD_ROOT_DIR_eq. join_lit.
    rewrite length_app_s. simpl. lia.
Qed.

(** The argument list [build_theme] makes has the two shared-cache
    arguments, one after the other, exactly when the theme name of the
    branch is neither [guzzle] nor [press]; the builder is the one [cli]
    makes, with or without [-a]. *)
Lemma theme_build_args_shared_cache (root : string)
    (upstream : list (string * Git.Commit)) (disk : option Git.Repo)
    (tb0 tb : ThemeBuilder) (branch_ref branch_name : string)
    (args : list string) :
  fst (ThemeBuilder_init root upstream disk) = Ok tb0 ->
  tb = tb0 \/ tb = force_all tb0 ->
  theme_build_args root tb branch_ref branch_name = Ok args ->
  exists theme_name,
    ref_to_theme_name branch_ref = Ok theme_name
    /\ has_run (shared_cache_args tb) args
       = negb (PyStr.mem theme_name ["guzzle"; "press"]).
Proof.
  intros Hinit Htb Hargs.
  destruct (init_refs _ _ _ _ Hinit) as (_ & Hba & Hsh).
  assert (Hsh' : shared_cache_args tb = shared_cache_args tb0)
    by (destruct Htb; subst; reflexivity).
  assert (Hba' : build_args tb = [] \/ build_args tb = ["-a"]).
  { destruct Htb; subst; simpl; rewrite Hba; auto. }
  unfold theme_build_args in Hargs.
  destruct (ref_to_theme_name branch_ref) as [theme_name|]; [|discriminate].
  exists theme_name. split; [reflexivity|].
  rewrite Hsh', Hsh in *. cbn [bind] in Hargs.
  set (cache := OsPath.join (TEMP_DIR root) "shared_build_cache") in *.
  destruct (negb (PyStr.mem theme_name ["guzzle"; "press"]));
    injection Hargs as <-; cbn [app];
    rewrite has_run_skip by apply not_dash_d_doc;
    rewrite has_run_skip by apply not_dash_d_dest;
    destruct Hba' as [-> | ->]; simpl; rewrite ?String.eqb_refl; reflexivity.
Qed.

Example build_args_classic :
  theme_build_args Ex.root Ex.builder "upstream_diff_repo/classic-theme" "classic-theme"
  = Ok ["/repo/dev_utils/tmp/doc"; "/repo/dev_utils/_build/classic-theme";
        "-d"; "/repo/dev_utils/tmp/shared_build_cache"].
Proof. reflexivity. Qed.

Example build_args_press :
  theme_build_args Ex.root Ex.builder "upstream_diff_repo/press-theme" "press-theme"
  = Ok ["/repo/dev_utils/tmp/doc"; "/repo/dev_utils/_build/press-theme"].
Proof. reflexivity. Qed.

(** ** C2: [get_diff_string] *)

Lemma lf_only_tail (a : ascii) (s : string) :
  Patch.lf_only (String a s) = true -> Patch.lf_only s = true.
Proof.
  destruct s as [|b s]; [reflexivity|].
  cbn [Patch.lf_only]. intros H. now apply andb_true_iff in H as [_ H].
Qed.

(** Where every line ends at a line feed, [splitlines] finds the lines
    of the patch. *)
Lemma splitlines_lines (s : string) :
  Patch.lf_only s = true -> PyStr.splitlines s = Patch.lines s.
Proof.
  assert (H : forall n s, String.length s <= n ->
                Patch.lf_only s = true -> PyStr.splitlines s = Patch.lines s).
  { clear s. induction n as [|n IH]; intros s Hlen Hs.
    - destruct s; [reflexivity | simpl in Hlen; lia].
    - destruct s as [|a [|b s]]; [reflexivity| |].
      + simpl. now destruct (Ascii.eqb a PyStr.LF).
      + pose proof (lf_only_tail _ _ Hs) as Hs'.
        assert (IH' : PyStr.splitlines (String b s) = Patch.lines (String b s))
          by (apply IH; [simpl in *; lia | assumption]).
        cbn [Patch.lf_only] in Hs. apply andb_true_iff in Hs as [Hab _].
        change (PyStr.splitlines (String a (String b s)))
          with (if Ascii.eqb a PyStr.CR && Ascii.eqb b PyStr.LF
                then String a (String b "") :: PyStr.splitlines s
                else if PyStr.is_linebreak a
                     then String a "" :: PyStr.splitlines (String b s)
                     else match PyStr.splitlines (String b s) with
                          | [] => [String a ""]
                          | l :: ls => String a l :: ls
                          end).
        change (Patch.lines (String a (String b s)))
          with (if Ascii.eqb a PyStr.LF
                then String a "" :: Patch.lines (String b s)
                else match Patch.lines (String b s) with
                     | [] => [String a ""]
                     | l :: ls => String a l :: ls
                     end).
        destruct (Ascii.eqb_spec a PyStr.CR) as [->|Hcr];
          destruct (Ascii.eqb_spec b PyStr.LF) as [->|Hlf]; cbn [andb].
        * change (Ascii.eqb PyStr.CR PyStr.LF) with false. cbv iota.
          change (Patch.lines (String PyStr.LF s))
            with (String PyStr.LF "" :: Patch.lines s).
          rewrite (IH s); [reflexivity | simpl in *; lia |].
          now apply lf_only_tail in Hs'.
        * cbv in Hab. discriminate.
        * rewrite IH'. destruct (Ascii.eqb_spec a PyStr.LF) as [->|Ha].
          -- reflexivity.
          -- cbn [orb andb] in Hab. rewrite orb_false_r in Hab.
             apply negb_true_iff in Hab. now rewrite Hab.
        * rewrite IH'. destruct (Ascii.eqb_spec a PyStr.LF) as [->|Ha].
          -- reflexivity.
          -- cbn [orb andb] in Hab. rewrite orb_false_r in Hab.
             apply negb_true_iff in Hab. now rewrite Hab. }
  intros Hs. now apply (H (String.length s)).
Qed.

Lemma replace1_plus (line : string) :
  PyStr.startswith line "+" = true ->
  PyStr.replace1 "+" "" line = Patch.body line.
Proof.
  unfold PyStr.startswith. intros H.
  destruct (PyStr.strip_prefix "+" line) as [rest|] eqn:E; [|discriminate].
  apply strip_prefix_Some in E. subst line. simpl. reflexivity.
Qed.

(** On a patch where every line ends at a line feed, the script returns
    the added lines. *)
Lemma added_text_added_lines (patch : string) :
  Patch.lf_only patch = true -> added_text patch = Patch.added_lines patch.
Proof.
  intros H. unfold added_text, Patch.added_lines.
  rewrite (splitlines_lines _ H). f_equal.
  apply map_ext_in. intros l Hl. apply filter_In in Hl as [_ Hl].
  now apply replace1_plus.
Qed.

(** What [get_diff_string] returns for a branch with two commits or
    more: nothing when the diff has no entry of type [M], and for the
    first such entry, when its lines end at line feeds, its added
    lines. *)
Lemma get_diff_string_added_lines (E : Env) (branch_ref file_path : string)
    (tip base : Git.Commit) (older : list Git.Commit) :
  Git.rev_list (odb E) branch_ref = tip :: base :: older ->
  match filter (fun d => Git.is_M (Git.change_type d))
               (Git.diff_index (odb E) base tip file_path) with
  | [] => get_diff_string E branch_ref file_path = Ok ""
  | d :: _ =>
      Patch.lf_only (Git.diff d) = true ->
      get_diff_string E branch_ref file_path = Ok (Patch.added_lines (Git.diff d))
  end.
Proof.
  intros H. unfold get_diff_string, Git.iter_commits. rewrite H. cbn [firstn].
  destruct (filter _ _) as [|d ds]; [reflexivity|].
  intros Hd. now rewrite added_text_added_lines.
Qed.

Example get_diff_string_unmodified :
  get_diff_string Ex.env_ok "upstream_diff_repo/xy-theme" "doc/requirements.txt" = Ok "".
Proof. reflexivity. Qed.

Example get_diff_string_xy :
  get_diff_string Ex.env_ok "upstream_diff_repo/xy-theme" "doc/conf.py"
  = Ok ("X: 1" ++ Ex.nl ++ "Y: 2" ++ Ex.nl).
Proof. reflexivity. Qed.

Example get_diff_string_classic :
  get_diff_string Ex.env_ok "upstream_diff_repo/classic-theme" "doc/conf.py"
  = Ok ("html_theme = 'classic'" ++ Ex.nl).
Proof. reflexivity. Qed.

(** C2: the last commit of [ff-theme] added the one line
    [extensions = []<FF># end] to [doc/conf.py].  [splitlines] ends a
    line at the form feed as well, so the script returns the line only
    up to the form feed, without what follows and without the line
    feed. *)
Theorem get_diff_string_form_feed :
  Ex.patch_ff = "@@ -3,0 +4 @@" ++ Ex.nl ++ "+extensions = []" ++ Ex.ff ++ "# end" ++ Ex.nl
  /\ Patch.added_lines Ex.patch_ff = "extensions = []" ++ Ex.ff ++ "# end" ++ Ex.nl
  /\ get_diff_string Ex.env_ok "upstream_diff_repo/ff-theme" "doc/conf.py"
     = Ok ("extensions = []" ++ Ex.ff).
Proof. repeat split; reflexivity. Qed.

(** ** C3: a branch with a single commit *)

Lemma get_diff_string_short (E : Env) (branch_ref file_path : string) :
  List.length (Git.rev_list (odb E) branch_ref) < 2 ->
  get_diff_string E branch_ref file_path = Raise ValueError.
Proof.
  intros H. unfold get_diff_string, Git.iter_commits.
  destruct (Git.rev_list (odb E) branch_ref) as [|c1 [|c2 l]]; simpl in *;
    [reflexivity | reflexivity | lia].
Qed.

Lemma get_diff_string_raises (E : Env) (branch_ref file_path : string) (e : exn) :
  get_diff_string E branch_ref file_path = Raise e -> e = ValueError.
Proof.
  unfold get_diff_string.
  destruct (Git.iter_commits (odb E) branch_ref 2) as [|c1 [|c2 [|c3 l]]];
    try (intros H; now inversion H).
  destruct (filter _ _); discriminate.
Qed.

(** ** The log of a run *)

Lemma built_app (l1 l2 : list event) : built (l1 ++ l2) = (built l1 ++ built l2)%list.
Proof.
  induction l1 as [|[|r a] l1 IH]; simpl; [reflexivity | assumption | now rewrite IH].
Qed.

Lemma staged_app (l1 l2 : list event) : staged (l1 ++ l2) = staged l1 + staged l2.
Proof.
  induction l1 as [|[|r a] l1 IH]; simpl; [reflexivity | now rewrite IH | assumption].
Qed.

Lemma for_each_app {S X : Type} (l1 l2 : list X) (body : X -> M S unit) (s : S) :
  for_each (l1 ++ l2) body s
  = match for_each l1 body s with
    | (Ok _, s1) => for_each l2 body s1
    | (Raise e, s1) => (Raise e, s1)
    end.
Proof.
  revert s; induction l1 as [|x l1 IH]; intros s; simpl; [reflexivity|].
  unfold bindM. destruct (body x s) as [[[]|e] s1]; [apply IH | reflexivity].
Qed.

Lemma stage_log (E : Env) (w : World) :
  log (snd (stage E w)) = (log w ++ [CopyRootDocs])%list.
Proof.
  unfold stage, bindM, emit, on_files. simpl.
  destruct (copy_root_docs (REPO_ROOT_DIR E) (files w)) as [[[]|e] fs']; reflexivity.
Qed.

Section Loop.

Variables (E : Env) (tb : ThemeBuilder).

(** [build_theme] calls [build_main] once or, when it raises before, not
    at all. *)
Lemma build_theme_log (branch_ref : string) (w : World) :
  (log (snd (build_theme E tb branch_ref w)) = log w
   /\ fst (build_theme E tb branch_ref w) <> Ok tt)
  \/ exists args,
       log (snd (build_theme E tb branch_ref w))
       = (log w ++ [BuildMain branch_ref args])%list.
Proof.
  unfold build_theme, bindM, lift, on_files, emit, raise, ret.
  destruct (branch_name_of branch_ref) as [branch_name|e]; simpl;
    [|left; split; [reflexivity | discriminate]].
  destruct (update_theme_conf E branch_ref (files w)) as [[[]|e] fs1]; simpl;
    [|left; split; [reflexivity | discriminate]].
  destruct (theme_build_args (REPO_ROOT_DIR E) tb branch_ref branch_name)
    as [args|e]; simpl; [|left; split; [reflexivity | discriminate]].
  right. exists args.
  destruct (negb (Z.eqb (build_main E fs1 args) 0)); reflexivity.
Qed.

(** What [build_theme] does when [build_main] returns a status other
    than 0. *)
Lemma build_theme_failed (branch_ref branch_name : string)
    (w : World) (fs1 : Fs.t) (args : list string) :
  branch_name_of branch_ref = Ok branch_name ->
  update_theme_conf E branch_ref (files w) = (Ok tt, fs1) ->
  theme_build_args (REPO_ROOT_DIR E) tb branch_ref branch_name = Ok args ->
  build_main E fs1 args <> 0%Z ->
  build_theme E tb branch_ref w
  = (Raise BuildException,
     {| files := fs1; log := (log w ++ [BuildMain branch_ref args])%list |}).
Proof.
  intros Hb Hu Ha Hs.
  unfold build_theme, bindM, lift, on_files, emit, raise, ret.
  rewrite Hb. simpl. rewrite Hu. simpl. rewrite Ha. simpl.
  apply Z.eqb_neq in Hs. now rewrite Hs.
Qed.

(** What [build_theme] does for a branch without a second commit. *)
Lemma build_theme_short (branch_ref branch_name : string)
    (w : World) :
  branch_name_of branch_ref = Ok branch_name ->
  List.length (Git.rev_list (odb E) branch_ref) < 2 ->
  build_theme E tb branch_ref w = (Raise ValueError, w).
Proof.
  intros Hb Hs.
  unfold build_theme, bindM, lift, on_files, update_theme_conf.
  rewrite Hb. simpl. unfold bindM, lift.
  rewrite (get_diff_string_short E branch_ref _ Hs). now destruct w.
Qed.

Lemma build_if_selected_selected (theme_list : list string)
    (branch_ref : string) (w : World) :
  selected theme_list branch_ref = true ->
  build_if_selected E tb theme_list branch_ref w = build_theme E tb branch_ref w.
Proof.
  unfold selected, build_if_selected. destruct (PyStr.mem "all" theme_list); [reflexivity|].
  simpl. unfold bindM, lift.
  destruct (ref_to_theme_name branch_ref) as [n|e]; [|discriminate].
  now intros ->.
Qed.

(** One turn of the loop: a branch that is not selected is passed over,
    and one that is selected is built. *)
Lemma build_if_selected_log (theme_list : list string)
    (branch_ref : string) (w : World) :
  exists done,
    log (snd (build_if_selected E tb theme_list branch_ref w)) = (log w ++ done)%list
    /\ staged done = 0
    /\ ((done = []
         /\ (fst (build_if_selected E tb theme_list branch_ref w) = Ok tt ->
             selected theme_list branch_ref = false))
        \/ (built done = [branch_ref] /\ selected theme_list branch_ref = true)).
Proof.
  destruct (selected theme_list branch_ref) eqn:Hsel.
  - rewrite build_if_selected_selected by assumption.
    destruct (build_theme_log branch_ref w) as [[Hl Hr] | [args Hl]].
    + exists []. rewrite app_nil_r. repeat split; [assumption|].
      left. split; [reflexivity | intros; contradiction].
    + exists [BuildMain branch_ref args]. repeat split; [assumption|].
      right. split; reflexivity.
  - exists []. rewrite app_nil_r. unfold selected in Hsel.
    apply orb_false_iff in Hsel as [Hall Hn].
    unfold build_if_selected. rewrite Hall. unfold bindM, lift.
    destruct (ref_to_theme_name branch_ref) as [n|e]; simpl.
    + rewrite Hn. simpl. repeat split. left. split; reflexivity.
    + repeat split. left. split; reflexivity.
Qed.

(** The loop of [build_themes] calls [build_main] for the selected
    branches, in their order, until a call or what comes before it
    raises. *)
Lemma loop_log (theme_list refs : list string) (w : World) :
  exists done k,
    log (snd (for_each refs (build_if_selected E tb theme_list) w)) = (log w ++ done)%list
    /\ staged done = 0
    /\ built done = firstn k (filter (selected theme_list) refs)
    /\ (fst (for_each refs (build_if_selected E tb theme_list) w) = Ok tt ->
        built done = filter (selected theme_list) refs).
Proof.
  revert w; induction refs as [|x refs IH]; intros w.
  - exists [], 0. simpl. rewrite app_nil_r. auto.
  - destruct (build_if_selected_log theme_list x w) as (d1 & Hl1 & Hs1 & Hc).
    cbn [for_each]. unfold bindM.
    destruct (build_if_selected E tb theme_list x w) as [[[]|e] w1] eqn:Eb;
      cbn [fst snd] in *.
    + destruct (IH w1) as (d2 & k & Hl2 & Hs2 & Hb2 & Hok2).
      destruct Hc as [[-> Hns] | [Hb1 Hsel]].
      * exists d2, k. rewrite Hl2, Hl1, app_nil_r.
        cbn [filter]. rewrite (Hns eq_refl). auto.
      * exists (d1 ++ d2)%list, (S k). rewrite Hl2, Hl1, app_assoc.
        rewrite staged_app, built_app, Hs1, Hs2, Hb1, Hb2.
        cbn [filter]. rewrite Hsel. cbn [firstn app].
        repeat split. intros Hr. f_equal. rewrite <- Hb2. exact (Hok2 Hr).
    + destruct Hc as [[-> _] | [Hb1 Hsel]].
      * exists [], 0. rewrite Hl1. repeat split. discriminate.
      * exists d1, 1. cbn [filter]. rewrite Hsel. cbn [firstn].
        repeat split; try assumption. discriminate.
Qed.

End Loop.

(** ** What [build_theme] does *)

Lemma branch_name_theme_name (branch_ref branch_name : string) :
  branch_name_of branch_ref = Ok branch_name ->
  ref_to_theme_name branch_ref = Ok (PyStr.replace1 "-theme" "" branch_name).
Proof.
  unfold branch_name_of, ref_to_theme_name.
  destruct (nth_error (PyStr.split "/" branch_ref) 1); [|discriminate].
  now intros [= ->].
Qed.

Lemma theme_name_branch_name (branch_ref theme_name : string) :
  ref_to_theme_name branch_ref = Ok theme_name ->
  exists branch_name, branch_name_of branch_ref = Ok branch_name.
Proof.
  unfold branch_name_of, ref_to_theme_name.
  destruct (nth_error (PyStr.split "/" branch_ref) 1); [eauto | discriminate].
Qed.

Lemma theme_build_args_total (root : string) (tb : ThemeBuilder)
    (branch_ref branch_name : string) :
  branch_name_of branch_ref = Ok branch_name ->
  exists args, theme_build_args root tb branch_ref branch_name = Ok args.
Proof.
  intros Hb. unfold theme_build_args.
  rewrite (branch_name_theme_name _ _ Hb). cbn [bind].
  destruct (negb _); eauto.
Qed.

(** [update_theme_conf] raises what [get_diff_string] and [open] raise. *)
Lemma update_theme_conf_exn (E : Env) (branch_ref : string) (fs : Fs.t) (e : exn) :
  fst (update_theme_conf E branch_ref fs) = Raise e -> e <> BuildException.
Proof.
  unfold update_theme_conf, bindM, lift.
  destruct (get_diff_string E branch_ref "doc/conf.py") as [d|e1] eqn:Ed.
  - unfold Fs.read_text, Fs.read, Fs.write_text, Fs.open_w, Fs.write, bindM, change, raise.
    destruct (fs (OsPath.join (ROOT_DOC_DIR _) _)) as [[c|]|]; cbn [bind fst];
      try (intros [= <-]; discriminate).
    destruct (Encoding.decode _ c); cbn [fst]; try (intros [= <-]; discriminate).
    destruct (fs (TEMP_DOC_DIR _)) as [[x|]|]; cbn [fst];
      try (intros [= <-]; discriminate).
    destruct (fs (OsPath.join (TEMP_DOC_DIR _) _)) as [[x|]|];
      try destruct (Encoding.encode _ _); cbn [fst];
      try discriminate; intros [= <-]; discriminate.
  - cbn [fst]. intros [= <-]. apply get_diff_string_raises in Ed. now subst.
Qed.

(** [build_theme] raises before it comes to [build_main], or calls it
    once: when the branch has a name and its configuration is written,
    with the argument list of the branch, on the tree with that
    configuration; the status decides how [build_theme] ends. *)
Lemma build_theme_call (E : Env) (tb : ThemeBuilder) (branch_ref : string) (w : World) :
  (log (snd (build_theme E tb branch_ref w)) = log w
   /\ (exists e, fst (build_theme E tb branch_ref w) = Raise e /\ e <> BuildException)
   /\ (branch_name_of branch_ref = Raise IndexError
       \/ fst (update_theme_conf E branch_ref (files w)) <> Ok tt))
  \/ exists branch_name args,
       branch_name_of branch_ref = Ok branch_name
       /\ fst (update_theme_conf E branch_ref (files w)) = Ok tt
       /\ theme_build_args (REPO_ROOT_DIR E) tb branch_ref branch_name = Ok args
       /\ snd (build_theme E tb branch_ref w)
          = {| files := snd (update_theme_conf E branch_ref (files w));
               log := (log w ++ [BuildMain branch_ref args])%list |}
       /\ fst (build_theme E tb branch_ref w)
          = if Z.eqb (build_main E (snd (update_theme_conf E branch_ref (files w))) args) 0
            then Ok tt else Raise BuildException.
Proof.
  unfold build_theme, bindM, lift, on_files, emit, raise, ret.
  destruct (branch_name_of branch_ref) as [branch_name|e] eqn:Hb; cbn [fst snd log].
  2:{ assert (e = IndexError) as ->
        by (unfold branch_name_of in Hb; destruct (nth_error _ 1); now inversion Hb).
      left. repeat split; [|left; reflexivity].
      exists IndexError. split; [reflexivity | discriminate]. }
  pose proof (update_theme_conf_exn E branch_ref (files w)) as Hexn.
  destruct (update_theme_conf E branch_ref (files w)) as [[[]|e] fs1];
    cbn [fst snd log files] in *.
  2:{ left. repeat split; [|right; discriminate]. exists e. auto. }
  destruct (theme_build_args_total (REPO_ROOT_DIR E) tb _ _ Hb) as [args Ha].
  rewrite Ha. cbn [fst snd log files].
  right. exists branch_name, args. repeat split; try assumption;
    now destruct (Z.eqb (build_main E fs1 args) 0).
Qed.

(** ** C7: the shared build cache *)

(** C7: [build_theme] either raises before it comes to [build_main] or
    calls it once, and the argument list of that call has the two
    shared-cache arguments ([-d] and the cache directory, one after the
    other) exactly when the theme name of the branch is neither
    [guzzle] nor [press]; the call is made whenever the branch has a
    name and its configuration could be written.  The builder is the
    one [cli] makes, with or without [-a]. *)
Theorem build_theme_shared_cache (E : Env) (upstream : list (string * Git.Commit))
    (disk : option Git.Repo) (tb0 tb : ThemeBuilder) (branch_ref : string) (w : World) :
  fst (ThemeBuilder_init (REPO_ROOT_DIR E) upstream disk) = Ok tb0 ->
  tb = tb0 \/ tb = force_all tb0 ->
  shared_cache_args tb
  = ["-d"; OsPath.join (TEMP_DIR (REPO_ROOT_DIR E)) "shared_build_cache"]
  /\ ((log (snd (build_theme E tb branch_ref w)) = log w
       /\ exists e, fst (build_theme E tb branch_ref w) = Raise e /\ e <> BuildException)
      \/ exists theme_name args,
           ref_to_theme_name branch_ref = Ok theme_name
           /\ log (snd (build_theme E tb branch_ref w))
              = (log w ++ [BuildMain branch_ref args])%list
           /\ has_run (shared_cache_args tb) args
              = negb (PyStr.mem theme_name ["guzzle"; "press"])
           /\ fst (build_theme E tb branch_ref w)
              = if Z.eqb (build_main E (files (snd (build_theme E tb branch_ref w))) args) 0
                then Ok tt else Raise BuildException)
  /\ (forall branch_name,
        branch_name_of branch_ref = Ok branch_name ->
        fst (update_theme_conf E branch_ref (files w)) = Ok tt ->
        exists args,
          log (snd (build_theme E tb branch_ref w))
          = (log w ++ [BuildMain branch_ref args])%list).
Proof.
  intros Hinit Htb.
  assert (Hsh : shared_cache_args tb
                = ["-d"; OsPath.join (TEMP_DIR (REPO_ROOT_DIR E)) "shared_build_cache"]).
  { destruct (init_refs _ _ _ _ Hinit) as (_ & _ & Hsh).
    destruct Htb; subst; exact Hsh. }
  split; [exact Hsh|].
  destruct (build_theme_call E tb branch_ref w)
    as [(Hlog & Hraise & Hwhy) | (branch_name & args & Hb & Hu & Ha & Hsnd & Hfst)].
  - split; [left; split; assumption|].
    intros branch_name Hb Hu. destruct Hwhy as [Hn | Hn]; congruence.
  - split; [right | intros _ _ _; exists args; now rewrite Hsnd].
    destruct (theme_build_args_shared_cache _ _ _ _ _ _ _ _ Hinit Htb Ha)
      as (theme_name & Hname & Hrun).
    exists theme_name, args. rewrite Hsnd. cbn [files log]. auto.
Qed.

Lemma build_theme_shared_cache_witness :
  (exists args,
     log (snd (build_theme Demo.env (force_all Ex.builder)
                 "upstream_diff_repo/guzzle-theme" (Ex.world Ex.fs_stale)))
     = [BuildMain "upstream_diff_repo/guzzle-theme" args]
     /\ has_run ["-d"; "/repo/dev_utils/tmp/shared_build_cache"] args = false)
  /\ (exists args,
        log (snd (build_theme Demo.env (force_all Ex.builder)
                    "upstream_diff_repo/classic-theme" (Ex.world Ex.fs_stale)))
        = [BuildMain "upstream_diff_repo/classic-theme" args]
        /\ has_run ["-d"; "/repo/dev_utils/tmp/shared_build_cache"] args = true).
Proof.
  split.
  - destruct (build_theme_shared_cache Demo.env Ex.upstream None Ex.builder
                (force_all Ex.builder) "upstream_diff_repo/guzzle-theme"
                (Ex.world Ex.fs_stale))
      as (_ & [(_ & e & He & _) | (theme_name & args & Hname & Hlog & Hrun & _)] & _).
    + reflexivity.
    + right. reflexivity.
    + vm_compute in He. discriminate He.
    + exists args. split; [exact Hlog|].
      vm_compute in Hname. injection Hname as <-. exact Hrun.
  - destruct (build_theme_shared_cache Demo.env Ex.upstream None Ex.builder
                (force_all Ex.builder) "upstream_diff_repo/classic-theme"
                (Ex.world Ex.fs_stale))
      as (_ & [(_ & e & He & _) | (theme_name & args & Hname & Hlog & Hrun & _)] & _).
    + reflexivity.
    + right. reflexivity.
    + vm_compute in He. discriminate He.
    + exists args. split; [exact Hlog|].
      vm_compute in Hname. injection Hname as <-. exact Hrun.
Defined.

Lemma filter_selected_all (theme_list refs : list string) :
  PyStr.mem "all" theme_list = true -> filter (selected theme_list) refs = refs.
Proof.
  intros H. induction refs as [|x refs IH]; simpl; [reflexivity|].
  unfold selected at 1. rewrite H. simpl. now rewrite IH.
Qed.

(** An exception in one turn of the loop ends [build_themes]. *)
Lemma build_themes_raise_at (E : Env) (tb : ThemeBuilder)
    (theme_list pre : list string) (branch_ref : string) (post : list string)
    (w w0 w1 w2 : World) (e : exn) :
  theme_branche_refs tb = (pre ++ branch_ref :: post)%list ->
  validate_theme_list tb theme_list = Ok tt ->
  stage E w = (Ok tt, w0) ->
  for_each pre (build_if_selected E tb theme_list) w0 = (Ok tt, w1) ->
  build_if_selected E tb theme_list branch_ref w1 = (Raise e, w2) ->
  build_themes E tb theme_list w = (Raise e, w2).
Proof.
  intros Hrefs Hv Hst Hpre Hb.
  unfold build_themes, bindM, lift. rewrite Hv, Hst, Hrefs, for_each_app, Hpre.
  cbn [for_each]. unfold bindM. now rewrite Hb.
Qed.

(** ** C1: a theme that fails to build *)

(** C1, as it is stated, fails: the first run builds the themes
    alabaster and classic, in this order, and [build_main] returns 1 for
    alabaster.  [build_themes(["all"])] raises the exception of
    [build_theme] then, and [build_main] is not called for classic. *)
Lemma build_themes_all_stops_at_alabaster :
  theme_branche_refs Ex.builder
  = ["upstream_diff_repo/alabaster-theme"; "upstream_diff_repo/classic-theme"]
  /\ fst (build_themes Ex.env_alabaster_fails Ex.builder ["all"] (Ex.world Ex.fs))
     = Raise BuildException
  /\ built (log (snd (build_themes Ex.env_alabaster_fails Ex.builder ["all"]
                        (Ex.world Ex.fs))))
     = ["upstream_diff_repo/alabaster-theme"].
Proof. repeat split; vm_compute; reflexivity. Qed.

(** C1 (amended): in a run of [build_themes] with ["all"] in the list,
    when [build_main] returns a status other than 0 for a theme branch
    and the branches before it were built, [build_themes] raises the
    exception of [build_theme] for that branch: [build_main] was called
    for the branches up to this one, and is called for none after
    it. *)
Theorem failed_build_stops_build_themes (E : Env) (tb : ThemeBuilder)
    (theme_list pre : list string) (branch_ref : string) (post : list string)
    (w w0 w1 : World) (branch_name : string) (fs1 : Fs.t) (args : list string) :
  In "all" theme_list ->
  theme_branche_refs tb = (pre ++ branch_ref :: post)%list ->
  validate_theme_list tb theme_list = Ok tt ->
  stage E w = (Ok tt, w0) ->
  for_each pre (build_if_selected E tb theme_list) w0 = (Ok tt, w1) ->
  branch_name_of branch_ref = Ok branch_name ->
  update_theme_conf E branch_ref (files w1) = (Ok tt, fs1) ->
  theme_build_args (REPO_ROOT_DIR E) tb branch_ref branch_name = Ok args ->
  build_main E fs1 args <> 0%Z ->
  build_themes E tb theme_list w
  = (Raise BuildException,
     {| files := fs1; log := (log w1 ++ [BuildMain branch_ref args])%list |})
  /\ built (log w1 ++ [BuildMain branch_ref args])
     = (built (log w) ++ pre ++ [branch_ref])%list.
Proof.
  intros Hall Hrefs Hv Hst Hpre Hb Hu Ha Hs.
  apply mem_In in Hall.
  split.
  - eapply build_themes_raise_at; try eassumption.
    rewrite build_if_selected_selected by (unfold selected; now rewrite Hall).
    eapply build_theme_failed; eassumption.
  - destruct (loop_log E tb theme_list pre w0) as (d & k & Hl & _ & _ & Hok).
    rewrite Hpre in Hl, Hok. cbn [fst snd] in Hl, Hok.
    pose proof (stage_log E w) as Hl0. rewrite Hst in Hl0. cbn [snd] in Hl0.
    rewrite Hl, Hl0, !built_app, (Hok eq_refl), filter_selected_all by assumption.
    simpl. now rewrite app_nil_r, <- app_assoc.
Qed.

Lemma failed_build_stops_build_themes_witness :
  build_themes Ex.env_alabaster_fails Ex.builder ["all"] (Ex.world Ex.fs)
  = (Raise BuildException,
     {| files := snd (update_theme_conf Ex.env_alabaster_fails
                        "upstream_diff_repo/alabaster-theme"
                        (files (snd (stage Ex.env_alabaster_fails (Ex.world Ex.fs)))));
        log := (log (snd (stage Ex.env_alabaster_fails (Ex.world Ex.fs)))
                ++ [BuildMain "upstream_diff_repo/alabaster-theme"
                      ["/repo/dev_utils/tmp/doc";
                       "/repo/dev_utils/_build/alabaster-theme";
                       "-d"; "/repo/dev_utils/tmp/shared_build_cache"]])%list |})
  /\ built (log (snd (stage Ex.env_alabaster_fails (Ex.world Ex.fs)))
            ++ [BuildMain "upstream_diff_repo/alabaster-theme"
                  ["/repo/dev_utils/tmp/doc";
                   "/repo/dev_utils/_build/alabaster-theme";
                   "-d"; "/repo/dev_utils/tmp/shared_build_cache"]])
     = (built (log (Ex.world Ex.fs)) ++ []
        ++ ["upstream_diff_repo/alabaster-theme"])%list.
Proof.
  apply (failed_build_stops_build_themes Ex.env_alabaster_fails Ex.builder
           ["all"] [] "upstream_diff_repo/alabaster-theme"
           ["upstream_diff_repo/classic-theme"]
           (Ex.world Ex.fs)
           (snd (stage Ex.env_alabaster_fails (Ex.world Ex.fs)))
           (snd (stage Ex.env_alabaster_fails (Ex.world Ex.fs)))
           "alabaster-theme").
  - left. reflexivity.
  - reflexivity.
  - reflexivity.
  - reflexivity.
  - reflexivity.
  - reflexivity.
  - reflexivity.
  - reflexivity.
  - intros H. vm_compute in H. discriminate H.
Defined.

(** ** C3: a theme branch with a single commit *)

(** C3, as it is stated, fails in its second part: the branches are
    alabaster, bare and classic, in this order, and bare has a single
    commit.  [build_themes(["all"])] raises the [ValueError] of
    [get_diff_string] when it comes to bare, and [build_main] is not
    called for classic. *)
Lemma build_themes_all_stops_at_bare :
  theme_branche_refs Ex.builder_bare
  = ["upstream_diff_repo/alabaster-theme"; "upstream_diff_repo/bare-theme";
     "upstream_diff_repo/classic-theme"]
  /\ Git.rev_list Ex.objects "upstream_diff_repo/bare-theme" = ["b1"]
  /\ fst (build_themes Ex.env_ok Ex.builder_bare ["all"] (Ex.world Ex.fs))
     = Raise ValueError
  /\ built (log (snd (build_themes Ex.env_ok Ex.builder_bare ["all"] (Ex.world Ex.fs))))
     = ["upstream_diff_repo/alabaster-theme"].
Proof. repeat split; vm_compute; reflexivity. Qed.

(** C3 (amended): for a branch from which fewer than two commits can be
    reached, [get_diff_string] raises (the [ValueError] of unpacking a
    list that has not two items).  Nothing catches it: when the branch
    is selected and the branches before it were built, [build_themes]
    raises it in the state the branches before left, so [build_main] is
    called neither for this branch nor for one after it. *)
Theorem short_history_stops_build_themes (E : Env) (tb : ThemeBuilder)
    (theme_list pre : list string) (branch_ref : string) (post : list string)
    (w w0 w1 : World) (branch_name : string) :
  List.length (Git.rev_list (odb E) branch_ref) < 2 ->
  theme_branche_refs tb = (pre ++ branch_ref :: post)%list ->
  validate_theme_list tb theme_list = Ok tt ->
  selected theme_list branch_ref = true ->
  stage E w = (Ok tt, w0) ->
  for_each pre (build_if_selected E tb theme_list) w0 = (Ok tt, w1) ->
  branch_name_of branch_ref = Ok branch_name ->
  (forall file_path, get_diff_string E branch_ref file_path = Raise ValueError)
  /\ build_themes E tb theme_list w = (Raise ValueError, w1).
Proof.
  intros Hs Hrefs Hv Hsel Hst Hpre Hb. split.
  - intros file_path. now apply get_diff_string_short.
  - eapply build_themes_raise_at; try eassumption.
    rewrite build_if_selected_selected by assumption.
    eapply build_theme_short; eassumption.
Qed.

Lemma short_history_stops_build_themes_witness :
  (forall file_path,
     get_diff_string Ex.env_ok "upstream_diff_repo/bare-theme" file_path
     = Raise ValueError)
  /\ build_themes Ex.env_ok Ex.builder_bare ["all"] (Ex.world Ex.fs)
     = (Raise ValueError,
        snd (for_each ["upstream_diff_repo/alabaster-theme"]
               (build_if_selected Ex.env_ok Ex.builder_bare ["all"])
               (snd (stage Ex.env_ok (Ex.world Ex.fs))))).
Proof.
  apply (short_history_stops_build_themes Ex.env_ok Ex.builder_bare ["all"]
           ["upstream_diff_repo/alabaster-theme"]
           "upstream_diff_repo/bare-theme"
           ["upstream_diff_repo/classic-theme"]
           (Ex.world Ex.fs)
           (snd (stage Ex.env_ok (Ex.world Ex.fs)))
           (snd (for_each ["upstream_diff_repo/alabaster-theme"]
                   (build_if_selected Ex.env_ok Ex.builder_bare ["all"])
                   (snd (stage Ex.env_ok (Ex.world Ex.fs)))))
           "bare-theme").
  - simpl. lia.
  - reflexivity.
  - reflexivity.
  - reflexivity.
  - reflexivity.
  - reflexivity.
  - reflexivity.
Defined.

(** ** C6: what a run of [build_themes] does, in order *)

(** C6, as it is stated, fails for a run in which a build fails: with
    the themes alabaster and classic both asked for, and [build_main]
    returning 1 for alabaster, the list is valid and both branches are
    selected, but [build_main] is called for alabaster only. *)
Lemma build_themes_selected_not_built :
  validate_theme_list Ex.builder ["alabaster"; "classic"] = Ok tt
  /\ filter (selected ["alabaster"; "classic"]) (theme_branche_refs Ex.builder)
     = ["upstream_diff_repo/alabaster-theme"; "upstream_diff_repo/classic-theme"]
  /\ built (log (snd (build_themes Ex.env_alabaster_fails Ex.builder
                        ["alabaster"; "classic"] (Ex.world Ex.fs))))
     = ["upstream_diff_repo/alabaster-theme"].
Proof. repeat split; vm_compute; reflexivity. Qed.

(** Asked for classic alone, the run stages once and calls [build_main]
    once, for classic. *)
Example build_themes_classic_only :
  theme_branche_refs Ex.builder
  = ["upstream_diff_repo/alabaster-theme"; "upstream_diff_repo/classic-theme"]
  /\ fst (build_themes Ex.env_ok Ex.builder ["classic"] (Ex.world Ex.fs_stale)) = Ok tt
  /\ log (snd (build_themes Ex.env_ok Ex.builder ["classic"] (Ex.world Ex.fs_stale)))
     = [CopyRootDocs;
        BuildMain "upstream_diff_repo/classic-theme"
          ["/repo/dev_utils/tmp/doc"; "/repo/dev_utils/_build/classic-theme";
           "-d"; "/repo/dev_utils/tmp/shared_build_cache"]].
Proof. repeat split; vm_compute; reflexivity. Qed.

(** ** Paths below the repository root *)

Lemma eqb_app_head (a x y : string) : String.eqb (a ++ x) (a ++ y) = String.eqb x y.
Proof.
  induction a as [|c a IH]; simpl; [reflexivity|].
  now rewrite Ascii.eqb_refl.
Qed.

Lemma strip_prefix_app_head (a x y : string) :
  PyStr.strip_prefix (a ++ x) (a ++ y) = PyStr.strip_prefix x y.
Proof.
  induction a as [|c a IH]; simpl; [reflexivity|].
  now rewrite Ascii.eqb_refl.
Qed.

Lemma inside_app_head (a x y : string) :
  Fs.inside (a ++ x) (a ++ y) = Fs.inside x y.
Proof.
  unfold Fs.inside, PyStr.startswith.
  now rewrite app_assoc_s, strip_prefix_app_head.
Qed.

Lemma strip_prefix_has_char (a b s r : string) (c : ascii) :
  PyStr.strip_prefix (a ++ String c b) s = Some r -> has_char c s = true.
Proof.
  revert s; induction a as [|x a IH]; intros s H; simpl in H.
  - destruct s as [|y s]; [discriminate|].
    destruct (Ascii.eqb_spec c y) as [->|]; [|discriminate].
    simpl. now rewrite Ascii.eqb_refl.
  - destruct s as [|y s]; [discriminate|].
    destruct (Ascii.eqb x y); [|discriminate].
    simpl. rewrite (IH _ H). apply orb_true_r.
Qed.

(** A name without a slash has no directory above it. *)
Lemma not_inside_name (q name : string) :
  has_char "/" name = false -> Fs.inside q name = false.
Proof.
  intros H. unfold Fs.inside, PyStr.startswith.
  destruct (PyStr.strip_prefix (q ++ "/") name) as [r|] eqn:E; [|reflexivity].
  apply strip_prefix_has_char in E. congruence.
Qed.

Lemma conf_py_root (root : string) :
  OsPath.join (ROOT_DOC_DIR root) "conf.py" = OsPath.join root "" ++ "doc/conf.py".
Proof. rewrite ROOT_DOC_DIR_eq. now join_lit. Qed.

Lemma conf_py_temp (root : string) :
  OsPath.join (TEMP_DOC_DIR root) "conf.py"
  = OsPath.join root "" ++ "dev_utils/tmp/doc/conf.py".
Proof. rewrite TEMP_DOC_DIR_eq. now join_lit. Qed.

Lemma conf_py_distinct (root : string) :
  String.eqb (OsPath.join (ROOT_DOC_DIR root) "conf.py")
             (OsPath.join (TEMP_DOC_DIR root) "conf.py") = false.
Proof. rewrite conf_py_root, conf_py_temp, eqb_app_head. reflexivity. Qed.

Lemma temp_doc_not_conf_py (root : string) :
  String.eqb (TEMP_DOC_DIR root) (OsPath.join (TEMP_DOC_DIR root) "conf.py") = false.
Proof. rewrite conf_py_temp, TEMP_DOC_DIR_eq, eqb_app_head. reflexivity. Qed.

(** ** C8: [update_theme_conf] *)

(** Writing a text changes the file written to and nothing else. *)
Lemma write_text_frame (c : Encoding.t) (dir name text p : string) (fs : Fs.t) :
  p <> OsPath.join dir name ->
  snd (Fs.write_text c dir name text fs) p = fs p.
Proof.
  intros Hp. apply String.eqb_neq in Hp.
  unfold Fs.write_text, bindM, change, Fs.open_w, Fs.write, raise, Fs.update.
  destruct (fs dir) as [[x|]|]; try reflexivity.
  destruct (fs (OsPath.join dir name)) as [[x|]|]; try reflexivity;
    destruct (Encoding.encode c text); cbn [snd]; rewrite ?Hp; reflexivity.
Qed.

(** The file written to is a file afterwards, or is as it was. *)
Lemma write_text_target (c : Encoding.t) (dir name text : string) (fs : Fs.t) :
  snd (Fs.write_text c dir name text fs) (OsPath.join dir name) = fs (OsPath.join dir name)
  \/ exists content,
       snd (Fs.write_text c dir name text fs) (OsPath.join dir name)
       = Some (Fs.File content).
Proof.
  unfold Fs.write_text, bindM, change, Fs.open_w, Fs.write, raise, Fs.update.
  destruct (fs dir) as [[x|]|]; try (now left).
  destruct (fs (OsPath.join dir name)) as [[x|]|] eqn:Hf;
    destruct (Encoding.encode c text); cbn [snd];
    rewrite ?String.eqb_refl, ?Hf; eauto.
Qed.

(** Text that can be encoded gets written where a file can be. *)
Lemma write_text_ok (c : Encoding.t) (dir name text content : string) (fs : Fs.t) :
  Encoding.encode c text = Some content ->
  fs dir = Some Fs.Dir ->
  fs (OsPath.join dir name) <> Some Fs.Dir ->
  Fs.write_text c dir name text fs
  = (Ok tt,
     Fs.update (OsPath.join dir name) (Fs.File content)
       (Fs.update (OsPath.join dir name) (Fs.File "") fs)).
Proof.
  intros He Hd Hp.
  unfold Fs.write_text, bindM, change, Fs.open_w, Fs.write.
  rewrite Hd, He.
  destruct (fs (OsPath.join dir name)) as [[x|]|]; try reflexivity.
  now contradiction Hp.
Qed.

(** Text that cannot be encoded leaves the file empty. *)
Lemma write_text_not_encodable (c : Encoding.t) (dir name text : string) (fs : Fs.t) :
  Encoding.encode c text = None ->
  fs dir = Some Fs.Dir ->
  fs (OsPath.join dir name) <> Some Fs.Dir ->
  Fs.write_text c dir name text fs
  = (Raise UnicodeEncodeError, Fs.update (OsPath.join dir name) (Fs.File "") fs).
Proof.
  intros He Hd Hp.
  unfold Fs.write_text, bindM, change, Fs.open_w, Fs.write.
  rewrite Hd, He.
  destruct (fs (OsPath.join dir name)) as [[x|]|]; try reflexivity.
  now contradiction Hp.
Qed.

Lemma read_text_ok (c : Encoding.t) (path content text : string) (fs : Fs.t) :
  fs path = Some (Fs.File content) ->
  Encoding.decode c content = Some text ->
  Fs.read_text c path fs = Ok (PyStr.universal_newlines text).
Proof.
  intros Hf Hd. unfold Fs.read_text, Fs.read. rewrite Hf. cbn [bind]. now rewrite Hd.
Qed.

Lemma update_theme_conf_frame (E : Env) (branch_ref p : string) (fs : Fs.t) :
  p <> OsPath.join (TEMP_DOC_DIR (REPO_ROOT_DIR E)) "conf.py" ->
  snd (update_theme_conf E branch_ref fs) p = fs p.
Proof.
  intros Hp. unfold update_theme_conf, bindM, lift.
  destruct (get_diff_string E branch_ref "doc/conf.py"); [|reflexivity].
  destruct (Fs.read_text _ _ fs); [|reflexivity].
  now apply write_text_frame.
Qed.

Lemma update_theme_conf_target (E : Env) (branch_ref : string) (fs : Fs.t) :
  let temp_conf := OsPath.join (TEMP_DOC_DIR (REPO_ROOT_DIR E)) "conf.py" in
  snd (update_theme_conf E branch_ref fs) temp_conf = fs temp_conf
  \/ exists content,
       snd (update_theme_conf E branch_ref fs) temp_conf = Some (Fs.File content).
Proof.
  intros temp_conf. unfold update_theme_conf, bindM, lift.
  destruct (get_diff_string E branch_ref "doc/conf.py"); [|now left].
  destruct (Fs.read_text _ _ fs); [|now left].
  apply write_text_target.
Qed.

Lemma update_theme_conf_run (E : Env)
    (branch_ref conf_diff orig_bytes orig_conf new_bytes : string) (fs : Fs.t) :
  let temp_conf := OsPath.join (TEMP_DOC_DIR (REPO_ROOT_DIR E)) "conf.py" in
  get_diff_string E branch_ref "doc/conf.py" = Ok conf_diff ->
  fs (OsPath.join (ROOT_DOC_DIR (REPO_ROOT_DIR E)) "conf.py") = Some (Fs.File orig_bytes) ->
  Encoding.decode (encoding E) orig_bytes = Some orig_conf ->
  Encoding.encode (encoding E) (PyStr.universal_newlines orig_conf ++ conf_diff)
  = Some new_bytes ->
  fs (TEMP_DOC_DIR (REPO_ROOT_DIR E)) = Some Fs.Dir ->
  fs temp_conf <> Some Fs.Dir ->
  update_theme_conf E branch_ref fs
  = (Ok tt,
     Fs.update temp_conf (Fs.File new_bytes) (Fs.update temp_conf (Fs.File "") fs)).
Proof.
  intros temp_conf Hd Ho Hdec Henc Ht Hc.
  unfold update_theme_conf, bindM, lift.
  rewrite Hd, (read_text_ok _ _ _ _ _ Ho Hdec).
  now apply write_text_ok.
Qed.

(** The file system after any call of [update_theme_conf] is as good
    for the next call as the one before. *)
Lemma update_theme_conf_keeps_ready (E : Env) (branch_before : string) (fs : Fs.t)
    (orig_bytes : string) :
  let fs0 := snd (update_theme_conf E branch_before fs) in
  let temp_conf := OsPath.join (TEMP_DOC_DIR (REPO_ROOT_DIR E)) "conf.py" in
  fs (OsPath.join (ROOT_DOC_DIR (REPO_ROOT_DIR E)) "conf.py") = Some (Fs.File orig_bytes) ->
  fs (TEMP_DOC_DIR (REPO_ROOT_DIR E)) = Some Fs.Dir ->
  fs temp_conf <> Some Fs.Dir ->
  fs0 (OsPath.join (ROOT_DOC_DIR (REPO_ROOT_DIR E)) "conf.py") = Some (Fs.File orig_bytes)
  /\ fs0 (TEMP_DOC_DIR (REPO_ROOT_DIR E)) = Some Fs.Dir
  /\ fs0 temp_conf <> Some Fs.Dir.
Proof.
  intros fs0 temp_conf Ho Ht Hc. unfold fs0. repeat split.
  - rewrite update_theme_conf_frame; [exact Ho|].
    apply String.eqb_neq, conf_py_distinct.
  - rewrite update_theme_conf_frame; [exact Ht|].
    apply String.eqb_neq, temp_doc_not_conf_py.
  - destruct (update_theme_conf_target E branch_before fs) as [H | [c H]];
      fold temp_conf in H; rewrite H; [exact Hc | discriminate].
Qed.

(** C8, as it is stated, fails for a configuration whose lines end
    with CR LF: the staged file has them end with LF, so it is not the
    content of the canonical file followed by the added lines of the
    branch. *)
Lemma update_theme_conf_crlf :
  Demo.fs_crlf "/repo/doc/conf.py" = Some (Fs.File ("project = 'nbsphinx'" ++ Demo.crlf))
  /\ get_diff_string Ex.env_ok "upstream_diff_repo/classic-theme" "doc/conf.py"
     = Ok ("html_theme = 'classic'" ++ Ex.nl)
  /\ fst (update_theme_conf Ex.env_ok "upstream_diff_repo/classic-theme" Demo.fs_crlf)
     = Ok tt
  /\ snd (update_theme_conf Ex.env_ok "upstream_diff_repo/classic-theme" Demo.fs_crlf)
       "/repo/dev_utils/tmp/doc/conf.py"
     = Some (Fs.File (("project = 'nbsphinx'" ++ Ex.nl)
                      ++ ("html_theme = 'classic'" ++ Ex.nl)))
  /\ snd (update_theme_conf Ex.env_ok "upstream_diff_repo/classic-theme" Demo.fs_crlf)
       "/repo/dev_utils/tmp/doc/conf.py"
     <> Some (Fs.File (("project = 'nbsphinx'" ++ Demo.crlf)
                       ++ ("html_theme = 'classic'" ++ Ex.nl))).
Proof.
  repeat split; try reflexivity.
  intros H. vm_compute in H. discriminate H.
Qed.

(** C8 (amended): when the diff of the branch can be extracted,
    [doc/conf.py] of the repository is a file whose bytes decode to a
    text, that text with its line ends made LF followed by the added
    lines of the branch can be encoded, and the staged [doc] directory
    is there, [update_theme_conf] succeeds; afterwards the staged
    [conf.py] holds the bytes of that text, and nothing else has
    changed.  It is the same after a call for any other branch,
    whatever that call did. *)
Theorem update_theme_conf_writes (E : Env)
    (branch_ref conf_diff orig_bytes orig_conf new_bytes : string) (fs : Fs.t) :
  let temp_conf := OsPath.join (TEMP_DOC_DIR (REPO_ROOT_DIR E)) "conf.py" in
  get_diff_string E branch_ref "doc/conf.py" = Ok conf_diff ->
  fs (OsPath.join (ROOT_DOC_DIR (REPO_ROOT_DIR E)) "conf.py") = Some (Fs.File orig_bytes) ->
  Encoding.decode (encoding E) orig_bytes = Some orig_conf ->
  Encoding.encode (encoding E) (PyStr.universal_newlines orig_conf ++ conf_diff)
  = Some new_bytes ->
  fs (TEMP_DOC_DIR (REPO_ROOT_DIR E)) = Some Fs.Dir ->
  fs temp_conf <> Some Fs.Dir ->
  (exists fs',
     update_theme_conf E branch_ref fs = (Ok tt, fs')
     /\ fs' temp_conf = Some (Fs.File new_bytes)
     /\ forall p, p <> temp_conf -> fs' p = fs p)
  /\ (forall branch_before,
        exists fs',
          update_theme_conf E branch_ref (snd (update_theme_conf E branch_before fs))
          = (Ok tt, fs')
          /\ fs' temp_conf = Some (Fs.File new_bytes)
          /\ forall p, p <> temp_conf -> fs' p = fs p).
Proof.
  intros temp_conf Hd Ho Hdec Henc Ht Hc.
  assert (Hrun : forall fs1,
             fs1 (OsPath.join (ROOT_DOC_DIR (REPO_ROOT_DIR E)) "conf.py")
             = Some (Fs.File orig_bytes) ->
             fs1 (TEMP_DOC_DIR (REPO_ROOT_DIR E)) = Some Fs.Dir ->
             fs1 temp_conf <> Some Fs.Dir ->
             exists fs',
               update_theme_conf E branch_ref fs1 = (Ok tt, fs')
               /\ fs' temp_conf = Some (Fs.File new_bytes)
               /\ forall p, p <> temp_conf -> fs' p = fs1 p).
  { intros fs1 Ho1 Ht1 Hc1.
    exists (Fs.update temp_conf (Fs.File new_bytes)
              (Fs.update temp_conf (Fs.File "") fs1)).
    split; [now apply (update_theme_conf_run E branch_ref conf_diff orig_bytes orig_conf)|].
    unfold Fs.update. split.
    - now rewrite String.eqb_refl.
    - intros p Hp. apply String.eqb_neq in Hp. now rewrite Hp. }
  split; [now apply Hrun|].
  intros branch_before.
  destruct (update_theme_conf_keeps_ready E branch_before fs orig_bytes Ho Ht Hc)
    as (Ho0 & Ht0 & Hc0).
  destruct (Hrun _ Ho0 Ht0 Hc0) as (fs' & Hfs' & Hconf & Hframe).
  exists fs'. repeat split; try assumption.
  intros p Hp. rewrite (Hframe p Hp). now apply update_theme_conf_frame.
Qed.

Lemma update_theme_conf_writes_witness :
  let temp_conf := OsPath.join (TEMP_DOC_DIR (REPO_ROOT_DIR Ex.env_ok)) "conf.py" in
  (exists fs',
     update_theme_conf Ex.env_ok "upstream_diff_repo/classic-theme" Demo.fs_crlf
     = (Ok tt, fs')
     /\ fs' temp_conf
        = Some (Fs.File (("project = 'nbsphinx'" ++ Ex.nl)
                         ++ ("html_theme = 'classic'" ++ Ex.nl)))
     /\ forall p, p <> temp_conf -> fs' p = Demo.fs_crlf p)
  /\ (forall branch_before,
        exists fs',
          update_theme_conf Ex.env_ok "upstream_diff_repo/classic-theme"
            (snd (update_theme_conf Ex.env_ok branch_before Demo.fs_crlf))
          = (Ok tt, fs')
          /\ fs' temp_conf
             = Some (Fs.File (("project = 'nbsphinx'" ++ Ex.nl)
                              ++ ("html_theme = 'classic'" ++ Ex.nl)))
          /\ forall p, p <> temp_conf -> fs' p = Demo.fs_crlf p).
Proof.
  apply (update_theme_conf_writes Ex.env_ok "upstream_diff_repo/classic-theme"
           ("html_theme = 'classic'" ++ Ex.nl) ("project = 'nbsphinx'" ++ Demo.crlf)
           ("project = 'nbsphinx'" ++ Demo.crlf) 
           (("project = 'nbsphinx'" ++ Ex.nl) ++ ("html_theme = 'classic'" ++ Ex.nl))
           Demo.fs_crlf).
  - reflexivity.
  - reflexivity.
  - reflexivity.
  - reflexivity.
  - reflexivity.
  - intros H. vm_compute in H. discriminate H.
Defined.

(** ** C10: what [copy_root_docs] leaves alone *)

Lemma bindM_frame {X Y : Type} (m : M Fs.t X) (k : X -> M Fs.t Y) (p : string) :
  (forall fs, snd (m fs) p = fs p) ->
  (forall x fs, snd (k x fs) p = fs p) ->
  forall fs, snd (bindM m k fs) p = fs p.
Proof.
  intros Hm Hk fs. unfold bindM. specialize (Hm fs).
  destruct (m fs) as [[x|e] fs1]; cbn [snd] in *.
  - now rewrite Hk.
  - assumption.
Qed.

Lemma for_each_frame {X : Type} (l : list X) (body : X -> M Fs.t unit) (p : string) :
  (forall x, In x l -> forall fs, snd (body x fs) p = fs p) ->
  forall fs, snd (for_each l body fs) p = fs p.
Proof.
  induction l as [|x l IH]; intros H fs; [reflexivity|].
  cbn [for_each]. apply bindM_frame.
  - apply H. now left.
  - intros _. apply IH. intros y Hy. apply H. now right.
Qed.

Lemma rmtree_frame (d p : string) (fs : Fs.t) :
  String.eqb p d = false -> Fs.inside d p = false -> Fs.rmtree d fs p = fs p.
Proof.
  intros H1 H2. unfold Fs.rmtree. destruct (fs d) as [[c|]|]; try reflexivity.
  now rewrite H1, H2.
Qed.

Lemma copytree_frame (src dst p : string) (fs : Fs.t) :
  String.eqb p dst = false -> Fs.inside dst p = false -> Fs.inside p dst = false ->
  snd (change (Fs.copytree src dst) fs) p = fs p.
Proof.
  intros H1 H2 H3. unfold change, Fs.copytree.
  destruct (fs src) as [[c|]|]; try reflexivity.
  destruct (fs dst); [reflexivity|]. cbn [snd].
  unfold Fs.inside, PyStr.startswith in H2.
  destruct (PyStr.strip_prefix (dst ++ "/") p); [discriminate|].
  unfold Fs.makedirs. now rewrite H1, H3.
Qed.

Lemma copyfile_frame (src dir name p : string) (fs : Fs.t) :
  String.eqb p (OsPath.join dir name) = false ->
  snd (change (Fs.copyfile src dir name) fs) p = fs p.
Proof.
  intros H. unfold change, Fs.copyfile, Fs.read, Fs.write, Fs.update.
  destruct (fs src) as [[c|]|]; try reflexivity. cbn [bind].
  destruct (fs dir) as [[c'|]|]; try reflexivity.
  destruct (fs (OsPath.join dir name)) as [[c'|]|]; cbn [snd];
    rewrite ?H; reflexivity.
Qed.

(** The entry [q] of the staging directory is left alone when it is
    neither [doc], nor below [doc], nor one of the two copied files. *)
Lemma copy_root_docs_frame_entry (root q : string) (fs : Fs.t) :
  String.eqb q "doc" = false ->
  PyStr.startswith q "doc/" = false ->
  String.eqb q "README.rst" = false ->
  String.eqb q "CONTRIBUTING.rst" = false ->
  snd (copy_root_docs root fs) (OsPath.join root "" ++ "dev_utils/tmp/" ++ q)
  = fs (OsPath.join root "" ++ "dev_utils/tmp/" ++ q).
Proof.
  intros Hdoc Hin Hreadme Hcontrib.
  set (P := OsPath.join root "").
  assert (E1 : String.eqb (P ++ "dev_utils/tmp/" ++ q) (TEMP_DOC_DIR root) = false).
  { rewrite TEMP_DOC_DIR_eq. fold P.
    change "dev_utils/tmp/doc" with ("dev_utils/tmp/" ++ "doc").
    now rewrite <- !app_assoc_s, eqb_app_head. }
  assert (E2 : Fs.inside (TEMP_DOC_DIR root) (P ++ "dev_utils/tmp/" ++ q) = false).
  { rewrite TEMP_DOC_DIR_eq. fold P.
    change "dev_utils/tmp/doc" with ("dev_utils/tmp/" ++ "doc").
    now rewrite <- !app_assoc_s, inside_app_head. }
  assert (E3 : Fs.inside (P ++ "dev_utils/tmp/" ++ q) (TEMP_DOC_DIR root) = false).
  { rewrite TEMP_DOC_DIR_eq. fold P.
    change "dev_utils/tmp/doc" with ("dev_utils/tmp/" ++ "doc").
    rewrite <- !app_assoc_s, inside_app_head.
    now apply not_inside_name. }
  unfold copy_root_docs. revert fs.
  apply bindM_frame; [intros fs; cbn [snd]; now apply rmtree_frame|]. intros _.
  apply bindM_frame; [intros fs; now apply copytree_frame|]. intros _.
  apply for_each_frame. intros file_name Hf fs.
  apply copyfile_frame. rewrite TEMP_DIR_eq. fold P.
  destruct Hf as [<-|[<-|[]]]; join_lit; rewrite eqb_app_head; assumption.
Qed.

Lemma temp_entry (root q : string) :
  TEMP_DIR root ++ "/" ++ q = OsPath.join root "" ++ "dev_utils/tmp/" ++ q.
Proof. rewrite TEMP_DIR_eq, app_assoc_s. reflexivity. Qed.

Lemma temp_file (root name : string) :
  PyStr.startswith name "/" = false ->
  OsPath.join (TEMP_DIR root) name = OsPath.join root "" ++ "dev_utils/tmp/" ++ name.
Proof. intros H. rewrite TEMP_DIR_eq. now join_lit. Qed.

(** After a staging that succeeded, what is below the staged [doc] is
    what is below [doc] in the repository. *)
Lemma copy_root_docs_copies (root rel : string) (fs : Fs.t) :
  fst (copy_root_docs root fs) = Ok tt ->
  snd (copy_root_docs root fs) (TEMP_DOC_DIR root ++ "/" ++ rel)
  = fs (ROOT_DOC_DIR root ++ "/" ++ rel).
Proof.
  unfold copy_root_docs, bindM at 1 2 3 4. cbn [fst snd].
  set (fs1 := Fs.rmtree (TEMP_DOC_DIR root) fs).
  destruct (change (Fs.copytree (ROOT_DOC_DIR root) (TEMP_DOC_DIR root)) fs1)
    as [[[]|e] fs2] eqn:Ec; [|discriminate].
  intros _.
  rewrite for_each_frame.
  - unfold change, Fs.copytree in Ec.
    destruct (fs1 (ROOT_DOC_DIR root)) as [[c|]|]; try discriminate.
    destruct (fs1 (TEMP_DOC_DIR root)); [discriminate|].
    injection Ec as <-.
    rewrite <- (app_assoc_s (TEMP_DOC_DIR root) "/" rel), strip_prefix_app.
    unfold fs1. change (String "/" rel) with ("/" ++ rel).
    apply rmtree_frame; rewrite ROOT_DOC_DIR_eq, TEMP_DOC_DIR_eq, app_assoc_s.
    + rewrite eqb_app_head. reflexivity.
    + rewrite inside_app_head. reflexivity.
  - intros file_name Hf fs'. apply copyfile_frame.
    rewrite TEMP_DOC_DIR_eq, app_assoc_s.
    destruct Hf as [<-|[<-|[]]]; rewrite temp_file by reflexivity;
      rewrite eqb_app_head; reflexivity.
Qed.

(** C10: [copy_root_docs] leaves every entry of the staging directory
    as it is, except [doc], what is below [doc], and the files
    [README.rst] and [CONTRIBUTING.rst]; so it leaves the git repository
    in [.git] there as it is.  Where it succeeds, what is below the
    staged [doc] afterwards is what is below [doc] in the repository. *)
Theorem copy_root_docs_frame (root : string) (fs : Fs.t) :
  (forall p,
     Fs.inside (TEMP_DIR root) p = true ->
     p <> TEMP_DOC_DIR root ->
     Fs.inside (TEMP_DOC_DIR root) p = false ->
     p <> OsPath.join (TEMP_DIR root) "README.rst" ->
     p <> OsPath.join (TEMP_DIR root) "CONTRIBUTING.rst" ->
     snd (copy_root_docs root fs) p = fs p)
  /\ (forall p,
        p = OsPath.join (TEMP_DIR root) ".git"
        \/ Fs.inside (OsPath.join (TEMP_DIR root) ".git") p = true ->
        snd (copy_root_docs root fs) p = fs p)
  /\ (fst (copy_root_docs root fs) = Ok tt ->
      forall rel,
        snd (copy_root_docs root fs) (TEMP_DOC_DIR root ++ "/" ++ rel)
        = fs (ROOT_DOC_DIR root ++ "/" ++ rel)).
Proof.
  split; [|split].
  - intros p Hin Hdoc Hbelow Hreadme Hcontrib.
    unfold Fs.inside, PyStr.startswith in Hin.
    destruct (PyStr.strip_prefix (TEMP_DIR root ++ "/") p) as [q|] eqn:E;
      [|discriminate].
    apply strip_prefix_Some in E. rewrite app_assoc_s, temp_entry in E. subst p.
    rewrite TEMP_DOC_DIR_eq in Hdoc, Hbelow.
    rewrite temp_file in Hreadme, Hcontrib by reflexivity.
    change "dev_utils/tmp/doc" with ("dev_utils/tmp/" ++ "doc") in Hdoc, Hbelow.
    change ("dev_utils/tmp/" ++ q) with (String.append "dev_utils/tmp/" q)
      in Hbelow.
    rewrite <- !app_assoc_s, inside_app_head in Hbelow.
    apply copy_root_docs_frame_entry.
    + apply String.eqb_neq. intros ->. now apply Hdoc.
    + exact Hbelow.
    + apply String.eqb_neq. intros ->. now apply Hreadme.
    + apply String.eqb_neq. intros ->. now apply Hcontrib.
  - intros p Hp.
    assert (Hq : exists q, p = OsPath.join root "" ++ "dev_utils/tmp/" ++ ".git" ++ q).
    { rewrite temp_file in Hp by reflexivity. destruct Hp as [->|Hp].
      - exists "". reflexivity.
      - unfold Fs.inside, PyStr.startswith in Hp.
        destruct (PyStr.strip_prefix _ p) as [q|] eqn:E; [|discriminate].
        apply strip_prefix_Some in E. exists ("/" ++ q). rewrite E.
        now rewrite !app_assoc_s. }
    destruct Hq as [q ->].
    apply copy_root_docs_frame_entry; reflexivity.
  - intros Hok rel. now apply copy_root_docs_copies.
Qed.

Lemma copy_root_docs_frame_witness :
  snd (copy_root_docs Ex.root Ex.fs_stale) "/repo/dev_utils/tmp/.git/HEAD"
  = Ex.fs_stale "/repo/dev_utils/tmp/.git/HEAD"
  /\ snd (copy_root_docs Ex.root Ex.fs_stale) "/repo/dev_utils/tmp/.git"
     = Ex.fs_stale "/repo/dev_utils/tmp/.git"
  /\ snd (copy_root_docs Ex.root Ex.fs_stale)
         (TEMP_DOC_DIR Ex.root ++ "/" ++ "index.rst")
     = Ex.fs_stale (ROOT_DOC_DIR Ex.root ++ "/" ++ "index.rst").
Proof.
  destruct (copy_root_docs_frame Ex.root Ex.fs_stale) as (Hframe & Hgit & Hcopy).
  split; [|split].
  - apply Hframe; [reflexivity | discriminate | reflexivity | discriminate | discriminate].
  - apply Hgit. left. reflexivity.
  - apply Hcopy. reflexivity.
Defined.

Example copy_root_docs_removes_stale :
  fst (copy_root_docs Ex.root Ex.fs_stale) = Ok tt
  /\ snd (copy_root_docs Ex.root Ex.fs_stale) "/repo/dev_utils/tmp/doc/old.rst" = None
  /\ snd (copy_root_docs Ex.root Ex.fs_stale) "/repo/dev_utils/tmp/doc/conf.py"
     = Some (Fs.File ("project = 'nbsphinx'" ++ Ex.nl))
  /\ snd (copy_root_docs Ex.root Ex.fs_stale) "/repo/dev_utils/tmp/README.rst"
     = Some (Fs.File "readme").
Proof. repeat split; vm_compute; reflexivity. Qed.

(** ** C9: running [prepare_git] again *)

(** On a repository that is there and has the remote, [prepare_git]
    neither creates the remote nor fetches; it calls [create_head] in
    any case. *)
Lemma prepare_git_again (upstream : list (string * Git.Commit)) (r : Git.Repo)
    (master : Git.Commit) :
  Git.has_remote remote_name r = true ->
  Git.remote_ref remote_name "master" r = Ok master ->
  fst (prepare_git upstream (Some r)) = Git.create_head "master" master r.
Proof.
  intros Hr Hm. unfold prepare_git. rewrite Hr. cbn [negb]. rewrite Hm. cbn [bind].
  now destruct (Git.create_head "master" master r).
Qed.

(** It succeeds when the local [master] is where the remote one is. *)
Lemma prepare_git_again_same (upstream : list (string * Git.Commit)) (r : Git.Repo)
    (master : Git.Commit) :
  Git.has_remote remote_name r = true ->
  Git.remote_ref remote_name "master" r = Ok master ->
  Git.lookup "master" (Git.heads r) = Some master ->
  fst (prepare_git upstream (Some r)) = Ok r.
Proof.
  intros Hr Hm Hh. rewrite (prepare_git_again _ _ _ Hr Hm).
  unfold Git.create_head. now rewrite Hh, String.eqb_refl.
Qed.

(** It raises when the remote [master] has moved on since the local
    one was made. *)
Lemma prepare_git_again_moved (upstream : list (string * Git.Commit)) (r : Git.Repo)
    (master existing : Git.Commit) :
  Git.has_remote remote_name r = true ->
  Git.remote_ref remote_name "master" r = Ok master ->
  Git.lookup "master" (Git.heads r) = Some existing ->
  existing <> master ->
  fst (prepare_git upstream (Some r)) = Raise (OSError "refs/heads/master").
Proof.
  intros Hr Hm Hh Hne. rewrite (prepare_git_again _ _ _ Hr Hm).
  unfold Git.create_head. rewrite Hh.
  apply String.eqb_neq in Hne. now rewrite Hne.
Qed.

(** C9: a first run makes the repository, with the local [master] at
    [m1]; a second run right after it succeeds and changes nothing.  A
    run with [--fetch] then finds that the remote [master] is at [m2].
    [prepare_git] of the next run opens the repository and finds its
    remote, but raises in [create_head]: the head [master] is there,
    at [m1]. *)
Theorem prepare_git_raises_after_fetch :
  exists r1,
    prepare_git Ex.upstream None = (Ok r1, Some r1)
    /\ prepare_git Ex.upstream_later (Some r1) = (Ok r1, Some r1)
    /\ Git.lookup "master" (Git.heads (fetch_remote Ex.upstream_later r1)) = Some "m1"
    /\ Git.remote_ref remote_name "master" (fetch_remote Ex.upstream_later r1) = Ok "m2"
    /\ fst (prepare_git Ex.upstream_later (Some (fetch_remote Ex.upstream_later r1)))
       = Raise (OSError "refs/heads/master").
Proof. eexists. repeat split; vm_compute; reflexivity. Qed.

(** * Further properties *)

(** ** The theme branches *)

(** [get_theme_branch_refs] returns the remote-tracking branches of the
    remote whose name ends with [-theme], and only those; the base
    branch is not one of them, and each has the branch name that
    [build_theme] and [ref_to_theme_name] take from it. *)
Theorem get_theme_branch_refs_spec (r : Git.Repo) (n : string) :
  (In n (get_theme_branch_refs r)
   <-> In n (map fst (Git.remote_refs r))
       /\ PyStr.startswith n "upstream_diff_repo/" = true
       /\ PyStr.endswith n "-theme" = true)
  /\ ~ In "upstream_diff_repo/master" (get_theme_branch_refs r)
  /\ (In n (get_theme_branch_refs r) ->
      exists branch_name theme_name,
        branch_name_of n = Ok branch_name
        /\ ref_to_theme_name n = Ok theme_name).
Proof.
  rewrite get_theme_branch_refs_filter. split; [|split].
  - unfold Git.refs. rewrite !filter_In. tauto.
  - rewrite filter_In. intros [_ H]. discriminate H.
  - rewrite filter_In. intros [H _].
    destruct (refs_have_branch r n H) as [b Hb].
    exists b, (PyStr.replace1 "-theme" "" b).
    unfold branch_name_of, ref_to_theme_name. now rewrite Hb.
Qed.

Lemma get_theme_branch_refs_spec_witness :
  exists branch_name theme_name,
    branch_name_of "upstream_diff_repo/classic-theme" = Ok branch_name
    /\ ref_to_theme_name "upstream_diff_repo/classic-theme" = Ok theme_name.
Proof.
  apply (get_theme_branch_refs_spec (repo Ex.builder)
           "upstream_diff_repo/classic-theme").
  right. left. reflexivity.
Defined.

(** ** More on [get_diff_string] *)

(** For a branch with two commits or more whose diff has an entry of
    type [M], with a patch whose lines end at line feeds (alone or after
    a carriage return), [get_diff_string] returns the bodies of the
    added lines of the first such entry, in the order of the patch. *)
Theorem get_diff_string_lf_patch (E : Env) (branch_ref file_path : string)
    (tip base : Git.Commit) (older : list Git.Commit)
    (d : Git.Diff) (ds : list Git.Diff) :
  Git.rev_list (odb E) branch_ref = tip :: base :: older ->
  filter (fun d => Git.is_M (Git.change_type d))
         (Git.diff_index (odb E) base tip file_path) = d :: ds ->
  Patch.lf_only (Git.diff d) = true ->
  get_diff_string E branch_ref file_path = Ok (Patch.added_lines (Git.diff d)).
Proof.
  intros Hr Hd Hlf. unfold get_diff_string, Git.iter_commits.
  rewrite Hr. cbn [firstn]. rewrite Hd. now rewrite added_text_added_lines.
Qed.

Lemma get_diff_string_lf_patch_witness :
  get_diff_string Ex.env_ok "upstream_diff_repo/xy-theme" "doc/conf.py"
  = Ok (Patch.added_lines Ex.patch_xy).
Proof.
  apply (get_diff_string_lf_patch Ex.env_ok "upstream_diff_repo/xy-theme"
           "doc/conf.py" "x1" "m1" ["m0"]
           {| Git.change_type := Git.M; Git.diff := Ex.patch_xy |} []);
    reflexivity.
Defined.

(** For a branch with two commits or more, when no entry of the diff
    has type [M] (the file is unchanged, or it was added, deleted or
    renamed by the last commit), [get_diff_string] returns the empty
    string: the lines of a file that is new on the branch are not
    returned. *)
Theorem get_diff_string_not_modified (E : Env) (branch_ref file_path : string)
    (tip base : Git.Commit) (older : list Git.Commit) :
  Git.rev_list (odb E) branch_ref = tip :: base :: older ->
  (forall d, In d (Git.diff_index (odb E) base tip file_path) ->
             Git.change_type d <> Git.M) ->
  get_diff_string E branch_ref file_path = Ok "".
Proof.
  intros Hr Hd. unfold get_diff_string, Git.iter_commits.
  rewrite Hr. cbn [firstn].
  destruct (filter _ _) as [|d ds] eqn:Ef; [reflexivity|].
  assert (Hin : In d (d :: ds)) by now left.
  rewrite <- Ef in Hin. apply filter_In in Hin as [Hin HM].
  exfalso. apply (Hd d Hin). destruct (Git.change_type d); try discriminate.
  reflexivity.
Qed.

Lemma get_diff_string_not_modified_witness :
  get_diff_string Demo.env "upstream_diff_repo/classic-theme" "doc/extra.txt" = Ok "".
Proof.
  apply (get_diff_string_not_modified Demo.env "upstream_diff_repo/classic-theme"
           "doc/extra.txt" "c1" "m1" ["m0"]).
  - reflexivity.
  - intros d [<-|[]]. discriminate.
Defined.

Lemma splitlines_cons2 (a b : ascii) (s : string) :
  PyStr.splitlines (String a (String b s))
  = if Ascii.eqb a PyStr.CR && Ascii.eqb b PyStr.LF
    then String a (String b "") :: PyStr.splitlines s
    else if PyStr.is_linebreak a
         then String a "" :: PyStr.splitlines (String b s)
         else match PyStr.splitlines (String b s) with
              | [] => [String a ""]
              | l :: ls => String a l :: ls
              end.
Proof. reflexivity. Qed.

Lemma splitlines_lf (s : string) :
  PyStr.splitlines (String PyStr.LF s) = String PyStr.LF "" :: PyStr.splitlines s.
Proof. destruct s; reflexivity. Qed.

Lemma splitlines_nonempty (a : ascii) (s : string) :
  PyStr.splitlines (String a s) <> [].
Proof.
  destruct s as [|b s]; [discriminate|]. rewrite splitlines_cons2.
  destruct (Ascii.eqb a PyStr.CR && Ascii.eqb b PyStr.LF); [discriminate|].
  destruct (PyStr.is_linebreak a); [discriminate|].
  destruct (PyStr.splitlines (String b s)); discriminate.
Qed.

(** After a line feed a new line starts, whatever follows. *)
Lemma splitlines_app (q p2 : string) :
  PyStr.splitlines ((q ++ String PyStr.LF "") ++ p2)
  = (PyStr.splitlines (q ++ String PyStr.LF "") ++ PyStr.splitlines p2)%list.
Proof.
  assert (H : forall n q, String.length q <= n ->
     PyStr.splitlines ((q ++ String PyStr.LF "") ++ p2)
     = (PyStr.splitlines (q ++ String PyStr.LF "") ++ PyStr.splitlines p2)%list).
  { clear q. induction n as [|n IH]; intros q Hlen.
    - destruct q; [|simpl in Hlen; lia]. cbn [append].
      now rewrite splitlines_lf.
    - destruct q as [|a [|b q]].
      + cbn [append]. now rewrite splitlines_lf.
      + cbn [append]. rewrite !splitlines_cons2, !splitlines_lf.
        destruct (Ascii.eqb a PyStr.CR && Ascii.eqb PyStr.LF PyStr.LF);
          [reflexivity|].
        destruct (PyStr.is_linebreak a); reflexivity.
      + assert (IH1 := IH (String b q)). assert (IH2 := IH q).
        cbn [append] in *. rewrite !splitlines_cons2.
        destruct (Ascii.eqb a PyStr.CR && Ascii.eqb b PyStr.LF).
        * rewrite IH2 by (simpl in Hlen; lia). reflexivity.
        * rewrite IH1 by (simpl in Hlen |- *; lia).
          destruct (PyStr.is_linebreak a); [reflexivity|].
          destruct (PyStr.splitlines (String b (q ++ String PyStr.LF "")))
            as [|l ls] eqn:El; [|reflexivity].
          now apply splitlines_nonempty in El. }
  now apply (H (String.length q)).
Qed.

Lemma join_app (l1 l2 : list string) :
  PyStr.join (l1 ++ l2) = PyStr.join l1 ++ PyStr.join l2.
Proof.
  unfold PyStr.join. induction l1 as [|x l1 IH]; simpl; [reflexivity|].
  now rewrite IH, app_assoc_s.
Qed.

(** The added lines of a patch are those of its parts: where a patch is
    cut after a line feed, as between two hunks, what the script
    extracts from the whole is what it extracts from the first part
    followed by what it extracts from the second. *)
Theorem added_text_app (q p2 : string) :
  added_text ((q ++ String PyStr.LF "") ++ p2)
  = added_text (q ++ String PyStr.LF "") ++ added_text p2.
Proof.
  unfold added_text. rewrite splitlines_app, filter_app, map_app. apply join_app.
Qed.

(** ** [get_theme_requirements] *)

Lemma append_requirements_ok (E : Env) (refs diffs acc : list string) :
  Forall2 (fun ref added => get_diff_string E ref "doc/requirements.txt" = Ok added)
          refs diffs ->
  append_requirements E refs acc = Ok (acc ++ diffs)%list.
Proof.
  intros H. revert acc. induction H as [|ref added refs diffs Hd _ IH]; intros acc.
  - simpl. now rewrite app_nil_r.
  - simpl. rewrite Hd. simpl. rewrite IH. now rewrite <- app_assoc.
Qed.


Lemma requirements_path_eq (root : string) :
  OsPath.join (DEV_UTILS_DIR root) "requirements_themes.txt"
  = OsPath.join root "" ++ "dev_utils/requirements_themes.txt".
Proof. rewrite DEV_UTILS_DIR_eq. now join_lit. Qed.

(** When what every theme branch added to [doc/requirements.txt] can be
    extracted, and [dev_utils] is there, [get_theme_requirements] opens
    [requirements_themes.txt] and writes the line that includes the
    requirements of the documentation, followed by the added lines of
    the branches in the order of the branches; the file holds the bytes
    of that text.  When the locale's encoding has no bytes for the text,
    it raises and leaves the file empty.  Nothing else changes. *)
Theorem get_theme_requirements_writes (E : Env) (tb : ThemeBuilder)
    (diffs : list string) (fs : Fs.t) :
  Forall2 (fun ref added => get_diff_string E ref "doc/requirements.txt" = Ok added)
          (theme_branche_refs tb) diffs ->
  fs (DEV_UTILS_DIR (REPO_ROOT_DIR E)) = Some Fs.Dir ->
  fs (OsPath.join (DEV_UTILS_DIR (REPO_ROOT_DIR E)) "requirements_themes.txt")
  <> Some Fs.Dir ->
  let path := OsPath.join (DEV_UTILS_DIR (REPO_ROOT_DIR E)) "requirements_themes.txt" in
  exists fs',
    match Encoding.encode (encoding E) (requirements_header ++ PyStr.join diffs) with
    | Some content =>
        get_theme_requirements E tb fs = (Ok tt, fs')
        /\ fs' path = Some (Fs.File content)
    | None =>
        get_theme_requirements E tb fs = (Raise UnicodeEncodeError, fs')
        /\ fs' path = Some (Fs.File "")
    end
    /\ forall p, p <> path -> fs' p = fs p.
Proof.
  intros Hd Hdir Hp path.
  assert (Hrun : get_theme_requirements E tb fs
                 = Fs.write_text (encoding E) (DEV_UTILS_DIR (REPO_ROOT_DIR E))
                     "requirements_themes.txt"
                     (requirements_header ++ PyStr.join diffs) fs).
  { unfold get_theme_requirements, bindM, lift.
    now rewrite (append_requirements_ok E _ diffs _ Hd). }
  exists (snd (get_theme_requirements E tb fs)). split.
  - rewrite Hrun.
    destruct (Encoding.encode (encoding E) (requirements_header ++ PyStr.join diffs))
      as [content|] eqn:Ee.
    + rewrite (write_text_ok _ _ _ _ content fs Ee Hdir Hp). cbn [snd].
      split; [reflexivity|]. unfold Fs.update. now rewrite String.eqb_refl.
    + rewrite (write_text_not_encodable _ _ _ _ fs Ee Hdir Hp). cbn [snd].
      split; [reflexivity|]. unfold Fs.update. now rewrite String.eqb_refl.
  - intros p Hne. rewrite Hrun. now apply write_text_frame.
Qed.

Lemma get_theme_requirements_writes_witness :
  let path := OsPath.join (DEV_UTILS_DIR (REPO_ROOT_DIR Demo.env))
                "requirements_themes.txt" in
  exists fs',
    (get_theme_requirements Demo.env Ex.builder Ex.fs = (Ok tt, fs')
     /\ fs' path
        = Some (Fs.File (requirements_header
                         ++ PyStr.join [("alabaster" ++ Ex.nl ++ "pillow" ++ Ex.nl); ""])))
    /\ forall p, p <> path -> fs' p = Ex.fs p.
Proof.
  apply (get_theme_requirements_writes Demo.env Ex.builder
           [("alabaster" ++ Ex.nl ++ "pillow" ++ Ex.nl); ""] Ex.fs).
  - repeat constructor.
  - reflexivity.
  - intros H. vm_compute in H. discriminate H.
Defined.

(** In the C locale the name of a requirement with a letter outside
    ASCII cannot be written: the requirements file made earlier is left
    empty. *)
Example get_theme_requirements_c_locale :
  fst (get_theme_requirements Demo.env_c_locale Ex.builder Demo.fs_ready)
  = Raise UnicodeEncodeError
  /\ Demo.fs_ready Demo.requirements_path = Some (Fs.File "old requirements")
  /\ snd (get_theme_requirements Demo.env_c_locale Ex.builder Demo.fs_ready)
       Demo.requirements_path
     = Some (Fs.File "").
Proof. repeat split. Qed.



(** ** More on [update_theme_conf] and [build_theme] *)



(** The staged configuration left by an earlier theme is emptied when
    the text of this theme cannot be encoded. *)
Example update_theme_conf_c_locale :
  Ex.fs_stale "/repo/dev_utils/tmp/doc/conf.py" = Some (Fs.File "stale")
  /\ update_theme_conf Demo.env_c_locale "upstream_diff_repo/accent-theme" Ex.fs_stale
     = (Raise UnicodeEncodeError,
        Fs.update "/repo/dev_utils/tmp/doc/conf.py" (Fs.File "") Ex.fs_stale).
Proof. split; reflexivity. Qed.

Lemma split_component_no_sep (c : ascii) (s b : string) (i : nat) :
  nth_error (PyStr.split c s) i = Some b -> has_char c b = false.
Proof.
  revert i b. induction s as [|a s IH]; intros i b H; simpl in H.
  - destruct i as [|[|i]]; inversion H. reflexivity.
  - destruct (Ascii.eqb a c) eqn:Eac.
    + destruct i as [|i]; [inversion H; reflexivity | exact (IH i b H)].
    + destruct (PyStr.split c s) as [|w ws] eqn:Es.
      * now apply split_nonempty in Es.
      * destruct i as [|i].
        -- inversion H. simpl. rewrite Eac. exact (IH 0 w eq_refl).
        -- exact (IH (S i) b H).
Qed.

Lemma no_sep_not_absolute (b : string) :
  has_char "/" b = false -> PyStr.startswith b "/" = false.
Proof.
  destruct b as [|a b]; [reflexivity|]. cbn [has_char]. intros H.
  apply orb_false_iff in H as [H _].
  unfold PyStr.startswith. cbn [PyStr.strip_prefix].
  rewrite (Ascii.eqb_sym "/" a), H. reflexivity.
Qed.

(** The argument list [build_theme] makes starts with the staged [doc]
    and the directory of [_build] that is named by the branch. *)
Lemma theme_build_args_dest_dir (root : string) (tb : ThemeBuilder)
    (ref b : string) (args : list string) :
  branch_name_of ref = Ok b ->
  theme_build_args root tb ref b = Ok args ->
  nth_error args 0 = Some (TEMP_DOC_DIR root)
  /\ nth_error args 1 = Some (TEMP_BUILD_ROOT_DIR root ++ "/" ++ b).
Proof.
  intros Hb Ha. unfold branch_name_of in Hb.
  destruct (nth_error (PyStr.split "/" ref) 1) as [x|] eqn:Ex; [|discriminate].
  injection Hb as ->.
  apply split_component_no_sep, no_sep_not_absolute in Ex.
  unfold theme_build_args in Ha.
  destruct (ref_to_theme_name ref); [|discriminate]. cbn [bind] in Ha.
  assert (Hj : OsPath.join (TEMP_BUILD_ROOT_DIR root) b
               = TEMP_BUILD_ROOT_DIR root ++ "/" ++ b).
  { rewrite TEMP_BUILD_ROOT_DIR_eq. join_lit. now rewrite app_assoc_s. }
  rewrite Hj in Ha.
  destruct (negb _); injection Ha as <-; split; reflexivity.
Qed.

(** The call of [build_main] that [build_theme] makes for a branch that
    has a name and whose configuration could be written. *)
Lemma build_theme_calls (E : Env) (tb : ThemeBuilder) (branch_ref branch_name : string)
    (w : World) :
  branch_name_of branch_ref = Ok branch_name ->
  fst (update_theme_conf E branch_ref (files w)) = Ok tt ->
  exists args,
    theme_build_args (REPO_ROOT_DIR E) tb branch_ref branch_name = Ok args
    /\ log (snd (build_theme E tb branch_ref w))
       = (log w ++ [BuildMain branch_ref args])%list.
Proof.
  intros Hb Hu.
  destruct (build_theme_call E tb branch_ref w)
    as [(_ & _ & [Hn | Hn]) | (b & args & Hb' & _ & Ha & Hsnd & _)];
    try congruence.
  exists args. rewrite Hsnd. split; [congruence | reflexivity].
Qed.

(** [build_theme] has [build_main] read the staged [doc] and build into
    the directory of [_build] that is named by the branch (the second
    component of the reference, with its [-theme]): these are the first
    two arguments of the call it makes when the branch has a name and
    its configuration could be written.  Two branches with different
    names never build into the same directory. *)
Theorem build_theme_dest_dir (E : Env) (tb : ThemeBuilder)
    (ref1 ref2 b1 b2 : string) (w1 w2 : World) :
  branch_name_of ref1 = Ok b1 ->
  branch_name_of ref2 = Ok b2 ->
  fst (update_theme_conf E ref1 (files w1)) = Ok tt ->
  fst (update_theme_conf E ref2 (files w2)) = Ok tt ->
  exists args1 args2,
    log (snd (build_theme E tb ref1 w1)) = (log w1 ++ [BuildMain ref1 args1])%list
    /\ log (snd (build_theme E tb ref2 w2)) = (log w2 ++ [BuildMain ref2 args2])%list
    /\ nth_error args1 0 = Some (TEMP_DOC_DIR (REPO_ROOT_DIR E))
    /\ nth_error args1 1 = Some (TEMP_BUILD_ROOT_DIR (REPO_ROOT_DIR E) ++ "/" ++ b1)
    /\ (b1 <> b2 -> nth_error args1 1 <> nth_error args2 1).
Proof.
  intros Hb1 Hb2 Hu1 Hu2.
  destruct (build_theme_calls E tb _ _ _ Hb1 Hu1) as (args1 & Ha1 & Hl1).
  destruct (build_theme_calls E tb _ _ _ Hb2 Hu2) as (args2 & Ha2 & Hl2).
  destruct (theme_build_args_dest_dir _ _ _ _ _ Hb1 Ha1) as [H0 H1].
  destruct (theme_build_args_dest_dir _ _ _ _ _ Hb2 Ha2) as [_ H2].
  exists args1, args2. repeat split; try assumption.
  intros Hne. rewrite H1, H2. intros H. apply Hne.
  injection H as H. apply app_inv_head_s in H. now injection H.
Qed.

Lemma build_theme_dest_dir_witness :
  exists args1 args2,
    log (snd (build_theme Ex.env_ok Ex.builder "upstream_diff_repo/classic-theme"
                (Ex.world Ex.fs_stale)))
    = (log (Ex.world Ex.fs_stale)
       ++ [BuildMain "upstream_diff_repo/classic-theme" args1])%list
    /\ log (snd (build_theme Ex.env_ok Ex.builder "upstream_diff_repo/alabaster-theme"
                   (Ex.world Ex.fs_stale)))
       = (log (Ex.world Ex.fs_stale)
          ++ [BuildMain "upstream_diff_repo/alabaster-theme" args2])%list
    /\ nth_error args1 0 = Some (TEMP_DOC_DIR (REPO_ROOT_DIR Ex.env_ok))
    /\ nth_error args1 1
       = Some (TEMP_BUILD_ROOT_DIR (REPO_ROOT_DIR Ex.env_ok) ++ "/" ++ "classic-theme")
    /\ ("classic-theme" <> "alabaster-theme" ->
        nth_error args1 1 <> nth_error args2 1).
Proof.
  apply (build_theme_dest_dir Ex.env_ok Ex.builder
           "upstream_diff_repo/classic-theme" "upstream_diff_repo/alabaster-theme"
           "classic-theme" "alabaster-theme"); reflexivity.
Defined.

(** [build_theme] writes the configuration of the branch before it
    calls [build_main]: with the diff extracted, [doc/conf.py] a file
    that can be decoded, the text to write one that can be encoded, and
    the documentation staged, [build_main] is called once, on a tree
    whose staged [conf.py] holds the repository's configuration (its
    line ends made LF) followed by the added lines of the branch, and
    that is otherwise as before; [build_theme] returns when the status
    is 0 and raises otherwise. *)
Theorem build_theme_builds_on_conf (E : Env) (tb : ThemeBuilder)
    (branch_ref branch_name conf_diff orig_bytes orig_conf new_bytes : string)
    (args : list string) (w : World) :
  let temp_conf := OsPath.join (TEMP_DOC_DIR (REPO_ROOT_DIR E)) "conf.py" in
  branch_name_of branch_ref = Ok branch_name ->
  get_diff_string E branch_ref "doc/conf.py" = Ok conf_diff ->
  files w (OsPath.join (ROOT_DOC_DIR (REPO_ROOT_DIR E)) "conf.py")
  = Some (Fs.File orig_bytes) ->
  Encoding.decode (encoding E) orig_bytes = Some orig_conf ->
  Encoding.encode (encoding E) (PyStr.universal_newlines orig_conf ++ conf_diff)
  = Some new_bytes ->
  files w (TEMP_DOC_DIR (REPO_ROOT_DIR E)) = Some Fs.Dir ->
  files w temp_conf <> Some Fs.Dir ->
  theme_build_args (REPO_ROOT_DIR E) tb branch_ref branch_name = Ok args ->
  exists staged_fs,
    staged_fs temp_conf = Some (Fs.File new_bytes)
    /\ (forall p, p <> temp_conf -> staged_fs p = files w p)
    /\ log (snd (build_theme E tb branch_ref w))
       = (log w ++ [BuildMain branch_ref args])%list
    /\ fst (build_theme E tb branch_ref w)
       = if Z.eqb (build_main E staged_fs args) 0 then Ok tt else Raise BuildException.
Proof.
  intros temp_conf Hb Hd Ho Hdec Henc Ht Hc Ha.
  pose proof (update_theme_conf_run E branch_ref conf_diff orig_bytes orig_conf
                new_bytes (files w) Hd Ho Hdec Henc Ht Hc) as Hu.
  fold temp_conf in Hu.
  destruct (build_theme_call E tb branch_ref w)
    as [(_ & _ & [Hn | Hn]) | (b & args' & Hb' & _ & Ha' & Hsnd & Hfst)].
  - congruence.
  - exfalso. apply Hn. now rewrite Hu.
  - assert (b = branch_name) as -> by congruence.
    assert (args' = args) as -> by congruence.
    rewrite Hu in Hsnd, Hfst. cbn [snd] in Hsnd, Hfst.
    exists (Fs.update temp_conf (Fs.File new_bytes)
              (Fs.update temp_conf (Fs.File "") (files w))).
    unfold Fs.update at 1 3. rewrite String.eqb_refl. repeat split.
    + intros p Hp. apply String.eqb_neq in Hp. unfold Fs.update. now rewrite Hp.
    + now rewrite Hsnd.
    + exact Hfst.
Qed.

Lemma build_theme_builds_on_conf_witness :
  exists staged_fs,
    staged_fs "/repo/dev_utils/tmp/doc/conf.py"
    = Some (Fs.File (("project = 'nbsphinx'" ++ Ex.nl)
                     ++ ("html_theme = 'alabaster'" ++ Ex.nl ++ "html_logo = None" ++ Ex.nl)))
    /\ (forall p, p <> "/repo/dev_utils/tmp/doc/conf.py" -> staged_fs p = Demo.fs_crlf p)
    /\ log (snd (build_theme Ex.env_alabaster_fails Ex.builder
                   "upstream_diff_repo/alabaster-theme" (Ex.world Demo.fs_crlf)))
       = [BuildMain "upstream_diff_repo/alabaster-theme"
            ["/repo/dev_utils/tmp/doc"; "/repo/dev_utils/_build/alabaster-theme";
             "-d"; "/repo/dev_utils/tmp/shared_build_cache"]]
    /\ fst (build_theme Ex.env_alabaster_fails Ex.builder
              "upstream_diff_repo/alabaster-theme" (Ex.world Demo.fs_crlf))
       = if Z.eqb (build_main Ex.env_alabaster_fails staged_fs
                     ["/repo/dev_utils/tmp/doc"; "/repo/dev_utils/_build/alabaster-theme";
                      "-d"; "/repo/dev_utils/tmp/shared_build_cache"]) 0
         then Ok tt else Raise BuildException.
Proof.
  apply (build_theme_builds_on_conf Ex.env_alabaster_fails Ex.builder
           "upstream_diff_repo/alabaster-theme" "alabaster-theme"
           ("html_theme = 'alabaster'" ++ Ex.nl ++ "html_logo = None" ++ Ex.nl)
           ("project = 'nbsphinx'" ++ Demo.crlf) ("project = 'nbsphinx'" ++ Demo.crlf)
           (("project = 'nbsphinx'" ++ Ex.nl)
            ++ ("html_theme = 'alabaster'" ++ Ex.nl ++ "html_logo = None" ++ Ex.nl))
           ["/repo/dev_utils/tmp/doc"; "/repo/dev_utils/_build/alabaster-theme";
            "-d"; "/repo/dev_utils/tmp/shared_build_cache"]
           (Ex.world Demo.fs_crlf)).
  - reflexivity.
  - reflexivity.
  - reflexivity.
  - reflexivity.
  - reflexivity.
  - reflexivity.
  - intros H. vm_compute in H. discriminate H.
  - reflexivity.
Defined.

Lemma option_not_dest (root branch_name x : string) :
  String.length x = 2 -> PyStr.startswith x "/" = false ->
  String.eqb x (OsPath.join (TEMP_BUILD_ROOT_DIR root) branch_name) = false.
Proof.
  intros Hx Hs. destruct (PyStr.startswith branch_name "/") eqn:E.
  - unfold OsPath.join. rewrite E. apply String.eqb_neq. intros ->. congruence.
  - apply eqb_length. rewrite TEMP_BUILD_ROOT_DIR_eq. join_lit.
    rewrite length_app_s, Hx. simpl. lia.
Qed.

(** The argument list of the builder [__init__] makes has no [-a]; that
    of the builder with [-a] added has it third. *)
Lemma theme_build_args_force_all (root : string) (upstream : list (string * Git.Commit))
    (disk : option Git.Repo) (tb0 : ThemeBuilder) (branch_ref branch_name : string)
    (args0 args1 : list string) :
  fst (ThemeBuilder_init root upstream disk) = Ok tb0 ->
  theme_build_args root tb0 branch_ref branch_name = Ok args0 ->
  theme_build_args root (force_all tb0) branch_ref branch_name = Ok args1 ->
  ~ In "-a" args0 /\ nth_error args1 2 = Some "-a".
Proof.
  intros Hinit H0 H1.
  destruct (init_refs _ _ _ _ Hinit) as (_ & Hba & Hsh).
  unfold theme_build_args in H0, H1. cbn [force_all build_args shared_cache_args] in H1.
  rewrite Hba, Hsh in *.
  destruct (ref_to_theme_name branch_ref); [|discriminate]. cbn [bind] in H0, H1.
  assert (Hdoc : TEMP_DOC_DIR root <> "-a").
  { apply String.eqb_neq, eqb_length. rewrite TEMP_DOC_DIR_eq, length_app_s. simpl. lia. }
  assert (Hdest : OsPath.join (TEMP_BUILD_ROOT_DIR root) branch_name <> "-a").
  { intros H. symmetry in H. revert H. apply String.eqb_neq.
    now apply option_not_dest. }
  assert (Hcache : OsPath.join (TEMP_DIR root) "shared_build_cache" <> "-a").
  { apply String.eqb_neq, eqb_length. rewrite temp_file by reflexivity.
    rewrite length_app_s. simpl. lia. }
  destruct (negb _); injection H0 as <-; injection H1 as <-;
    (split; [|reflexivity]); simpl; intuition congruence.
Qed.

(** With [-a], and only then, [build_main] gets [-a]: in the call
    [build_theme] makes for a branch that has a name and whose
    configuration could be written, [-a] is the third argument for the
    builder with [build_args += ["-a"]], as [cli] makes it for [-a],
    and no argument for the builder as [__init__] makes it. *)
Theorem force_all_passes_a (E : Env) (upstream : list (string * Git.Commit))
    (disk : option Git.Repo) (tb0 : ThemeBuilder) (branch_ref branch_name : string)
    (w : World) :
  fst (ThemeBuilder_init (REPO_ROOT_DIR E) upstream disk) = Ok tb0 ->
  branch_name_of branch_ref = Ok branch_name ->
  fst (update_theme_conf E branch_ref (files w)) = Ok tt ->
  exists args0 args1,
    log (snd (build_theme E tb0 branch_ref w))
    = (log w ++ [BuildMain branch_ref args0])%list
    /\ log (snd (build_theme E (force_all tb0) branch_ref w))
       = (log w ++ [BuildMain branch_ref args1])%list
    /\ ~ In "-a" args0
    /\ nth_error args1 2 = Some "-a".
Proof.
  intros Hinit Hb Hu.
  destruct (build_theme_calls E tb0 _ _ _ Hb Hu) as (args0 & Ha0 & Hl0).
  destruct (build_theme_calls E (force_all tb0) _ _ _ Hb Hu) as (args1 & Ha1 & Hl1).
  exists args0, args1. repeat split; try assumption;
    now apply (theme_build_args_force_all _ _ _ _ _ _ _ _ Hinit Ha0 Ha1).
Qed.

Lemma force_all_passes_a_witness :
  exists args0 args1,
    log (snd (build_theme Demo.env Ex.builder "upstream_diff_repo/guzzle-theme"
                (Ex.world Ex.fs_stale)))
    = (log (Ex.world Ex.fs_stale)
       ++ [BuildMain "upstream_diff_repo/guzzle-theme" args0])%list
    /\ log (snd (build_theme Demo.env (force_all Ex.builder)
                   "upstream_diff_repo/guzzle-theme" (Ex.world Ex.fs_stale)))
       = (log (Ex.world Ex.fs_stale)
          ++ [BuildMain "upstream_diff_repo/guzzle-theme" args1])%list
    /\ ~ In "-a" args0
    /\ nth_error args1 2 = Some "-a".
Proof.
  apply (force_all_passes_a Demo.env Ex.upstream None Ex.builder
           "upstream_diff_repo/guzzle-theme" "guzzle-theme"); reflexivity.
Defined.

(** ** More on [copy_root_docs] *)

(** A path that is neither the staged [doc], nor below it, nor above
    it, nor one of the two copied files is left alone. *)
Lemma copy_root_docs_frame_path (root p : string) (fs : Fs.t) :
  String.eqb p (TEMP_DOC_DIR root) = false ->
  Fs.inside (TEMP_DOC_DIR root) p = false ->
  Fs.inside p (TEMP_DOC_DIR root) = false ->
  String.eqb p (OsPath.join (TEMP_DIR root) "README.rst") = false ->
  String.eqb p (OsPath.join (TEMP_DIR root) "CONTRIBUTING.rst") = false ->
  snd (copy_root_docs root fs) p = fs p.
Proof.
  intros E1 E2 E3 E4 E5. unfold copy_root_docs. revert fs.
  apply bindM_frame; [intros fs; cbn [snd]; now apply rmtree_frame|]. intros _.
  apply bindM_frame; [intros fs; now apply copytree_frame|]. intros _.
  apply for_each_frame. intros file_name Hf fs.
  apply copyfile_frame. now destruct Hf as [<-|[<-|[]]].
Qed.

(** What is below the root of the repository, written from the root. *)
Lemma root_file (root name : string) :
  PyStr.startswith name "/" = false ->
  OsPath.join root name = OsPath.join root "" ++ name.
Proof. apply join_rel. Qed.

Ltac from_root :=
  rewrite ?TEMP_DOC_DIR_eq, ?ROOT_DOC_DIR_eq, ?(temp_file _ "README.rst"),
    ?(temp_file _ "CONTRIBUTING.rst"), ?(root_file _ "README.rst"),
    ?(root_file _ "CONTRIBUTING.rst") by reflexivity;
  rewrite ?app_assoc_s, ?eqb_app_head, ?inside_app_head.

(** [copy_root_docs] reads the repository and never writes to it: the
    directory [doc] of the repository, all that is below it, and the
    files [README.rst] and [CONTRIBUTING.rst] at the root are after the
    staging what they were before, whether it raises or not. *)
Theorem copy_root_docs_keeps_sources (root p : string) (fs : Fs.t) :
  p = ROOT_DOC_DIR root
  \/ Fs.inside (ROOT_DOC_DIR root) p = true
  \/ p = OsPath.join root "README.rst"
  \/ p = OsPath.join root "CONTRIBUTING.rst" ->
  snd (copy_root_docs root fs) p = fs p.
Proof.
  intros Hp.
  assert (Hq : exists q, p = OsPath.join root "" ++ q
                 /\ (q = "doc" \/ (exists rel, q = "doc/" ++ rel)
                     \/ q = "README.rst" \/ q = "CONTRIBUTING.rst")).
  { destruct Hp as [-> | [Hp | [-> | ->]]].
    - exists "doc". split; [apply ROOT_DOC_DIR_eq | auto].
    - unfold Fs.inside, PyStr.startswith in Hp.
      destruct (PyStr.strip_prefix _ p) as [rel|] eqn:E; [|discriminate].
      apply strip_prefix_Some in E. rewrite ROOT_DOC_DIR_eq, !app_assoc_s in E.
      exists ("doc/" ++ rel). split; [exact E | eauto].
    - exists "README.rst". split; [now apply root_file | auto].
    - exists "CONTRIBUTING.rst". split; [now apply root_file | auto]. }
  destruct Hq as (q & -> & Hq).
  apply copy_root_docs_frame_path; from_root;
    destruct Hq as [-> | [[rel ->] | [-> | ->]]]; reflexivity.
Qed.

Lemma copy_root_docs_keeps_sources_witness :
  snd (copy_root_docs Ex.root Ex.fs_stale) "/repo/doc/conf.py"
  = Ex.fs_stale "/repo/doc/conf.py".
Proof.
  apply (copy_root_docs_keeps_sources Ex.root "/repo/doc/conf.py" Ex.fs_stale).
  right. left. reflexivity.
Defined.

(** [copy_root_docs], step by step. *)
Lemma copy_root_docs_steps (root : string) (fs : Fs.t) :
  copy_root_docs root fs
  = match change (Fs.copytree (ROOT_DOC_DIR root) (TEMP_DOC_DIR root))
            (Fs.rmtree (TEMP_DOC_DIR root) fs) with
    | (Raise e, fs1) => (Raise e, fs1)
    | (Ok _, fs1) =>
        match change (Fs.copyfile (OsPath.join root "README.rst")
                        (TEMP_DIR root) "README.rst") fs1 with
        | (Raise e, fs2) => (Raise e, fs2)
        | (Ok _, fs2) =>
            match change (Fs.copyfile (OsPath.join root "CONTRIBUTING.rst")
                            (TEMP_DIR root) "CONTRIBUTING.rst") fs2 with
            | (Raise e, fs3) => (Raise e, fs3)
            | (Ok _, fs3) => (Ok tt, fs3)
            end
        end
    end.
Proof.
  unfold copy_root_docs, bindM at 1 2. cbn [for_each]. unfold bindM, ret.
  destruct (change (Fs.copytree _ _) _) as [[[]|e] fs1]; [|reflexivity].
  destruct (change (Fs.copyfile _ _ "README.rst") fs1) as [[[]|e] fs2]; [|reflexivity].
  destruct (change (Fs.copyfile _ _ "CONTRIBUTING.rst") fs2) as [[[]|e] fs3];
    reflexivity.
Qed.

Lemma copyfile_ok (src dir name : string) (fs fs' : Fs.t) :
  change (Fs.copyfile src dir name) fs = (Ok tt, fs') ->
  exists content,
    fs src = Some (Fs.File content)
    /\ fs' = Fs.update (OsPath.join dir name) (Fs.File content) fs.
Proof.
  unfold change, Fs.copyfile, Fs.read, Fs.write.
  destruct (fs src) as [[c|]|]; cbn [bind]; try discriminate.
  destruct (fs dir) as [[c'|]|]; try discriminate.
  destruct (fs (OsPath.join dir name)) as [[c'|]|]; try discriminate;
    intros H; injection H as <-; eauto.
Qed.

Lemma strip_prefix_longer (x y : string) (c : ascii) :
  PyStr.strip_prefix (x ++ String c y) x = None.
Proof.
  induction x as [|a x IH]; simpl; [reflexivity|].
  now rewrite Ascii.eqb_refl.
Qed.

Lemma copytree_ok (src dst : string) (fs fs' : Fs.t) :
  change (Fs.copytree src dst) fs = (Ok tt, fs') -> fs' dst = Some Fs.Dir.
Proof.
  unfold change, Fs.copytree.
  destruct (fs src) as [[c|]|]; try discriminate.
  destruct (fs dst) eqn:Ed; [discriminate|].
  intros H. injection H as <-.
  change (dst ++ "/") with (dst ++ String "/" "").
  rewrite strip_prefix_longer. unfold Fs.makedirs.
  now rewrite String.eqb_refl, Ed.
Qed.

(** After a staging that succeeded, the staged [doc] is a directory,
    and the files [README.rst] and [CONTRIBUTING.rst] of the staging
    directory have the content of those at the root of the
    repository. *)
Theorem copy_root_docs_copies_files (root : string) (fs : Fs.t) :
  fst (copy_root_docs root fs) = Ok tt ->
  snd (copy_root_docs root fs) (TEMP_DOC_DIR root) = Some Fs.Dir
  /\ exists readme contributing,
       fs (OsPath.join root "README.rst") = Some (Fs.File readme)
       /\ fs (OsPath.join root "CONTRIBUTING.rst") = Some (Fs.File contributing)
       /\ snd (copy_root_docs root fs) (OsPath.join (TEMP_DIR root) "README.rst")
          = Some (Fs.File readme)
       /\ snd (copy_root_docs root fs) (OsPath.join (TEMP_DIR root) "CONTRIBUTING.rst")
          = Some (Fs.File contributing).
Proof.
  rewrite copy_root_docs_steps.
  destruct (change (Fs.copytree _ _) _) as [[[]|e] fs1] eqn:E1; [|discriminate].
  destruct (change (Fs.copyfile _ _ "README.rst") fs1) as [[[]|e] fs2] eqn:E2;
    [|discriminate].
  destruct (change (Fs.copyfile _ _ "CONTRIBUTING.rst") fs2) as [[[]|e] fs3] eqn:E3;
    [|discriminate].
  intros _. cbn [snd].
  assert (F1 : forall p,
            String.eqb p (TEMP_DOC_DIR root) = false ->
            Fs.inside (TEMP_DOC_DIR root) p = false ->
            Fs.inside p (TEMP_DOC_DIR root) = false ->
            fs1 p = fs p).
  { intros p H1 H2 H3.
    replace fs1 with (snd (change (Fs.copytree (ROOT_DOC_DIR root) (TEMP_DOC_DIR root))
                             (Fs.rmtree (TEMP_DOC_DIR root) fs)))
      by now rewrite E1.
    rewrite copytree_frame by assumption. now apply rmtree_frame. }
  apply copytree_ok in E1.
  apply copyfile_ok in E2 as (readme & Hr & ->).
  apply copyfile_ok in E3 as (contributing & Hc & ->).
  rewrite F1 in Hr by (from_root; reflexivity).
  assert (Gc : fs1 (OsPath.join root "CONTRIBUTING.rst")
               = fs (OsPath.join root "CONTRIBUTING.rst"))
    by (apply F1; from_root; reflexivity).
  clear F1. unfold Fs.update in Hc |- *.
  revert E1 Hr Hc Gc. from_root.
  generalize (OsPath.join root ""). intros P. simpl.
  intros E1 Hr Hc Gc. rewrite Gc in Hc. eauto 8.
Qed.

Lemma copy_root_docs_copies_files_witness :
  snd (copy_root_docs Ex.root Ex.fs_stale) (TEMP_DOC_DIR Ex.root) = Some Fs.Dir
  /\ exists readme contributing,
       Ex.fs_stale (OsPath.join Ex.root "README.rst") = Some (Fs.File readme)
       /\ Ex.fs_stale (OsPath.join Ex.root "CONTRIBUTING.rst")
          = Some (Fs.File contributing)
       /\ snd (copy_root_docs Ex.root Ex.fs_stale)
              (OsPath.join (TEMP_DIR Ex.root) "README.rst")
          = Some (Fs.File readme)
       /\ snd (copy_root_docs Ex.root Ex.fs_stale)
              (OsPath.join (TEMP_DIR Ex.root) "CONTRIBUTING.rst")
          = Some (Fs.File contributing).
Proof.
  apply (copy_root_docs_copies_files Ex.root Ex.fs_stale). reflexivity.
Defined.

(** Staging is not all or nothing: when the repository has no [doc],
    [copy_root_docs] raises [FileNotFoundError] for it, but the tree
    staged by an earlier run is gone by then. *)
Theorem copy_root_docs_missing_doc (root : string) (fs : Fs.t) :
  fs (ROOT_DOC_DIR root) = None ->
  copy_root_docs root fs
  = (Raise (FileNotFoundError (ROOT_DOC_DIR root)), Fs.rmtree (TEMP_DOC_DIR root) fs)
  /\ (fs (TEMP_DOC_DIR root) = Some Fs.Dir ->
      forall p,
        p = TEMP_DOC_DIR root \/ Fs.inside (TEMP_DOC_DIR root) p = true ->
        snd (copy_root_docs root fs) p = None).
Proof.
  intros Hdoc.
  assert (Hrun : copy_root_docs root fs
                 = (Raise (FileNotFoundError (ROOT_DOC_DIR root)),
                    Fs.rmtree (TEMP_DOC_DIR root) fs)).
  { rewrite copy_root_docs_steps. unfold change, Fs.copytree.
    rewrite rmtree_frame, Hdoc by (from_root; reflexivity). reflexivity. }
  split; [exact Hrun|].
  intros Hstaged p Hp. rewrite Hrun. cbn [snd]. unfold Fs.rmtree. rewrite Hstaged.
  destruct Hp as [->|Hp].
  - now rewrite String.eqb_refl.
  - now rewrite Hp, orb_true_r.
Qed.

Lemma copy_root_docs_missing_doc_witness :
  fst (copy_root_docs Ex.root Demo.fs_no_doc) = Raise (FileNotFoundError "/repo/doc")
  /\ snd (copy_root_docs Ex.root Demo.fs_no_doc) "/repo/dev_utils/tmp/doc/old.rst" = None.
Proof.
  destruct (copy_root_docs_missing_doc Ex.root Demo.fs_no_doc) as [Hrun Hgone].
  - reflexivity.
  - split.
    + rewrite Hrun. reflexivity.
    + apply Hgone; [reflexivity | right; reflexivity].
Defined.

(** ** More on [validate_theme_list] and [build_themes] *)

Lemma theme_names_of_In (refs names : list string) (name : string) :
  theme_names_of refs = Ok names ->
  In name names ->
  exists ref, In ref refs /\ ref_to_theme_name ref = Ok name.
Proof.
  revert names. induction refs as [|x refs IH]; intros names H Hin; simpl in H.
  - injection H as <-. contradiction.
  - destruct (ref_to_theme_name x) as [n|] eqn:En; [|discriminate]. cbn [bind] in H.
    destruct (theme_names_of refs) as [ns|]; [|discriminate]. cbn [bind] in H.
    injection H as <-. destruct Hin as [<-|Hin].
    + exists x. split; [now left | assumption].
    + destruct (IH ns eq_refl Hin) as (ref & Hr & Hn).
      exists ref. split; [now right | assumption].
Qed.

(** A theme that is asked for by name and passes the validation has a
    theme branch, which is selected; and when [build_themes] returns,
    [build_main] has been called for that branch. *)
Theorem requested_theme_is_built (E : Env) (tb : ThemeBuilder)
    (theme_list : list string) (name : string) (w : World) :
  validate_theme_list tb theme_list = Ok tt ->
  ~ In "all" theme_list ->
  In name theme_list ->
  exists branch_ref,
    In branch_ref (theme_branche_refs tb)
    /\ ref_to_theme_name branch_ref = Ok name
    /\ selected theme_list branch_ref = true
    /\ (fst (build_themes E tb theme_list w) = Ok tt ->
        In branch_ref (built (log (snd (build_themes E tb theme_list w))))).
Proof.
  intros Hv Hall Hname.
  assert (Href : exists branch_ref,
            In branch_ref (theme_branche_refs tb)
            /\ ref_to_theme_name branch_ref = Ok name).
  { unfold validate_theme_list, get_theme_names in Hv.
    destruct (theme_names_of (theme_branche_refs tb)) as [valid|] eqn:Ev;
      [|discriminate]. cbn [bind] in Hv.
    apply mem_not_In in Hall. rewrite Hall, fold_left_keep in Hv. cbn [app] in Hv.
    apply (theme_names_of_In _ valid); [assumption|].
    destruct (PyStr.mem name valid) eqn:Em; [now apply mem_In|].
    assert (Hin : In name (filter (fun n => negb (PyStr.mem n valid)) theme_list))
      by (apply filter_In; now rewrite Em).
    destruct (filter _ theme_list); [contradiction | discriminate]. }
  destruct Href as (branch_ref & Hin & Hn). exists branch_ref.
  assert (Hsel : selected theme_list branch_ref = true).
  { unfold selected. rewrite Hn. apply orb_true_iff. right. now apply mem_In. }
  repeat split; try assumption.
  unfold build_themes, bindM, lift. rewrite Hv.
  destruct (stage E w) as [[[]|e] w0]; [|discriminate].
  destruct (loop_log E tb theme_list (theme_branche_refs tb) w0)
    as (done & k & Hl & _ & _ & Hok).
  intros Hr. rewrite Hl, built_app, (Hok Hr). apply in_or_app. right.
  apply filter_In. now split.
Qed.

Lemma requested_theme_is_built_witness :
  exists branch_ref,
    In branch_ref (theme_branche_refs Ex.builder)
    /\ ref_to_theme_name branch_ref = Ok "classic"
    /\ selected ["classic"] branch_ref = true
    /\ (fst (build_themes Ex.env_ok Ex.builder ["classic"] (Ex.world Ex.fs)) = Ok tt ->
        In branch_ref
           (built (log (snd (build_themes Ex.env_ok Ex.builder ["classic"]
                               (Ex.world Ex.fs)))))).
Proof.
  apply (requested_theme_is_built Ex.env_ok Ex.builder ["classic"] "classic"
           (Ex.world Ex.fs)).
  - reflexivity.
  - intros [H|[]]. discriminate H.
  - left. reflexivity.
Defined.

Lemma loop_nothing_selected (E : Env) (tb : ThemeBuilder) (refs names : list string)
    (w : World) :
  theme_names_of refs = Ok names ->
  for_each refs (build_if_selected E tb []) w = (Ok tt, w).
Proof.
  revert names. induction refs as [|x refs IH]; intros names H; [reflexivity|].
  simpl in H. destruct (ref_to_theme_name x) as [n|] eqn:En; [|discriminate].
  cbn [bind] in H. destruct (theme_names_of refs) as [ns|]; [|discriminate].
  cbn [for_each]. unfold bindM at 1. unfold build_if_selected at 1.
  cbn [PyStr.mem existsb]. unfold bindM, lift. rewrite En. cbn [PyStr.mem existsb].
  unfold ret. now apply (IH ns).
Qed.

(** With the empty list of themes ([-t] without a name), [build_themes]
    passes the validation, stages the documentation, and builds
    nothing: it does what the staging does. *)
Theorem build_themes_nil (E : Env) (tb : ThemeBuilder) (valid_themes : list string)
    (w : World) :
  get_theme_names tb = Ok valid_themes ->
  build_themes E tb [] w = stage E w.
Proof.
  intros Hv.
  assert (Hval : validate_theme_list tb [] = Ok tt)
    by (unfold validate_theme_list; now rewrite Hv).
  unfold build_themes, bindM, lift. rewrite Hval.
  destruct (stage E w) as [[[]|e] w0]; [|reflexivity].
  now apply (loop_nothing_selected E tb _ valid_themes).
Qed.

Lemma build_themes_nil_witness :
  build_themes Ex.env_ok Ex.builder [] (Ex.world Ex.fs)
  = stage Ex.env_ok (Ex.world Ex.fs).
Proof.
  apply (build_themes_nil Ex.env_ok Ex.builder ["alabaster"; "classic"]).
  reflexivity.
Defined.

(** ** More on [prepare_git] and [__init__] *)

Lemma lookup_set_eq {V : Type} (k : string) (v : V) (l : list (string * V)) :
  Git.lookup k (Git.set k v l) = Some v.
Proof.
  induction l as [|[k' v'] l IH]; simpl.
  - now rewrite String.eqb_refl.
  - destruct (String.eqb k k') eqn:E; simpl.
    + now rewrite String.eqb_refl.
    + now rewrite E.
Qed.

Lemma lookup_app_last {V : Type} (k : string) (v : V) (l : list (string * V)) :
  Git.lookup k (l ++ [(k, v)]) <> None.
Proof.
  induction l as [|[k' v'] l IH]; simpl.
  - now rewrite String.eqb_refl.
  - now destruct (String.eqb k k').
Qed.

(** After the second step of [prepare_git] the remote is there. *)
Lemma has_remote_ensured (r : Git.Repo) :
  Git.has_remote remote_name
    (if negb (Git.has_remote remote_name r)
     then Git.create_remote remote_name remote_url r
     else r) = true.
Proof.
  destruct (Git.has_remote remote_name r) eqn:E; [exact E|].
  cbn [negb]. unfold Git.has_remote, Git.create_remote. cbn [Git.remotes].
  destruct (Git.lookup remote_name _) eqn:El; [reflexivity|].
  now apply lookup_app_last in El.
Qed.

Lemma prepare_git_end (repo2 r : Git.Repo) (d' : option Git.Repo) :
  Git.has_remote remote_name repo2 = true ->
  match (master <- Git.remote_ref remote_name "master" repo2 ;;
         Git.create_head "master" master repo2) with
  | Ok repo' => (Ok repo', Some repo')
  | Raise e => (Raise e, Some repo2)
  end = (Ok r, d') ->
  d' = Some r
  /\ forall upstream', prepare_git upstream' (Some r) = (Ok r, Some r).
Proof.
  intros Hrem H.
  destruct (Git.remote_ref remote_name "master" repo2) as [c|] eqn:Ec;
    cbn [bind] in H; [|discriminate].
  destruct (Git.create_head "master" c repo2) as [r'|] eqn:Eh; [|discriminate].
  injection H as -> <-. split; [reflexivity|].
  assert (Hr : Git.remotes r = Git.remotes repo2
               /\ Git.remote_refs r = Git.remote_refs repo2
               /\ Git.lookup "master" (Git.heads r) = Some c).
  { unfold Git.create_head in Eh.
    destruct (Git.lookup "master" (Git.heads repo2)) as [existing|] eqn:El.
    - destruct (String.eqb_spec existing c) as [->|]; [|discriminate].
      injection Eh as <-. auto.
    - injection Eh as <-. cbn. repeat split. apply lookup_set_eq. }
  destruct Hr as (H1 & H2 & H3).
  intros upstream'. unfold prepare_git.
  assert (Hrem' : Git.has_remote remote_name r = true)
    by (unfold Git.has_remote in *; now rewrite H1).
  assert (Hc' : Git.remote_ref remote_name "master" r = Ok c)
    by (unfold Git.remote_ref in *; now rewrite H2).
  rewrite Hrem'. cbn [negb]. rewrite Hc'. cbn [bind].
  unfold Git.create_head. now rewrite H3, String.eqb_refl.
Qed.

(** A run of [prepare_git] that succeeds leaves its repository on disk,
    and running it again on that repository, whatever the other side
    has by then, succeeds and changes nothing: without a fetch in
    between, [prepare_git] can be repeated. *)
Theorem prepare_git_repeatable (upstream : list (string * Git.Commit))
    (disk0 d' : option Git.Repo) (r : Git.Repo) :
  prepare_git upstream disk0 = (Ok r, d') ->
  d' = Some r
  /\ forall upstream', prepare_git upstream' (Some r) = (Ok r, Some r).
Proof.
  unfold prepare_git at 1. destruct disk0 as [r0|].
  - apply prepare_git_end. apply has_remote_ensured.
  - apply prepare_git_end.
    change (Git.has_remote remote_name
              (if negb (Git.has_remote remote_name Git.init)
               then Git.create_remote remote_name remote_url Git.init
               else Git.init) = true).
    apply has_remote_ensured.
Qed.

Lemma prepare_git_repeatable_witness :
  Some (repo Ex.builder) = Some (repo Ex.builder)
  /\ forall upstream',
       prepare_git upstream' (Some (repo Ex.builder))
       = (Ok (repo Ex.builder), Some (repo Ex.builder)).
Proof.
  apply (prepare_git_repeatable Ex.upstream None (Some (repo Ex.builder))
           (repo Ex.builder)).
  reflexivity.
Defined.

(** On a repository that is there already, [__init__] does not fetch:
    the theme branches of the builder are those the repository on disk
    has, whatever the other side has by now. *)
Theorem init_uses_branches_on_disk (root : string)
    (upstream : list (string * Git.Commit)) (r0 : Git.Repo) (tb : ThemeBuilder) :
  fst (ThemeBuilder_init root upstream (Some r0)) = Ok tb ->
  theme_branche_refs tb = get_theme_branch_refs r0.
Proof.
  unfold ThemeBuilder_init, bindM, ret, prepare_git.
  set (r1 := if negb (Git.has_remote remote_name r0)
             then Git.create_remote remote_name remote_url r0 else r0).
  assert (H1 : Git.remote_refs r1 = Git.remote_refs r0)
    by (unfold r1; now destruct (negb _)).
  destruct (Git.remote_ref remote_name "master" r1) as [c|]; cbn [bind];
    [|discriminate].
  destruct (Git.create_head "master" c r1) as [r|] eqn:Eh; [|discriminate].
  cbn [fst]. intros H. injection H as <-. cbn [theme_branche_refs].
  assert (H2 : Git.remote_refs r = Git.remote_refs r1).
  { unfold Git.create_head in Eh.
    destruct (Git.lookup "master" (Git.heads r1)).
    - destruct (String.eqb _ c); [now injection Eh as <- | discriminate].
    - now injection Eh as <-. }
  unfold get_theme_branch_refs, Git.refs. now rewrite H2, H1.
Qed.

Lemma init_uses_branches_on_disk_witness :
  theme_branche_refs Ex.builder = get_theme_branch_refs (repo Ex.builder).
Proof.
  apply (init_uses_branches_on_disk Ex.root Demo.upstream_new_theme
           (repo Ex.builder) Ex.builder).
  reflexivity.
Defined.

(** ** Staging twice *)

Lemma inside_length (d p : string) :
  Fs.inside d p = true -> String.length d < String.length p.
Proof.
  unfold Fs.inside, PyStr.startswith.
  destruct (PyStr.strip_prefix (d ++ "/") p) as [r|] eqn:E; [|discriminate].
  intros _. apply strip_prefix_Some in E. subst p.
  rewrite !length_app_s. simpl. lia.
Qed.

Lemma inside_not_eq (d p : string) : Fs.inside d p = true -> String.eqb p d = false.
Proof.
  intros H. apply inside_length in H. apply eqb_length. lia.
Qed.

Lemma inside_not_inside (d p : string) : Fs.inside d p = true -> Fs.inside p d = false.
Proof.
  intros H. apply inside_length in H.
  destruct (Fs.inside p d) eqn:E; [|reflexivity].
  apply inside_length in E. lia.
Qed.

Lemma copytree_ok_fun (src dst : string) (fs fs' : Fs.t) :
  change (Fs.copytree src dst) fs = (Ok tt, fs') ->
  fs src = Some Fs.Dir /\ fs dst = None
  /\ forall p,
       fs' p = match PyStr.strip_prefix (dst ++ "/") p with
               | Some rel => fs (src ++ "/" ++ rel)
               | None => Fs.makedirs dst fs p
               end.
Proof.
  unfold change, Fs.copytree.
  destruct (fs src) as [[c|]|]; try discriminate.
  destruct (fs dst) eqn:Ed; [discriminate|].
  intros H. injection H as <-. auto.
Qed.

Lemma copytree_succeeds (src dst : string) (fs : Fs.t) :
  fs src = Some Fs.Dir -> fs dst = None ->
  fst (change (Fs.copytree src dst) fs) = Ok tt.
Proof. intros H1 H2. unfold change, Fs.copytree. now rewrite H1, H2. Qed.

Lemma copyfile_ok_dir (src dir name : string) (fs fs' : Fs.t) :
  change (Fs.copyfile src dir name) fs = (Ok tt, fs') -> fs dir = Some Fs.Dir.
Proof.
  unfold change, Fs.copyfile, Fs.read, Fs.write.
  destruct (fs src) as [[c|]|]; cbn [bind]; try discriminate.
  destruct (fs dir) as [[c'|]|]; try discriminate. reflexivity.
Qed.

Lemma copyfile_succeeds (src dir name content : string) (fs : Fs.t) :
  fs src = Some (Fs.File content) -> fs dir = Some Fs.Dir ->
  fs (OsPath.join dir name) <> Some Fs.Dir ->
  change (Fs.copyfile src dir name) fs
  = (Ok tt, Fs.update (OsPath.join dir name) (Fs.File content) fs).
Proof.
  intros H1 H2 H3. unfold change, Fs.copyfile, Fs.read, Fs.write.
  rewrite H1. cbn [bind]. rewrite H2.
  destruct (fs (OsPath.join dir name)) as [[c|]|]; try reflexivity.
  now contradiction H3.
Qed.

Lemma not_inside_strip (d p : string) :
  Fs.inside d p = false -> PyStr.strip_prefix (d ++ "/") p = None.
Proof.
  unfold Fs.inside, PyStr.startswith.
  now destruct (PyStr.strip_prefix (d ++ "/") p).
Qed.

Ltac from_root_all :=
  rewrite ?TEMP_DOC_DIR_eq, ?ROOT_DOC_DIR_eq, ?(temp_file _ "README.rst"),
    ?(temp_file _ "CONTRIBUTING.rst"), ?(root_file _ "README.rst"),
    ?(root_file _ "CONTRIBUTING.rst"), ?TEMP_DIR_eq by reflexivity;
  rewrite ?app_assoc_s, ?eqb_app_head, ?inside_app_head, ?strip_prefix_app_head.

Ltac path_fact := from_root_all; reflexivity.

(** What a staging that succeeded has found and made. *)
Lemma copy_root_docs_success (root : string) (fs : Fs.t) :
  fst (copy_root_docs root fs) = Ok tt ->
  exists readme contributing,
    fs (ROOT_DOC_DIR root) = Some Fs.Dir
    /\ fs (OsPath.join root "README.rst") = Some (Fs.File readme)
    /\ fs (OsPath.join root "CONTRIBUTING.rst") = Some (Fs.File contributing)
    /\ snd (copy_root_docs root fs) (TEMP_DOC_DIR root) = Some Fs.Dir
    /\ snd (copy_root_docs root fs) (TEMP_DIR root) = Some Fs.Dir
    /\ snd (copy_root_docs root fs) (OsPath.join (TEMP_DIR root) "README.rst")
       = Some (Fs.File readme)
    /\ snd (copy_root_docs root fs) (OsPath.join (TEMP_DIR root) "CONTRIBUTING.rst")
       = Some (Fs.File contributing)
    /\ (forall p, Fs.inside p (TEMP_DOC_DIR root) = true ->
          snd (copy_root_docs root fs) p
          = match fs p with Some n => Some n | None => Some Fs.Dir end).
Proof.
  rewrite copy_root_docs_steps.
  destruct (change (Fs.copytree _ _) _) as [[[]|e] fs1] eqn:E1; [|discriminate].
  destruct (change (Fs.copyfile _ _ "README.rst") fs1) as [[[]|e] fs2] eqn:E2;
    [|discriminate].
  destruct (change (Fs.copyfile _ _ "CONTRIBUTING.rst") fs2) as [[[]|e] fs3] eqn:E3;
    [|discriminate].
  intros _. cbn [snd].
  assert (F1 : forall p,
            String.eqb p (TEMP_DOC_DIR root) = false ->
            Fs.inside (TEMP_DOC_DIR root) p = false ->
            Fs.inside p (TEMP_DOC_DIR root) = false ->
            fs1 p = fs p).
  { intros p H1 H2 H3.
    replace fs1 with (snd (change (Fs.copytree (ROOT_DOC_DIR root) (TEMP_DOC_DIR root))
                             (Fs.rmtree (TEMP_DOC_DIR root) fs)))
      by now rewrite E1.
    rewrite copytree_frame by assumption. now apply rmtree_frame. }
  pose proof (copytree_ok _ _ _ _ E1) as Htd.
  apply copytree_ok_fun in E1 as (Hroot & _ & HB).
  rewrite rmtree_frame in Hroot by path_fact.
  pose proof (copyfile_ok_dir _ _ _ _ _ E2) as Htmp.
  apply copyfile_ok in E2 as (readme & Hr & ->).
  apply copyfile_ok in E3 as (contributing & Hc & ->).
  exists readme, contributing.
  rewrite F1 in Hr by path_fact.
  assert (Gc : fs1 (OsPath.join root "CONTRIBUTING.rst")
               = fs (OsPath.join root "CONTRIBUTING.rst")) by (apply F1; path_fact).
  assert (Hanc : forall p, Fs.inside p (TEMP_DOC_DIR root) = true ->
            fs1 p = match fs p with Some n => Some n | None => Some Fs.Dir end).
  { intros p Hp.
    pose proof (inside_not_inside _ _ Hp) as Hn.
    pose proof (inside_not_eq _ _ Hp) as Hne. rewrite String.eqb_sym in Hne.
    rewrite HB, (not_inside_strip _ _ Hn). unfold Fs.makedirs.
    rewrite Hp, orb_true_r. now rewrite rmtree_frame by assumption. }
  clear HB. unfold Fs.update in Hc |- *.
  assert (Hanc' : forall p, Fs.inside p (TEMP_DOC_DIR root) = true ->
            String.eqb p (OsPath.join (TEMP_DIR root) "README.rst") = false
            /\ String.eqb p (OsPath.join (TEMP_DIR root) "CONTRIBUTING.rst") = false).
  { intros p Hp. split; apply String.eqb_neq; intros ->; revert Hp; from_root_all;
      discriminate. }
  repeat split; try assumption.
  - revert Hc Gc. from_root_all. generalize (OsPath.join root ""). intros P. simpl.
    now intros -> ->.
  - revert Htd. from_root_all. generalize (OsPath.join root ""). intros P. simpl.
    trivial.
  - revert Htmp. from_root_all. generalize (OsPath.join root ""). intros P. simpl.
    trivial.
  - from_root_all. generalize (OsPath.join root ""). intros P. simpl. reflexivity.
  - from_root_all. generalize (OsPath.join root ""). intros P. simpl. reflexivity.
  - intros p Hp. destruct (Hanc' p Hp) as [-> ->]. now apply Hanc.
Qed.

(** What a staging needs to succeed. *)
Lemma copy_root_docs_succeeds (root readme contributing : string) (fs : Fs.t) :
  fs (ROOT_DOC_DIR root) = Some Fs.Dir ->
  fs (TEMP_DOC_DIR root) = None \/ fs (TEMP_DOC_DIR root) = Some Fs.Dir ->
  fs (OsPath.join root "README.rst") = Some (Fs.File readme) ->
  fs (OsPath.join root "CONTRIBUTING.rst") = Some (Fs.File contributing) ->
  fs (TEMP_DIR root) = None \/ fs (TEMP_DIR root) = Some Fs.Dir ->
  fs (OsPath.join (TEMP_DIR root) "README.rst") <> Some Fs.Dir ->
  fs (OsPath.join (TEMP_DIR root) "CONTRIBUTING.rst") <> Some Fs.Dir ->
  fst (copy_root_docs root fs) = Ok tt.
Proof.
  intros Hroot Htd Hr Hc Htmp Htr Htc. rewrite copy_root_docs_steps.
  set (A := Fs.rmtree (TEMP_DOC_DIR root) fs).
  assert (FA : forall p, String.eqb p (TEMP_DOC_DIR root) = false ->
                 Fs.inside (TEMP_DOC_DIR root) p = false -> A p = fs p)
    by (intros; now apply rmtree_frame).
  assert (HAtd : A (TEMP_DOC_DIR root) = None).
  { unfold A, Fs.rmtree. destruct Htd as [H|H]; rewrite H; [exact H|].
    now rewrite String.eqb_refl. }
  assert (HAroot : A (ROOT_DOC_DIR root) = Some Fs.Dir)
    by (rewrite FA by path_fact; assumption).
  destruct (change (Fs.copytree (ROOT_DOC_DIR root) (TEMP_DOC_DIR root)) A)
    as [[[]|e] B] eqn:E1.
  2:{ pose proof (copytree_succeeds _ _ _ HAroot HAtd) as H. rewrite E1 in H.
      discriminate H. }
  assert (FB : forall p, String.eqb p (TEMP_DOC_DIR root) = false ->
                 Fs.inside (TEMP_DOC_DIR root) p = false ->
                 Fs.inside p (TEMP_DOC_DIR root) = false -> B p = fs p).
  { intros p H1 H2 H3.
    replace B with (snd (change (Fs.copytree (ROOT_DOC_DIR root) (TEMP_DOC_DIR root)) A))
      by now rewrite E1.
    rewrite copytree_frame by assumption. now apply FA. }
  apply copytree_ok_fun in E1 as (_ & _ & HB).
  assert (HBtmp : B (TEMP_DIR root) = Some Fs.Dir).
  { rewrite HB. rewrite not_inside_strip by path_fact. unfold Fs.makedirs.
    replace (Fs.inside (TEMP_DIR root) (TEMP_DOC_DIR root)) with true
      by (symmetry; path_fact).
    rewrite orb_true_r, FA by path_fact.
    destruct Htmp as [-> | ->]; reflexivity. }
  rewrite (copyfile_succeeds _ _ _ readme);
    [|rewrite FB by path_fact; assumption | assumption
     |rewrite FB by path_fact; assumption].
  rewrite (copyfile_succeeds _ _ _ contributing); [reflexivity| | |];
    unfold Fs.update.
  - replace (String.eqb (OsPath.join root "CONTRIBUTING.rst")
               (OsPath.join (TEMP_DIR root) "README.rst")) with false
      by (symmetry; path_fact).
    rewrite FB by path_fact. assumption.
  - replace (String.eqb (TEMP_DIR root) (OsPath.join (TEMP_DIR root) "README.rst"))
      with false by (symmetry; path_fact).
    assumption.
  - replace (String.eqb (OsPath.join (TEMP_DIR root) "CONTRIBUTING.rst")
               (OsPath.join (TEMP_DIR root) "README.rst")) with false
      by (symmetry; path_fact).
    rewrite FB by path_fact. assumption.
Qed.

(** Staging again changes nothing: after a staging that succeeded (and
    with the repository as it was), [copy_root_docs] succeeds again and
    leaves every path as the first staging left it. *)
Theorem copy_root_docs_twice (root : string) (fs : Fs.t) :
  fst (copy_root_docs root fs) = Ok tt ->
  fst (copy_root_docs root (snd (copy_root_docs root fs))) = Ok tt
  /\ forall p,
       snd (copy_root_docs root (snd (copy_root_docs root fs))) p
       = snd (copy_root_docs root fs) p.
Proof.
  intros Hok.
  destruct (copy_root_docs_success root fs Hok)
    as (readme & contributing & Hroot & Hr & Hc & Dtd & Dtmp & Dtr & Dtc & Danc).
  pose proof (copy_root_docs_copies root) as Dbelow.
  assert (Dframe := copy_root_docs_frame_path root).
  set (D := snd (copy_root_docs root fs)) in *.
  assert (Hok2 : fst (copy_root_docs root D) = Ok tt).
  { apply (copy_root_docs_succeeds root readme contributing).
    - unfold D. rewrite Dframe by path_fact. assumption.
    - now right.
    - unfold D. rewrite Dframe by path_fact. assumption.
    - unfold D. rewrite Dframe by path_fact. assumption.
    - now right.
    - rewrite Dtr. discriminate.
    - rewrite Dtc. discriminate. }
  split; [exact Hok2|].
  destruct (copy_root_docs_success root D Hok2)
    as (readme2 & contributing2 & _ & Hr2 & Hc2 & D2td & _ & D2tr & D2tc & D2anc).
  assert (readme2 = readme).
  { unfold D in Hr2. rewrite Dframe in Hr2 by path_fact. congruence. }
  assert (contributing2 = contributing).
  { unfold D in Hc2. rewrite Dframe in Hc2 by path_fact. congruence. }
  subst readme2 contributing2.
  intros p.
  destruct (String.eqb_spec p (OsPath.join (TEMP_DIR root) "README.rst")) as [->|Ntr];
    [congruence|].
  destruct (String.eqb_spec p (OsPath.join (TEMP_DIR root) "CONTRIBUTING.rst"))
    as [->|Ntc]; [congruence|].
  destruct (String.eqb_spec p (TEMP_DOC_DIR root)) as [->|Ntd]; [congruence|].
  apply String.eqb_neq in Ntr, Ntc, Ntd.
  destruct (Fs.inside (TEMP_DOC_DIR root) p) eqn:Ebelow.
  - unfold Fs.inside, PyStr.startswith in Ebelow.
    destruct (PyStr.strip_prefix _ p) as [rel|] eqn:E; [|discriminate].
    apply strip_prefix_Some in E. rewrite app_assoc_s in E. subst p.
    rewrite (Dbelow rel D Hok2). unfold D at 2. rewrite (Dbelow rel fs Hok).
    unfold D. apply Dframe; path_fact.
  - destruct (Fs.inside p (TEMP_DOC_DIR root)) eqn:Eabove.
    + rewrite (D2anc p Eabove), (Danc p Eabove). now destruct (fs p).
    + now apply Dframe.
Qed.

Lemma copy_root_docs_twice_witness :
  fst (copy_root_docs Ex.root (snd (copy_root_docs Ex.root Ex.fs_stale))) = Ok tt
  /\ forall p,
       snd (copy_root_docs Ex.root (snd (copy_root_docs Ex.root Ex.fs_stale))) p
       = snd (copy_root_docs Ex.root Ex.fs_stale) p.
Proof.
  apply (copy_root_docs_twice Ex.root Ex.fs_stale). reflexivity.
Defined.

(** * A whole run *)

(** ** C6: a run of [build_themes], step by step *)

Lemma theme_names_of_named (refs names : list string) :
  theme_names_of refs = Ok names ->
  forall ref, In ref refs -> exists n, ref_to_theme_name ref = Ok n.
Proof.
  revert names. induction refs as [|x refs IH]; intros names H ref Hin; [contradiction|].
  cbn [theme_names_of] in H.
  destruct (ref_to_theme_name x) as [n|] eqn:Ex; [|discriminate]. cbn [bind] in H.
  destruct (theme_names_of refs) as [ns|]; [|discriminate].
  destruct Hin as [<- | Hin]; [eauto | now apply (IH ns)].
Qed.

(** A list of themes is only valid when every theme branch has a theme
    name. *)
Lemma validated_named (tb : ThemeBuilder) (theme_list : list string) :
  validate_theme_list tb theme_list = Ok tt ->
  forall ref, In ref (theme_branche_refs tb) -> exists n, ref_to_theme_name ref = Ok n.
Proof.
  unfold validate_theme_list, get_theme_names. intros H.
  destruct (theme_names_of (theme_branche_refs tb)) as [names|] eqn:En; [|discriminate].
  exact (theme_names_of_named _ _ En).
Qed.

Lemma build_if_selected_unselected (E : Env) (tb : ThemeBuilder)
    (theme_list : list string) (branch_ref n : string) (w : World) :
  ref_to_theme_name branch_ref = Ok n ->
  selected theme_list branch_ref = false ->
  build_if_selected E tb theme_list branch_ref w = (Ok tt, w).
Proof.
  intros Hn Hsel. unfold selected in Hsel. rewrite Hn in Hsel.
  apply orb_false_iff in Hsel as [Hall Hmem].
  unfold build_if_selected, bindM, lift. now rewrite Hall, Hn, Hmem.
Qed.

(** The loop of [build_themes] builds the selected branches in their
    order, and ends with the first [build_theme] that raises. *)
Lemma loop_cases (E : Env) (tb : ThemeBuilder) (theme_list refs : list string)
    (w0 : World) :
  (forall ref, In ref refs -> exists n, ref_to_theme_name ref = Ok n) ->
  exists calls,
    log (snd (for_each refs (build_if_selected E tb theme_list) w0))
    = (log w0 ++ calls)%list
    /\ staged calls = 0
    /\ ((fst (for_each refs (build_if_selected E tb theme_list) w0) = Ok tt
         /\ built calls = filter (selected theme_list) refs)
        \/ exists pre branch_ref post w1 e,
             refs = (pre ++ branch_ref :: post)%list
             /\ selected theme_list branch_ref = true
             /\ for_each pre (build_if_selected E tb theme_list) w0 = (Ok tt, w1)
             /\ build_theme E tb branch_ref w1
                = (Raise e, snd (for_each refs (build_if_selected E tb theme_list) w0))
             /\ fst (for_each refs (build_if_selected E tb theme_list) w0) = Raise e
             /\ (built calls = filter (selected theme_list) pre
                 \/ e = BuildException
                    /\ built calls
                       = (filter (selected theme_list) pre ++ [branch_ref])%list)).
Proof.
  revert w0. induction refs as [|x refs IH]; intros w0 Hnamed.
  - exists []. cbn. rewrite app_nil_r. auto.
  - destruct (Hnamed x (or_introl eq_refl)) as [n Hn].
    assert (Hnamed' : forall ref, In ref refs -> exists n, ref_to_theme_name ref = Ok n)
      by (intros ref Hin; apply Hnamed; now right).
    cbn [for_each filter]. unfold bindM.
    destruct (selected theme_list x) eqn:Hsel.
    + rewrite build_if_selected_selected by assumption.
      destruct (build_theme_call E tb x w0)
        as [(Hlog & (e & He & Hne) & _) | (b & args & _ & _ & _ & Hsnd & Hfst)].
      * destruct (build_theme E tb x w0) as [r w'] eqn:Hbt. cbn [fst snd] in *. subst r.
        exists []. rewrite app_nil_r. cbn [fst snd]. repeat split; [assumption|].
        right. exists [], x, refs, w0, e. cbn. auto 10.
      * destruct (build_theme E tb x w0) as [r w'] eqn:Hbt. cbn [fst snd] in *.
        subst w'. destruct (Z.eqb (build_main E _ args) 0); subst r.
        -- set (w' := {| files := _; log := _ |}) in *.
           destruct (IH w' Hnamed') as (calls & Hl & Hs & Hcases).
           exists (BuildMain x args :: calls). rewrite Hl. cbn [log w'].
           rewrite <- app_assoc. repeat split; [exact Hs|].
           destruct Hcases as [[Hok Hb] | (pre & r & post & w1 & e & Hrefs & Hr & Hpre
                                            & Hbr & He & Hbuilt)].
           ++ left. split; [exact Hok|]. cbn [built]. now rewrite Hb.
           ++ right. exists (x :: pre), r, post, w1, e. subst refs.
              cbn [for_each filter built app]. unfold bindM.
              rewrite Hsel, build_if_selected_selected, Hbt by assumption.
              repeat split; try assumption.
              destruct Hbuilt as [Hb | [He' Hb]]; rewrite Hb; auto.
        -- exists [BuildMain x args]. cbn [fst snd log]. repeat split.
           right. exists [], x, refs, w0, BuildException. cbn. auto 10.
    + rewrite (build_if_selected_unselected E tb theme_list x n w0 Hn Hsel).
      destruct (IH w0 Hnamed') as (calls & Hl & Hs & Hcases).
      exists calls. repeat split; try assumption.
      destruct Hcases as [[Hok Hb] | (pre & r & post & w1 & e & Hrefs & Hr & Hpre
                                       & Hbr & He & Hbuilt)].
      * left. auto.
      * right. exists (x :: pre), r, post, w1, e. subst refs.
        cbn [for_each filter app]. unfold bindM.
        rewrite Hsel, (build_if_selected_unselected E tb theme_list x n w0 Hn Hsel).
        repeat split; assumption.
Qed.

(** When every selected branch can be built, the loop returns: the
    configuration of each is written over that of the one before. *)
Lemma loop_returns (E : Env) (tb : ThemeBuilder) (theme_list refs : list string)
    (orig_bytes orig_conf : string) (w0 : World) :
  (forall ref, In ref refs -> exists n, ref_to_theme_name ref = Ok n) ->
  files w0 (OsPath.join (ROOT_DOC_DIR (REPO_ROOT_DIR E)) "conf.py")
  = Some (Fs.File orig_bytes) ->
  Encoding.decode (encoding E) orig_bytes = Some orig_conf ->
  files w0 (TEMP_DOC_DIR (REPO_ROOT_DIR E)) = Some Fs.Dir ->
  files w0 (OsPath.join (TEMP_DOC_DIR (REPO_ROOT_DIR E)) "conf.py") <> Some Fs.Dir ->
  (forall branch_ref,
     In branch_ref refs -> selected theme_list branch_ref = true ->
     exists conf_diff new_bytes,
       get_diff_string E branch_ref "doc/conf.py" = Ok conf_diff
       /\ Encoding.encode (encoding E) (PyStr.universal_newlines orig_conf ++ conf_diff)
          = Some new_bytes
       /\ forall fs branch_name args,
            fs (OsPath.join (TEMP_DOC_DIR (REPO_ROOT_DIR E)) "conf.py")
            = Some (Fs.File new_bytes) ->
            branch_name_of branch_ref = Ok branch_name ->
            theme_build_args (REPO_ROOT_DIR E) tb branch_ref branch_name = Ok args ->
            build_main E fs args = 0%Z) ->
  fst (for_each refs (build_if_selected E tb theme_list) w0) = Ok tt.
Proof.
  revert w0. induction refs as [|x refs IH]; intros w0 Hnamed Ho Hdec Ht Hc Hcan;
    [reflexivity|].
  destruct (Hnamed x (or_introl eq_refl)) as [n Hn].
  assert (Hnamed' : forall ref, In ref refs -> exists n, ref_to_theme_name ref = Ok n)
    by (intros ref Hin; apply Hnamed; now right).
  assert (Hcan' := fun ref Hin => Hcan ref (or_intror Hin)).
  cbn [for_each]. unfold bindM.
  destruct (selected theme_list x) eqn:Hsel.
  - rewrite build_if_selected_selected by assumption.
    destruct (Hcan x (or_introl eq_refl) Hsel) as (conf_diff & new_bytes & Hd & Henc & Hbm).
    pose proof (update_theme_conf_run E x conf_diff orig_bytes orig_conf new_bytes
                  (files w0) Hd Ho Hdec Henc Ht Hc) as Hu.
    destruct (update_theme_conf_keeps_ready E x (files w0) orig_bytes Ho Ht Hc)
      as (Ho1 & Ht1 & Hc1).
    destruct (build_theme_call E tb x w0)
      as [(_ & _ & [Hb | Hu']) | (b & args & Hb & _ & Ha & Hsnd & Hfst)].
    + destruct (theme_name_branch_name _ _ Hn) as [b Hb']. congruence.
    + exfalso. apply Hu'. now rewrite Hu.
    + rewrite (Hbm _ b args) in Hfst; [| rewrite Hu; cbn [snd]; unfold Fs.update;
                                         now rewrite String.eqb_refl | exact Hb | exact Ha].
      cbn [Z.eqb] in Hfst.
      destruct (build_theme E tb x w0) as [r w'] eqn:Hbt. cbn [fst snd] in *.
      subst r w'. apply (IH _ Hnamed'); cbn [files]; assumption.
  - rewrite (build_if_selected_unselected E tb theme_list x n w0 Hn Hsel).
    now apply IH.
Qed.

(** After staging, the staged tree is there for the themes: the
    repository's [conf.py] is as it was, and its copy is a file of the
    staged [doc]. *)
Lemma staged_ready (root content : string) (fs : Fs.t) :
  fst (copy_root_docs root fs) = Ok tt ->
  fs (OsPath.join (ROOT_DOC_DIR root) "conf.py") = Some (Fs.File content) ->
  snd (copy_root_docs root fs) (OsPath.join (ROOT_DOC_DIR root) "conf.py")
  = Some (Fs.File content)
  /\ snd (copy_root_docs root fs) (TEMP_DOC_DIR root) = Some Fs.Dir
  /\ snd (copy_root_docs root fs) (OsPath.join (TEMP_DOC_DIR root) "conf.py")
     = Some (Fs.File content).
Proof.
  intros Hok Ho.
  destruct (copy_root_docs_success root fs Hok) as (_ & _ & _ & _ & _ & Dtd & _).
  repeat split.
  - rewrite copy_root_docs_frame_path; [exact Ho | ..]; rewrite conf_py_root; path_fact.
  - exact Dtd.
  - replace (OsPath.join (TEMP_DOC_DIR root) "conf.py")
      with (TEMP_DOC_DIR root ++ "/" ++ "conf.py")
      by (rewrite conf_py_temp, TEMP_DOC_DIR_eq, app_assoc_s; reflexivity).
    rewrite (copy_root_docs_copies root "conf.py" fs Hok).
    replace (ROOT_DOC_DIR root ++ "/" ++ "conf.py")
      with (OsPath.join (ROOT_DOC_DIR root) "conf.py")
      by (rewrite conf_py_root, ROOT_DOC_DIR_eq, app_assoc_s; reflexivity).
    exact Ho.
Qed.

(** C6 (amended): [build_themes] validates first and, when the list is
    not valid, raises without doing anything else.  Otherwise it stages
    the documentation once, before any build, and then goes through the
    theme branches in their order and calls [build_main] for selected
    branches only, once for each, until a [build_theme] raises: then
    [build_themes] raises the same, [build_main] has been called for
    the selected branches before that one (and for that one, when it is
    its build that failed), and for none after it.  When staging
    succeeds and every selected branch can be built (its diff can be
    extracted, its configuration can be written, and [build_main]
    returns 0 on it), [build_themes] returns, and whenever it returns,
    [build_main] was called once for every selected branch. *)
Theorem build_themes_runs (E : Env) (tb : ThemeBuilder) (theme_list : list string)
    (w : World) :
  let root := REPO_ROOT_DIR E in
  let refs := theme_branche_refs tb in
  let run := build_themes E tb theme_list w in
  match validate_theme_list tb theme_list with
  | Raise e => run = (Raise e, w)
  | Ok _ =>
      (exists calls,
         log (snd run) = (log w ++ CopyRootDocs :: calls)%list
         /\ staged calls = 0
         /\ ((fst run = Ok tt /\ built calls = filter (selected theme_list) refs)
             \/ (exists e,
                   fst (copy_root_docs root (files w)) = Raise e
                   /\ fst run = Raise e /\ calls = [])
             \/ (exists pre branch_ref post w1 e,
                   refs = (pre ++ branch_ref :: post)%list
                   /\ selected theme_list branch_ref = true
                   /\ for_each pre (build_if_selected E tb theme_list) (snd (stage E w))
                      = (Ok tt, w1)
                   /\ build_theme E tb branch_ref w1 = (Raise e, snd run)
                   /\ fst run = Raise e
                   /\ (built calls = filter (selected theme_list) pre
                       \/ e = BuildException
                          /\ built calls
                             = (filter (selected theme_list) pre ++ [branch_ref])%list))))
      /\ (forall orig_bytes orig_conf,
            fst (copy_root_docs root (files w)) = Ok tt ->
            files w (OsPath.join (ROOT_DOC_DIR root) "conf.py")
            = Some (Fs.File orig_bytes) ->
            Encoding.decode (encoding E) orig_bytes = Some orig_conf ->
            (forall branch_ref,
               In branch_ref refs -> selected theme_list branch_ref = true ->
               exists conf_diff new_bytes,
                 get_diff_string E branch_ref "doc/conf.py" = Ok conf_diff
                 /\ Encoding.encode (encoding E)
                      (PyStr.universal_newlines orig_conf ++ conf_diff)
                    = Some new_bytes
                 /\ forall fs branch_name args,
                      fs (OsPath.join (TEMP_DOC_DIR root) "conf.py")
                      = Some (Fs.File new_bytes) ->
                      branch_name_of branch_ref = Ok branch_name ->
                      theme_build_args root tb branch_ref branch_name = Ok args ->
                      build_main E fs args = 0%Z) ->
            fst run = Ok tt)
  end.
Proof.
  intros root refs run. unfold run, build_themes, bindM, lift.
  destruct (validate_theme_list tb theme_list) as [[]|e] eqn:Hv; [|reflexivity].
  pose proof (validated_named tb theme_list Hv) as Hnamed. fold refs in Hnamed.
  assert (Hst : stage E w
                = (fst (copy_root_docs root (files w)),
                   {| files := snd (copy_root_docs root (files w));
                      log := (log w ++ [CopyRootDocs])%list |})).
  { unfold stage, bindM, emit, on_files. cbn [files log]. fold root.
    now destruct (copy_root_docs root (files w)) as [[[]|e] fs']. }
  rewrite Hst. cbn [snd].
  set (w0 := {| files := _; log := _ |}).
  destruct (fst (copy_root_docs root (files w))) as [[]|e] eqn:Hcopy.
  - fold refs. split.
    + destruct (loop_cases E tb theme_list refs w0 Hnamed) as (calls & Hl & Hs & Hcases).
      exists calls. rewrite Hl. cbn [log w0]. rewrite <- app_assoc.
      repeat split; [exact Hs|].
      destruct Hcases as [Hok | Hraise]; [left; exact Hok | right; right; exact Hraise].
    + intros orig_bytes orig_conf _ Ho Hdec Hcan.
      destruct (staged_ready root orig_bytes (files w) Hcopy Ho) as (Ho0 & Ht0 & Hc0).
      apply (loop_returns E tb theme_list refs orig_bytes orig_conf w0 Hnamed);
        cbn [files w0]; fold root; try assumption.
      rewrite Hc0. discriminate.
  - split.
    + exists []. cbn [fst snd log w0]. repeat split.
      right. left. exists e. auto.
    + intros ? ? H. discriminate H.
Qed.

Lemma build_themes_runs_witness :
  fst (build_themes Ex.env_alabaster_fails Ex.builder ["classic"] (Ex.world Ex.fs_stale))
  = Ok tt
  /\ exists calls,
       log (snd (build_themes Ex.env_alabaster_fails Ex.builder ["classic"]
                   (Ex.world Ex.fs_stale)))
       = (log (Ex.world Ex.fs_stale) ++ CopyRootDocs :: calls)%list
       /\ staged calls = 0
       /\ built calls = ["upstream_diff_repo/classic-theme"].
Proof.
  pose proof (build_themes_runs Ex.env_alabaster_fails Ex.builder ["classic"]
                (Ex.world Ex.fs_stale)) as H.
  cbv zeta in H.
  change (validate_theme_list Ex.builder ["classic"]) with (@Ok unit tt) in H.
  cbv iota in H. destruct H as [(calls & Hlog & Hst & Hcases) Hret].
  assert (Hok : fst (build_themes Ex.env_alabaster_fails Ex.builder ["classic"]
                       (Ex.world Ex.fs_stale)) = Ok tt).
  { apply (Hret ("project = 'nbsphinx'" ++ Ex.nl) ("project = 'nbsphinx'" ++ Ex.nl));
      try reflexivity.
    intros branch_ref [<- | [<- | []]] Hsel; [discriminate Hsel|].
    exists ("html_theme = 'classic'" ++ Ex.nl),
      (("project = 'nbsphinx'" ++ Ex.nl) ++ ("html_theme = 'classic'" ++ Ex.nl)).
    repeat split.
    intros fs branch_name args _ Hb Ha.
    vm_compute in Hb. injection Hb as <-.
    vm_compute in Ha. injection Ha as <-. reflexivity. }
  split; [exact Hok|].
  exists calls. repeat split; try assumption.
  destruct Hcases as [[_ Hb] | [(e & _ & He & _) | (pre & r & post & w1 & e & _ & _ & _ & _ & He & _)]].
  - exact Hb.
  - rewrite Hok in He. discriminate He.
  - rewrite Hok in He. discriminate He.
Defined.
